(** * pyzy: identity resolution, column ordering, late penalties and the
    merge engine, embedded from [src/pyzy/common.py], [src/pyzy/merge.py],
    [src/pyzy/score.py] and [merge_grades.py].

    Python strings are modelled as [string] (one [ascii] per character, so
    headers and ids are ASCII text); dictionaries as [gmap]; sets as [gset];
    lists as [list]; a raised exception as [None]. *)

From Stdlib Require Import ZArith Ascii String DecimalString Permutation Sorted.
From stdpp Require Import gmap strings list sets sorting.

Local Open Scope string_scope.
Local Open Scope Z_scope.
Local Open Scope list_scope.

(** ** Python string primitives *)

Module PyStr.

(** [str.isspace] on ASCII: tab, newline, vertical tab, form feed, carriage
    return, the four separators 0x1c-0x1f and space.  It is the set used by
    [str.strip()], [str.split()] and the regular expression class [\s]. *)
Definition is_space (c : ascii) : bool :=
  let n := N_of_ascii c in
  ((9 <=? n) && (n <=? 13) || (28 <=? n) && (n <=? 32))%N.

Definition is_digit (c : ascii) : bool :=
  let n := N_of_ascii c in ((48 <=? n) && (n <=? 57))%N.

Definition digit_val (c : ascii) : option Z :=
  if is_digit c then Some (Z.of_N (N_of_ascii c) - 48) else None.

Definition lower_char (c : ascii) : ascii :=
  let n := N_of_ascii c in
  if ((65 <=? n) && (n <=? 90))%N then ascii_of_N (n + 32) else c.

Definition upper_char (c : ascii) : ascii :=
  let n := N_of_ascii c in
  if ((97 <=? n) && (n <=? 122))%N then ascii_of_N (n - 32) else c.

Fixpoint map_chars (f : ascii -> ascii) (s : string) : string :=
  match s with
  | EmptyString => EmptyString
  | String c s' => String (f c) (map_chars f s')
  end.

(** [s.lower()] and [s.upper()]. *)
Definition lower : string -> string := map_chars lower_char.
Definition upper : string -> string := map_chars upper_char.

(** [s.replace(c, '')] for a one-character [c]. *)
Fixpoint remove_char (c : ascii) (s : string) : string :=
  match s with
  | EmptyString => EmptyString
  | String a s' =>
      if Ascii.eqb a c then remove_char c s' else String a (remove_char c s')
  end.

(** [s.replace(a, b)] for one-character [a] and [b]. *)
Definition replace_char (a b : ascii) : string -> string :=
  map_chars (fun c => if Ascii.eqb c a then b else c).

(** [s.lstrip(chars)], [s.rstrip(chars)] and [s.strip(chars)] for the
    characters satisfying [p]. *)
Fixpoint lstrip_by (p : ascii -> bool) (s : string) : string :=
  match s with
  | EmptyString => EmptyString
  | String c s' => if p c then lstrip_by p s' else s
  end.

Fixpoint rstrip_by (p : ascii -> bool) (s : string) : string :=
  match s with
  | EmptyString => EmptyString
  | String c s' =>
      match rstrip_by p s' with
      | EmptyString => if p c then EmptyString else String c EmptyString
      | r => String c r
      end
  end.

Definition strip_by (p : ascii -> bool) (s : string) : string :=
  rstrip_by p (lstrip_by p s).

(** [s.lstrip()], [s.rstrip()] and [s.strip()]. *)
Definition lstrip : string -> string := lstrip_by is_space.
Definition rstrip : string -> string := rstrip_by is_space.
Definition strip : string -> string := strip_by is_space.

(** [sub in s]. *)
Fixpoint contains (sub s : string) : bool :=
  String.prefix sub s ||
  match s with
  | EmptyString => false
  | String _ s' => contains sub s'
  end.

Fixpoint has_char (c : ascii) (s : string) : bool :=
  match s with
  | EmptyString => false
  | String a s' => Ascii.eqb a c || has_char c s'
  end.

(** [s.split(c)[0]]: the text before the first [c] (all of [s] without one). *)
Fixpoint before_char (c : ascii) (s : string) : string :=
  match s with
  | EmptyString => EmptyString
  | String a s' => if Ascii.eqb a c then EmptyString else String a (before_char c s')
  end.

(** One token of [s.split()]: the leading run of non-space characters and
    what follows it. *)
Fixpoint take_word (s : string) : string * string :=
  match s with
  | EmptyString => (EmptyString, EmptyString)
  | String c s' =>
      if is_space c then (EmptyString, s)
      else let '(w, r) := take_word s' in (String c w, r)
  end.

(** [s.split()[0]] and [s.split()[1]]; [None] is Python's [IndexError]. *)
Definition split_word0 (s : string) : option string :=
  match lstrip s with
  | EmptyString => None
  | t => Some (fst (take_word t))
  end.

Definition split_word1 (s : string) : option string :=
  match lstrip s with
  | EmptyString => None
  | t => match lstrip (snd (take_word t)) with
         | EmptyString => None
         | u => Some (fst (take_word u))
         end
  end.

(** [str(z)] for an [int]. *)
Definition of_Z (z : Z) : string := NilZero.string_of_int (Z.to_int z).

(** truthiness of a [str]. *)
Definition truthy (s : string) : bool :=
  match s with EmptyString => false | _ => true end.

End PyStr.

(** ** Python floats (IEEE binary64) and numbers *)

Module PyFloat.

(** A finite value is [mant * 2^expo], kept canonical ([mant] odd, or both
    zero); the sign of zero is not tracked ([-0.0 == 0.0] in every
    comparison of the program). *)
Inductive t : Type :=
  | Fin (mant expo : Z)
  | Inf (neg : bool)
  | NaN.

Fixpoint canon_pos (p : positive) (e : Z) : positive * Z :=
  match p with
  | xO p' => canon_pos p' (e + 1)
  | _ => (p, e)
  end.

Definition canon (m e : Z) : t :=
  match m with
  | Z0 => Fin 0 0
  | Zpos p => let '(q, e') := canon_pos p e in Fin (Zpos q) e'
  | Zneg p => let '(q, e') := canon_pos p e in Fin (Zneg q) e'
  end.

(** [n / d] rounded to the nearest integer, ties to even ([0 <= n], [0 < d]). *)
Definition rne (n d : Z) : Z :=
  let q := n / d in
  match 2 * (n mod d) ?= d with
  | Lt => q
  | Gt => q + 1
  | Eq => if Z.even q then q else q + 1
  end.

(** [2^e <= n / d] *)
Definition ge_pow2 (n d e : Z) : bool :=
  if 0 <=? e then d * 2 ^ e <=? n else d <=? n * 2 ^ (- e).

(** [n / d] ([0 < n], [0 < d]) rounded to binary64, round-to-nearest-even,
    with gradual underflow and overflow to infinity. *)
Definition round_ratio (neg : bool) (n d : Z) : t :=
  if n =? 0 then Fin 0 0 else
  let e0 := Z.log2 n - Z.log2 d in
  let e := if ge_pow2 n d e0 then e0 else e0 - 1 in
  let q := Z.max (e - 52) (-1074) in
  let m := if 0 <=? q then rne n (d * 2 ^ q) else rne (n * 2 ^ (- q)) d in
  if (971 <? q) || ((q =? 971) && (2 ^ 53 <=? m)) then Inf neg
  else canon (if neg then - m else m) q.

Definition round_dyadic (m e : Z) : t :=
  if 0 <=? e then round_ratio (m <? 0) (Z.abs m * 2 ^ e) 1
  else round_ratio (m <? 0) (Z.abs m) (2 ^ (- e)).

(** [float(z)] for an [int]; [None] is [OverflowError]. *)
Definition of_Z (z : Z) : option t :=
  match round_dyadic z 0 with
  | Inf _ => None
  | f => Some f
  end.

Definition sub (a b : t) : t :=
  match a, b with
  | NaN, _ | _, NaN => NaN
  | Inf x, Inf y => if Bool.eqb x y then NaN else Inf x
  | Inf x, Fin _ _ => Inf x
  | Fin _ _, Inf y => Inf (negb y)
  | Fin m1 e1, Fin m2 e2 =>
      let e := Z.min e1 e2 in
      round_dyadic (m1 * 2 ^ (e1 - e) - m2 * 2 ^ (e2 - e)) e
  end.

Definition mul (a b : t) : t :=
  match a, b with
  | NaN, _ | _, NaN => NaN
  | Fin m1 e1, Fin m2 e2 => round_dyadic (m1 * m2) (e1 + e2)
  | Inf x, Fin m _ | Fin m _, Inf x =>
      if m =? 0 then NaN else Inf (xorb x (m <? 0))
  | Inf x, Inf y => Inf (xorb x y)
  end.

(** [a <= b]; every comparison with [nan] is false. *)
Definition leb (a b : t) : bool :=
  match a, b with
  | NaN, _ | _, NaN => false
  | Inf x, Inf y => x || negb y
  | Inf x, Fin _ _ => x
  | Fin _ _, Inf y => negb y
  | Fin m1 e1, Fin m2 e2 =>
      let e := Z.min e1 e2 in
      m1 * 2 ^ (e1 - e) <=? m2 * 2 ^ (e2 - e)
  end.

(** [int(f)]; [None] is the [ValueError]/[OverflowError] of [nan]/[inf]. *)
Definition to_int (f : t) : option Z :=
  match f with
  | Fin m e => Some (if 0 <=? e then m * 2 ^ e else Z.quot m (2 ^ (- e)))
  | _ => None
  end.

(** [f == z] for an [int] [z]: exact comparison. *)
Definition eqb_Z (f : t) (z : Z) : bool :=
  match f with
  | Fin m e => (0 <=? e) && (m * 2 ^ e =? z)
  | _ => false
  end.

Definition eqb (a b : t) : bool :=
  match a, b with
  | Fin m1 e1, Fin m2 e2 => (m1 =? m2) && (e1 =? e2)
  | Inf x, Inf y => Bool.eqb x y
  | NaN, NaN => true
  | _, _ => false
  end.

(** *** [float(s)] for a [str]

    The decimal grammar of Python's [float]: sign, digits (single
    underscores allowed between digits), optional point and fraction,
    optional exponent; or [inf], [infinity], [nan].  The value is the
    correctly rounded binary64; [None] is [ValueError]. *)

Fixpoint digits_loop (s : string) (acc n : Z) : Z * Z * string :=
  match s with
  | String c s' =>
      match PyStr.digit_val c with
      | Some d => digits_loop s' (10 * acc + d) (n + 1)
      | None =>
          if Ascii.eqb c "_" then
            match s' with
            | String c2 s'' =>
                match PyStr.digit_val c2 with
                | Some d => digits_loop s'' (10 * acc + d) (n + 1)
                | None => (acc, n, s)
                end
            | EmptyString => (acc, n, s)
            end
          else (acc, n, s)
      end
  | EmptyString => (acc, n, s)
  end.

(** a possibly empty digit part: value, number of digits, rest *)
Definition digit_part (s : string) : Z * Z * string :=
  match s with
  | String c _ => if PyStr.is_digit c then digits_loop s 0 0 else (0, 0, s)
  | EmptyString => (0, 0, s)
  end.

Definition read_sign (s : string) : bool * string :=
  match s with
  | String "-" s' => (true, s')
  | String "+" s' => (false, s')
  | _ => (false, s)
  end.

(** the value [m * 10^e10] rounded to binary64 *)
Definition of_decimal (neg : bool) (m e10 : Z) : t :=
  if 0 <=? e10 then round_ratio neg (m * 10 ^ e10) 1
  else round_ratio neg m (10 ^ (- e10)).

Definition read_exponent (s : string) : option Z :=
  match s with
  | EmptyString => Some 0
  | String c s' =>
      if Ascii.eqb (PyStr.lower_char c) "e" then
        let '(eneg, s1) := read_sign s' in
        match digit_part s1 with
        | (ex, en, EmptyString) =>
            if 0 <? en then Some (if eneg then - ex else ex) else None
        | _ => None
        end
      else None
  end.

Definition of_string (s : string) : option t :=
  let '(neg, body) := read_sign (PyStr.strip s) in
  let low := PyStr.lower body in
  if String.eqb low "inf" || String.eqb low "infinity" then Some (Inf neg)
  else if String.eqb low "nan" then Some NaN
  else
    let '(ip, ni, r1) := digit_part body in
    let '(fp, nf, r2) :=
      match r1 with
      | String "." r => digit_part r
      | _ => (0, 0, r1)
      end in
    if ni + nf =? 0 then None
    else match read_exponent r2 with
         | Some ex => Some (of_decimal neg (ip * 10 ^ nf + fp) (ex - nf))
         | None => None
         end.

(** *** [repr(f)] = [str(f)]: the shortest decimal that reads back as [f] *)

Definition ge_pow10 (n d k : Z) : bool :=
  if 0 <=? k then d * 10 ^ k <=? n else d <=? n * 10 ^ (- k).

Fixpoint down10 (fuel : nat) (n d k : Z) : Z :=
  match fuel with
  | O => k
  | S f => if ge_pow10 n d k then k else down10 f n d (k - 1)
  end.

Fixpoint up10 (fuel : nat) (n d k : Z) : Z :=
  match fuel with
  | O => k
  | S f => if ge_pow10 n d (k + 1) then up10 f n d (k + 1) else k
  end.

(** [floor (log10 (n / d))] *)
Definition ilog10 (n d : Z) : Z :=
  up10 4 n d (down10 4 n d ((Z.log2 n - Z.log2 d) * 30103 / 100000)).

(** the [nd]-digit decimals just below and above [n / d]; the one that reads
    back as [target] (the nearer one when both do) *)
Definition candidate (n d k nd : Z) (target : t) : option (Z * Z) :=
  let s := k - nd + 1 in
  let '(xn, xd) := if 0 <=? s then (n, d * 10 ^ s) else (n * 10 ^ (- s), d) in
  let lo := xn / xd in
  let hi := lo + 1 in
  match eqb (of_decimal false lo s) target, eqb (of_decimal false hi s) target with
  | true, true =>
      match 2 * (xn mod xd) ?= xd with
      | Lt => Some (lo, s)
      | Gt => Some (hi, s)
      | Eq => Some (if Z.even lo then lo else hi, s)
      end
  | true, false => Some (lo, s)
  | false, true => Some (hi, s)
  | false, false => None
  end.

Fixpoint shortest (fuel : nat) (n d k nd : Z) (target : t) : option (Z * Z) :=
  match fuel with
  | O => None
  | S f =>
      match candidate n d k nd target with
      | Some r => Some r
      | None => shortest f n d k (nd + 1) target
      end
  end.

Fixpoint strip_zeros (fuel : nat) (dg s : Z) : Z * Z :=
  match fuel with
  | O => (dg, s)
  | S f => if dg mod 10 =? 0 then strip_zeros f (dg / 10) (s + 1) else (dg, s)
  end.

Definition zeros (k : Z) : string :=
  string_of_list_ascii (repeat "0"%char (Z.to_nat k)).

(** digits [ds] with the decimal point after [decpt] of them, laid out as
    [float_repr_style = 'short'] does *)
Definition layout (ds : string) (decpt : Z) : string :=
  let nd := Z.of_nat (String.length ds) in
  if (decpt <=? -4) || (16 <? decpt) then
    let ex := decpt - 1 in
    let mant :=
      match ds with
      | String c EmptyString => ds
      | String c r => String c (String "." r)
      | EmptyString => ds
      end in
    let exs := PyStr.of_Z (Z.abs ex) in
    mant +:+ "e" +:+ (if ex <? 0 then "-" else "+")
         +:+ (if Z.abs ex <? 10 then "0" else EmptyString) +:+ exs
  else if decpt <=? 0 then "0." +:+ zeros (- decpt) +:+ ds
  else if nd <=? decpt then ds +:+ zeros (decpt - nd) +:+ ".0"
  else String.substring 0 (Z.to_nat decpt) ds +:+ "."
       +:+ String.substring (Z.to_nat decpt) (Z.to_nat (nd - decpt)) ds.

Definition repr (f : t) : string :=
  match f with
  | NaN => "nan"
  | Inf true => "-inf"
  | Inf false => "inf"
  | Fin 0 _ => "0.0"
  | Fin m e =>
      let a := Z.abs m in
      let '(n, d) := if 0 <=? e then (a * 2 ^ e, 1) else (a, 2 ^ (- e)) in
      match shortest 17 n d (ilog10 n d) 1 (Fin a e) with
      | Some (dg, s) =>
          let '(dg', s') := strip_zeros 18 dg s in
          let ds := PyStr.of_Z dg' in
          (if m <? 0 then "-" else EmptyString)
            +:+ layout ds (s' + Z.of_nat (String.length ds))
      | None => EmptyString
      end
  end.

End PyFloat.

(** Python numbers: [int] and [float]. *)
Inductive PyNum : Type :=
  | PInt (z : Z)
  | PFloat (f : PyFloat.t).

Module PyNum.

(** [float(x)] of a number; [None] is [OverflowError]. *)
Definition to_float (x : PyNum) : option PyFloat.t :=
  match x with
  | PInt z => PyFloat.of_Z z
  | PFloat f => Some f
  end.

(** [x - y] and [x * y]: [int] arithmetic on two ints, otherwise both
    operands are converted to [float]. *)
Definition sub (x y : PyNum) : option PyNum :=
  match x, y with
  | PInt a, PInt b => Some (PInt (a - b))
  | _, _ =>
      match to_float x, to_float y with
      | Some a, Some b => Some (PFloat (PyFloat.sub a b))
      | _, _ => None
      end
  end.

Definition mul (x y : PyNum) : option PyNum :=
  match x, y with
  | PInt a, PInt b => Some (PInt (a * b))
  | _, _ =>
      match to_float x, to_float y with
      | Some a, Some b => Some (PFloat (PyFloat.mul a b))
      | _, _ => None
      end
  end.

(** [x <= y]: an exact comparison, also between [int] and [float]. *)
Definition leb (x y : PyNum) : bool :=
  match x, y with
  | PInt a, PInt b => a <=? b
  | PInt a, PFloat f => PyFloat.leb (PyFloat.Fin a 0) f
  | PFloat f, PInt b => PyFloat.leb f (PyFloat.Fin b 0)
  | PFloat f, PFloat g => PyFloat.leb f g
  end.

(** [str(x)], also what an f-string prints. *)
Definition str (x : PyNum) : string :=
  match x with
  | PInt z => PyStr.of_Z z
  | PFloat f => PyFloat.repr f
  end.

End PyNum.


(** ** Tables

    A cell of a pandas frame: Python [None], a [str], an [int] or a [float];
    a missing CSV field is the float [nan]. *)
Inductive Cell : Type :=
  | CNone
  | CStr (s : string)
  | CInt (z : Z)
  | CFloat (f : PyFloat.t).

Module Cell.

(** [pd.isna(c)] *)
Definition isna (c : Cell) : bool :=
  match c with
  | CNone | CFloat PyFloat.NaN => true
  | _ => false
  end.

(** [str(c)] *)
Definition str (c : Cell) : string :=
  match c with
  | CNone => "None"
  | CStr s => s
  | CInt z => PyStr.of_Z z
  | CFloat f => PyFloat.repr f
  end.

(** truthiness of [c] ([nan] is true) *)
Definition truthy (c : Cell) : bool :=
  match c with
  | CNone => false
  | CStr s => PyStr.truthy s
  | CInt z => negb (z =? 0)
  | CFloat (PyFloat.Fin m _) => negb (m =? 0)
  | CFloat _ => true
  end.

(** [c == '']: only the empty string equals it *)
Definition is_empty_str (c : Cell) : bool :=
  match c with CStr EmptyString => true | _ => false end.

End Cell.

(** A row ([Series], [row.to_dict()]) maps column labels to cells; a frame is
    its ordered column labels and its rows under a [RangeIndex], so the index
    label of a row is its position.  Column labels are the keys of the row
    dictionaries, hence pairwise distinct, as in every frame [read_csv]
    builds. *)
Record DataFrame : Type := mkDF {
  columns : list string;
  rows : list (gmap string Cell)
}.

(** [row[col]] for a label of the frame *)
Definition row_get (r : gmap string Cell) (col : string) : Cell :=
  default CNone (r !! col).

(** [df.at[idx, col] = v] into a column of Python objects (a column that
    holds text, or one created by [df[col] = '']): the one cell is replaced
    and every other cell is left as it is.  Into a column of numbers pandas
    may convert the whole column when [v] is of another type; what is said
    below about the cells of a written column is therefore said for columns
    that are new or hold text. *)
Definition df_set (df : DataFrame) (idx : nat) (col : string) (v : Cell)
  : DataFrame :=
  mkDF (columns df) (alter (fun r => <[col := v]> r) idx (rows df)).

(** [df.at[idx, col]] *)
Definition df_at (df : DataFrame) (idx : nat) (col : string) : Cell :=
  match rows df !! idx with
  | Some r => row_get r col
  | None => CNone
  end.

(** [df[col] = ''] for a new label [col] *)
Definition df_add_column (df : DataFrame) (col : string) : DataFrame :=
  mkDF (columns df ++ [col]) ((fun r => <[col := CStr EmptyString]> r) <$> rows df).

(** [df.iterrows()] *)
Definition iterrows (df : DataFrame) : list (nat * gmap string Cell) :=
  imap (fun i r => (i, r)) (rows df).

(** ** [src/pyzy/common.py] *)

Definition normalize_student_id (student_id : Cell) : option string :=
  if Cell.isna student_id then None
  else
    let id_str := PyStr.strip (Cell.str student_id) in
    if PyStr.has_char "." id_str then
      match PyFloat.of_string id_str with
      | Some id_float =>
          match PyFloat.to_int id_float with
          | Some i =>
              if PyFloat.eqb_Z id_float i then Some (PyStr.of_Z i)
              else Some id_str
          | None => Some id_str
          end
      | None => Some id_str
      end
    else Some id_str.

(** what [normalize_student_id] returns, as a value that can be passed back
    to it *)
Definition cell_of_id (r : option string) : Cell :=
  match r with
  | None => CNone
  | Some s => CStr s
  end.

Definition id_patterns : list string :=
  ["student id"; "studentid"; "student_id"; "sid"; "id"; "student number";
   "student_number"].

(** [col.lower().replace(' ', '').replace('_', '')] *)
Definition fold_id_header (col : string) : string :=
  PyStr.remove_char "_" (PyStr.remove_char " " (PyStr.lower col)).

(** the test of the inner loop of [find_student_id_column] *)
Definition id_col_matches (col : string) : bool :=
  let col_lower := fold_id_header col in
  existsb
    (fun pattern =>
       let pattern_clean :=
         PyStr.remove_char "_" (PyStr.remove_char " " pattern) in
       PyStr.contains pattern_clean col_lower
       || PyStr.contains col_lower pattern_clean)
    id_patterns.

Definition find_student_id_column (df : DataFrame) : option string :=
  List.find id_col_matches (columns df).

Definition extract_username_from_email (email : Cell) : string :=
  if Cell.isna email || negb (Cell.truthy email)
     || negb (PyStr.has_char "@" (Cell.str email))
  then EmptyString
  else PyStr.lower (PyStr.strip (PyStr.before_char "@" (Cell.str email))).

(** [s.lower().replace(' ', '').replace('_', '').replace('-', '')] *)
Definition fold_header (s : string) : string :=
  PyStr.remove_char "-"
    (PyStr.remove_char "_" (PyStr.remove_char " " (PyStr.lower s))).

(** [pattern.replace(' ', '').replace('_', '').replace('-', '')] *)
Definition clean_pattern (s : string) : string :=
  PyStr.remove_char "-" (PyStr.remove_char "_" (PyStr.remove_char " " s)).

Definition email_patterns : list string :=
  ["school email"; "schoolemail"; "school_email"].

Definition email_col_matches (col : string) : bool :=
  existsb (fun pattern => String.eqb (clean_pattern pattern) (fold_header col))
    email_patterns.

Definition find_email_column (df : DataFrame) : option string :=
  List.find email_col_matches (columns df).

(** ** [src/pyzy/merge.py]: column detection and ordering *)

Definition username_patterns : list string :=
  ["username"; "user name"; "user_name"].

Definition username_col_matches (col : string) : bool :=
  existsb (fun pattern => String.eqb (clean_pattern pattern) (fold_header col))
    username_patterns.

Definition find_username_column (df : DataFrame) : option string :=
  List.find username_col_matches (columns df).

(** the longest prefix of [s] whose characters satisfy [p], and the rest *)
Fixpoint span (p : ascii -> bool) (s : string) : string * string :=
  match s with
  | EmptyString => (EmptyString, EmptyString)
  | String c s' =>
      if p c then let '(a, b) := span p s' in (String c a, b)
      else (EmptyString, s)
  end.

(** [int(s)] for a run of digits *)
Definition int_of_digits (s : string) : Z :=
  fold_left (fun acc c => 10 * acc + default 0 (PyStr.digit_val c))
    (list_ascii_of_string s) 0.

Definition assignment_kinds : list string := ["PA"; "CA"; "IL"; "OL"].

(** [re.match(r'W(\d+)\s+(PA|CA|IL|OL)', s, re.IGNORECASE)]: groups 1 and 2.
    Each of [\d+] and [\s+] takes its whole run, since the character after a
    run can match neither the run's class nor, had the run been shortened,
    what follows it in the pattern. *)
Definition match_abbrev (s : string) : option (string * string) :=
  match s with
  | String w s1 =>
      if Ascii.eqb (PyStr.lower_char w) "w" then
        let '(digits, s2) := span PyStr.is_digit s1 in
        let '(spaces, s3) := span PyStr.is_space s2 in
        match digits, spaces, s3 with
        | String _ _, String _ _, String a (String b _) =>
            let kind := String a (String b EmptyString) in
            if existsb (String.eqb (PyStr.upper kind)) assignment_kinds
            then Some (digits, kind) else None
        | _, _, _ => None
        end
      else None
  | EmptyString => None
  end.

Definition assignment_type_order : list (string * Z) :=
  [("PA", 0); ("CA", 1); ("IL", 2); ("OL", 3)].

(** [d.get(k, dflt)] on a dictionary literal *)
Fixpoint dict_get {A} (d : list (string * A)) (k : string) (dflt : A) : A :=
  match d with
  | [] => dflt
  | (k', v) :: d' => if String.eqb k' k then v else dict_get d' k dflt
  end.

(** the tuple [(col, week_num, type_order)] for an assignment column *)
Definition assignment_key (col : string) : option (string * Z * Z) :=
  match match_abbrev (PyStr.strip col) with
  | Some (g1, g2) =>
      let week_num := int_of_digits g1 in
      let assignment_type := PyStr.upper g2 in
      let type_order := dict_get assignment_type_order assignment_type 99 in
      Some (col, week_num, type_order)
  | None => None
  end.

(** the order of the sort key [(x[1], x[2])] *)
Definition key_leb (x y : string * Z * Z) : bool :=
  let '(_, w1, t1) := x in
  let '(_, w2, t2) := y in
  (w1 <? w2) || ((w1 =? w2) && (t1 <=? t2)).

(** [list.sort(key=...)] is a stable sort; the result of a stable sort is
    determined by the key order, and is computed here by insertion. *)
Fixpoint insert_sorted (x : string * Z * Z) (l : list (string * Z * Z))
  : list (string * Z * Z) :=
  match l with
  | [] => [x]
  | y :: l' => if key_leb x y then x :: l else y :: insert_sorted x l'
  end.

Fixpoint sort_by_key (l : list (string * Z * Z)) : list (string * Z * Z) :=
  match l with
  | [] => []
  | x :: l' => insert_sorted x (sort_by_key l')
  end.

Definition assignment_cols (cols : list string) : list (string * Z * Z) :=
  omap assignment_key cols.

Definition non_assignment_cols (cols : list string) : list string :=
  List.filter (fun col => negb (bool_decide (is_Some (assignment_key col)))) cols.

Definition new_column_order (cols : list string) : list string :=
  non_assignment_cols cols
    ++ ((fun x => x.1.1) <$> sort_by_key (assignment_cols cols)).

(** [df[labels]] on the column labels: each label of the list selects, in
    turn, every column of the frame that carries it.  On a frame with
    pairwise distinct labels the result is the list [labels] itself; a label
    the frame carries [n] times brings [n] columns each time it is listed. *)
Definition select_columns (cols labels : list string) : list string :=
  flat_map (fun label => List.filter (String.eqb label) cols) labels.

Definition sort_assignment_columns (df : DataFrame) : DataFrame :=
  mkDF (select_columns (columns df) (new_column_order (columns df))) (rows df).

(** ** [src/pyzy/score.py]: the late-penalty evaluator *)

(** One entry of a [penalty] list; a field is [None] when its key is absent. *)
Record PenaltyEntry : Type := mkEntry {
  entry_days_late : option PyNum;
  entry_frac_deduction : option PyNum
}.

(** One rule of the adjustments file.  [adj_student] and [adj_assignment] are
    [None] when the key is absent; [adj_penalty] is [None] when the key is
    absent or null. *)
Record Adjustment : Type := mkAdj {
  adj_week : Z;
  adj_student : option string;
  adj_assignment : option string;
  adj_penalty : option (list PenaltyEntry)
}.

(** The [row] dictionary that [late_score] reads. *)
Record LateRow : Type := mkLateRow {
  row_assignment : string;
  row_first_name : string;
  row_last_name : string;
  row_after_score : PyNum;
  row_days_late : PyNum
}.

Record AdjInfo : Type := mkInfo {
  info_matched : bool;
  info_rule : option string;
  info_frac_deduction : PyNum
}.

Definition float_zero : PyNum := PFloat (PyFloat.Fin 0 0).

Definition no_adj : AdjInfo := mkInfo false None float_zero.

(** What one step of a loop body does: raise, [return] a value, or go on. *)
Inductive Outcome (A : Type) : Type :=
  | Raise
  | Return (a : A)
  | Continue.
Arguments Raise {A}.
Arguments Return {A} a.
Arguments Continue {A}.

(** [not penalty] *)
Definition not_penalty (penalty : option (list PenaltyEntry)) : bool :=
  match penalty with
  | None | Some [] => true
  | Some (_ :: _) => false
  end.

Definition waived (rule : string) (unpenalized_score : PyNum)
  : Outcome (PyNum * AdjInfo) :=
  Return (unpenalized_score, mkInfo true (Some rule) float_zero).

(** [for p in penalty: if 'days-late' in p: if days_late <= p['days-late']: ...],
    the loop written out in three of the four branches of [late_score];
    [who] is the text the branch puts before the colon of its rule. *)
Fixpoint scan_penalty (who : string) (penalty : list PenaltyEntry)
    (days_late unpenalized_score : PyNum) : Outcome (PyNum * AdjInfo) :=
  match penalty with
  | [] => Continue
  | p :: rest =>
      match entry_days_late p with
      | Some threshold =>
          if PyNum.leb days_late threshold then
            match entry_frac_deduction p with
            | None => Raise
            | Some frac =>
                let info :=
                  mkInfo true
                    (Some (who +:+ ": " +:+ PyNum.str frac
                             +:+ " deduction (days late <= "
                             +:+ PyNum.str threshold +:+ ")"))
                    frac in
                match PyNum.sub (PInt 1) frac with
                | Some keep =>
                    match PyNum.mul keep unpenalized_score with
                    | Some applied => Return (applied, info)
                    | None => Raise
                    end
                | None => Raise
                end
            end
          else scan_penalty who rest days_late unpenalized_score
      | None => scan_penalty who rest days_late unpenalized_score
      end
  end.

(** the body of [for adj in adjustments] *)
Definition late_score_rule (week assn student_name : string)
    (unpenalized_score days_late : PyNum) (adj : Adjustment)
  : Outcome (PyNum * AdjInfo) :=
  let penalty := adj_penalty adj in
  let adj_week_str := "W" +:+ PyStr.of_Z (adj_week adj) in
  if negb (String.eqb week adj_week_str) then Continue
  else
    match adj_student adj, adj_assignment adj with
    | None, None =>
        if not_penalty penalty then
          waived (week +:+ " all students, all assignments: penalty waived")
            unpenalized_score
        else Continue
    | None, Some a =>
        if String.eqb assn a then
          if not_penalty penalty then
            waived (week +:+ " all students, " +:+ assn +:+ ": penalty waived")
              unpenalized_score
          else
            scan_penalty (week +:+ " all students, " +:+ assn)
              (default [] penalty) days_late unpenalized_score
        else Continue
    | Some s, None =>
        if String.eqb student_name s then
          if not_penalty penalty then
            waived (week +:+ " " +:+ student_name
                      +:+ ", all assignments: penalty waived")
              unpenalized_score
          else
            scan_penalty (week +:+ " " +:+ student_name +:+ ", all assignments")
              (default [] penalty) days_late unpenalized_score
        else Continue
    | Some s, Some a =>
        if String.eqb student_name s && String.eqb assn a then
          if not_penalty penalty then
            waived (week +:+ " " +:+ student_name +:+ ", " +:+ assn
                      +:+ ": penalty waived")
              unpenalized_score
          else
            scan_penalty (week +:+ " " +:+ student_name +:+ ", " +:+ assn)
              (default [] penalty) days_late unpenalized_score
        else Continue
    end.

Fixpoint late_score_rules (week assn student_name : string)
    (unpenalized_score days_late : PyNum) (adjustments : list Adjustment)
  : option (PyNum * AdjInfo) :=
  match adjustments with
  | [] => Some (unpenalized_score, no_adj)
  | adj :: rest =>
      match late_score_rule week assn student_name unpenalized_score
              days_late adj with
      | Raise => None
      | Return r => Some r
      | Continue =>
          late_score_rules week assn student_name unpenalized_score
            days_late rest
      end
  end.

(** [late_score(row, adjustments)]; [None] is a raised exception
    ([IndexError] of [assignment.split()], [KeyError] of a penalty entry,
    [OverflowError] of the arithmetic). *)
Definition late_score (row : LateRow) (adjustments : list Adjustment)
  : option (PyNum * AdjInfo) :=
  match PyStr.split_word0 (row_assignment row),
        PyStr.split_word1 (row_assignment row) with
  | Some week, Some assn =>
      let student_name := row_first_name row +:+ " " +:+ row_last_name row in
      late_score_rules week assn student_name (row_after_score row)
        (row_days_late row) adjustments
  | _, _ => None
  end.

(** ** [src/pyzy/merge.py]: [merge_grades_from_assignments] *)

Definition truthy_opt (o : option string) : bool :=
  match o with
  | Some s => PyStr.truthy s
  | None => false
  end.

(** A detected column is only ever used under [if col:], so a falsy result
    of a detector counts as no column. *)
Definition found (col : option string) : option string :=
  if truthy_opt col then col else None.

(** [a or b] *)
Definition py_or (a b : option string) : option string :=
  if truthy_opt a then a else b.

(** [m[k]] under the guard [k and k in m] *)
Definition dict_find (m : gmap string nat) (k : option string) : option nat :=
  match k with
  | Some s => if PyStr.truthy s then m !! s else None
  | None => None
  end.

(** [s.add(k)] for a key of a matched row (such a key is never [None]) *)
Definition add_key (k : option string) (s : gset string) : gset string :=
  match k with
  | Some x => {[x]} ∪ s
  | None => s
  end.

Inductive MatchMethod : Type := ById | ByEmail.

Record Stats : Type := mkStats {
  grades_updated : nat;
  matched_by_id : nat;
  matched_by_email : nat;
  columns_added : nat
}.

Record Results : Type := mkResults {
  res_updated_dataframes : list (string * DataFrame);
  res_stats : gmap string Stats;
  res_matched_students : gset string;
  res_students_not_found : gset string;
  res_new_columns : list string;
  res_by_id : nat;
  res_by_email : nat;
  res_orphaned_rows : list (gmap string Cell);
  res_failed_id_match_rows : list (gmap string Cell)
}.

Definition empty_results : Results :=
  mkResults [] ∅ ∅ ∅ [] 0 0 [] [].

(** [results['matched_students'].add(key)] and the [match_methods] counter *)
Definition record_match (key : option string) (method : MatchMethod)
    (r : Results) : Results :=
  mkResults (res_updated_dataframes r) (res_stats r)
    (add_key key (res_matched_students r)) (res_students_not_found r)
    (res_new_columns r)
    (match method with ById => S (res_by_id r) | ByEmail => res_by_id r end)
    (match method with ById => res_by_email r | ByEmail => S (res_by_email r) end)
    (res_orphaned_rows r) (res_failed_id_match_rows r).

(** the two lookup tables built from a lecture frame *)
Definition lecture_username (lec_username_col lec_email_col : option string)
    (row : gmap string Cell) : option string :=
  match lec_username_col with
  | Some c =>
      if negb (Cell.isna (row_get row c))
      then Some (PyStr.lower (PyStr.strip (Cell.str (row_get row c))))
      else match lec_email_col with
           | Some e => Some (extract_username_from_email (row_get row e))
           | None => None
           end
  | None =>
      match lec_email_col with
      | Some e => Some (extract_username_from_email (row_get row e))
      | None => None
      end
  end.

Definition index_id (lec_id_col : option string)
    (student_map : gmap string nat) (idx : nat) (row : gmap string Cell)
  : gmap string nat :=
  match lec_id_col with
  | Some c =>
      match normalize_student_id (row_get row c) with
      | Some student_id =>
          if PyStr.truthy student_id then <[student_id := idx]> student_map
          else student_map
      | None => student_map
      end
  | None => student_map
  end.

Definition index_username (username : option string)
    (username_map : gmap string nat) (idx : nat) : gmap string nat :=
  match username with
  | Some u => if PyStr.truthy u then <[u := idx]> username_map else username_map
  | None => username_map
  end.

Definition build_maps (lecture_df : DataFrame)
    (lec_id_col lec_email_col lec_username_col : option string)
  : gmap string nat * gmap string nat :=
  fold_left
    (fun maps ir =>
       (index_id lec_id_col maps.1 ir.1 ir.2,
        index_username (lecture_username lec_username_col lec_email_col ir.2)
          maps.2 ir.1))
    (iterrows lecture_df) (∅, ∅).

(** the identifiers of one assignment row *)
Definition assign_ids (assign_id_col : string) (assign_email_col : option string)
    (assign_row : gmap string Cell) : option string * option string :=
  (normalize_student_id (row_get assign_row assign_id_col),
   match assign_email_col with
   | Some c => Some (extract_username_from_email (row_get assign_row c))
   | None => None
   end).

Definition student_key_of (ids : option string * option string) : option string :=
  py_or ids.1 ids.2.

(** State of the loop over the rows of one assignment frame, for one lecture
    frame. *)
Record LoopState : Type := mkLoop {
  ls_lecture_df : DataFrame;
  ls_grades_updated : nat;
  ls_matched_by_id : nat;
  ls_matched_by_email : nat;
  ls_failed_id_matches : list (gmap string Cell);
  ls_all_assignment_students : gset string;
  ls_students_matched_this_assignment : gset string;
  ls_results : Results
}.

(** the [lecture_row_idx] and [match_method] chosen for a row *)
Definition find_lecture_row (student_map username_map : gmap string nat)
    (ids : option string * option string) : option (nat * MatchMethod) :=
  match dict_find student_map ids.1 with
  | Some idx => Some (idx, ById)
  | None =>
      match dict_find username_map ids.2 with
      | Some idx => Some (idx, ByEmail)
      | None => None
      end
  end.

(** the row appended to [failed_id_matches] after a username match, if any *)
Definition id_mismatch_row (lecture_df : DataFrame) (lec_id_col : option string)
    (lecture_row_idx : nat) (assign_student_id : option string)
    (assign_row : gmap string Cell) : list (gmap string Cell) :=
  match lec_id_col with
  | Some c =>
      if truthy_opt assign_student_id then
        let lec_student_id :=
          normalize_student_id (df_at lecture_df lecture_row_idx c) in
        if truthy_opt lec_student_id
           && negb (bool_decide (assign_student_id = lec_student_id))
        then [assign_row] else []
      else []
  | None => []
  end.

(** the body of [for _, assign_row in assignment_df.iterrows()] *)
Definition merge_assign_row (abbrev_name assign_id_col grade_col : string)
    (assign_email_col lec_id_col : option string)
    (student_map username_map : gmap string nat)
    (st : LoopState) (assign_row : gmap string Cell) : LoopState :=
  let ids := assign_ids assign_id_col assign_email_col assign_row in
  let student_key := student_key_of ids in
  let all_students :=
    if truthy_opt student_key
    then add_key student_key (ls_all_assignment_students st)
    else ls_all_assignment_students st in
  match find_lecture_row student_map username_map ids with
  | None =>
      mkLoop (ls_lecture_df st) (ls_grades_updated st) (ls_matched_by_id st)
        (ls_matched_by_email st) (ls_failed_id_matches st) all_students
        (ls_students_matched_this_assignment st) (ls_results st)
  | Some (lecture_row_idx, method) =>
      let by_id :=
        match method with
        | ById => S (ls_matched_by_id st)
        | ByEmail => ls_matched_by_id st
        end in
      let by_email :=
        match method with
        | ById => ls_matched_by_email st
        | ByEmail => S (ls_matched_by_email st)
        end in
      let failed :=
        match method with
        | ById => ls_failed_id_matches st
        | ByEmail =>
            ls_failed_id_matches st
              ++ id_mismatch_row (ls_lecture_df st) lec_id_col lecture_row_idx
                   ids.1 assign_row
        end in
      let matched :=
        add_key student_key (ls_students_matched_this_assignment st) in
      let results := record_match student_key method (ls_results st) in
      let base_grade := row_get assign_row grade_col in
      if Cell.isna base_grade || Cell.is_empty_str base_grade then
        mkLoop (ls_lecture_df st) (ls_grades_updated st) by_id by_email failed
          all_students matched results
      else
        mkLoop (df_set (ls_lecture_df st) lecture_row_idx abbrev_name base_grade)
          (S (ls_grades_updated st)) by_id by_email failed all_students
          matched results
  end.

(** State of the loop over the lecture frames, for one assignment frame. *)
Record AssignState : Type := mkAssign {
  as_lecture_dfs : list (string * DataFrame);
  as_all_assignment_students : gset string;
  as_students_matched_this_assignment : gset string;
  as_results : Results
}.

Definition add_new_column (abbrev_name : string) (r : Results) : Results :=
  mkResults (res_updated_dataframes r) (res_stats r) (res_matched_students r)
    (res_students_not_found r)
    (if bool_decide (abbrev_name ∈ res_new_columns r) then res_new_columns r
     else res_new_columns r ++ [abbrev_name])
    (res_by_id r) (res_by_email r) (res_orphaned_rows r)
    (res_failed_id_match_rows r).

Definition finish_lecture (lecture_name : string) (st : LoopState) (r : Results)
  : Results :=
  let old := default (mkStats 0 0 0 0) (res_stats r !! lecture_name) in
  mkResults (res_updated_dataframes r)
    (<[lecture_name :=
         mkStats (grades_updated old + ls_grades_updated st)%nat
           (matched_by_id old + ls_matched_by_id st)%nat
           (matched_by_email old + ls_matched_by_email st)%nat
           (columns_added old)]> (res_stats r))
    (res_matched_students r) (res_students_not_found r) (res_new_columns r)
    (res_by_id r) (res_by_email r) (res_orphaned_rows r)
    (res_failed_id_match_rows r ++ ls_failed_id_matches st).

(** the lecture frame with the assignment's column, and the results after
    [results['new_columns']] is updated *)
Definition ensure_column (abbrev_name : string) (lecture_df : DataFrame)
    (r : Results) : DataFrame * Results :=
  if bool_decide (abbrev_name ∈ columns lecture_df) then (lecture_df, r)
  else (df_add_column lecture_df abbrev_name, add_new_column abbrev_name r).

(** the row loop for one lecture frame that has a matching column *)
Definition merge_rows (abbrev_name assign_id_col grade_col : string)
    (assign_email_col : option string) (assignment_df lecture_df : DataFrame)
    (all_students matched_this : gset string) (r : Results) : LoopState :=
  let lec_id_col := found (find_student_id_column lecture_df) in
  let lec_email_col := found (find_email_column lecture_df) in
  let lec_username_col := found (find_username_column lecture_df) in
  let maps := build_maps lecture_df lec_id_col lec_email_col lec_username_col in
  let '(lecture_df', r') := ensure_column abbrev_name lecture_df r in
  fold_left
    (merge_assign_row abbrev_name assign_id_col grade_col assign_email_col
       lec_id_col maps.1 maps.2)
    (rows assignment_df)
    (mkLoop lecture_df' 0 0 0 [] all_students matched_this r').

(** [not lec_id_col and not lec_email_col and not lec_username_col] *)
Definition lecture_unusable (lecture_df : DataFrame) : bool :=
  negb (truthy_opt (find_student_id_column lecture_df))
  && negb (truthy_opt (find_email_column lecture_df))
  && negb (truthy_opt (find_username_column lecture_df)).

(** the body of [for lecture_name, lecture_df in lecture_dfs.items()];
    [done] holds the entries already visited *)
Definition merge_into_lecture (abbrev_name assign_id_col grade_col : string)
    (assign_email_col : option string) (assignment_df : DataFrame)
    (acc : AssignState) (lecture : string * DataFrame) : AssignState :=
  let '(lecture_name, lecture_df) := lecture in
  if lecture_unusable lecture_df then
    mkAssign (as_lecture_dfs acc ++ [lecture])
      (as_all_assignment_students acc)
      (as_students_matched_this_assignment acc) (as_results acc)
  else
    let st :=
      merge_rows abbrev_name assign_id_col grade_col assign_email_col
        assignment_df lecture_df (as_all_assignment_students acc)
        (as_students_matched_this_assignment acc) (as_results acc) in
    mkAssign (as_lecture_dfs acc ++ [(lecture_name, ls_lecture_df st)])
      (ls_all_assignment_students st)
      (ls_students_matched_this_assignment st)
      (finish_lecture lecture_name st (ls_results st)).

(** [orphaned_students] and the rows appended to [results['orphaned_rows']] *)
Definition orphaned_students (acc : AssignState) : gset string :=
  as_all_assignment_students acc ∖ as_students_matched_this_assignment acc.

Definition orphaned_rows_of (assign_id_col : string)
    (assign_email_col : option string) (assignment_df : DataFrame)
    (orphaned : gset string) : list (gmap string Cell) :=
  List.filter
    (fun assign_row =>
       match student_key_of (assign_ids assign_id_col assign_email_col assign_row) with
       | Some k => PyStr.truthy k && bool_decide (k ∈ orphaned)
       | None => false
       end)
    (rows assignment_df).

Definition add_orphans (rows_ : list (gmap string Cell)) (r : Results) : Results :=
  mkResults (res_updated_dataframes r) (res_stats r) (res_matched_students r)
    (res_students_not_found r) (res_new_columns r) (res_by_id r)
    (res_by_email r) (res_orphaned_rows r ++ rows_)
    (res_failed_id_match_rows r).

(** the first column whose lowered label contains ['percent score'] *)
Definition find_grade_column (df : DataFrame) : option string :=
  List.find (fun col => PyStr.contains "percent score" (PyStr.lower col))
    (columns df).

(** the state after the lecture loop of one assignment *)
Definition after_lectures (abbrev_name assign_id_col grade_col : string)
    (assign_email_col : option string) (assignment_df : DataFrame)
    (lecture_dfs : list (string * DataFrame)) (r : Results) : AssignState :=
  fold_left
    (merge_into_lecture abbrev_name assign_id_col grade_col assign_email_col
       assignment_df)
    lecture_dfs (mkAssign [] ∅ ∅ r).

(** The body of [for assignment_file in assignment_files], from the point
    where the file name has been parsed into [abbrev_name] and the file has
    been read into [assignment_df]. *)
Definition merge_assignment (acc : list (string * DataFrame) * Results)
    (assignment : string * DataFrame) : list (string * DataFrame) * Results :=
  let '(lecture_dfs, r) := acc in
  let '(abbrev_name, assignment_df) := assignment in
  match found (find_student_id_column assignment_df),
        found (find_grade_column assignment_df) with
  | Some assign_id_col, Some grade_col =>
      let assign_email_col := found (find_email_column assignment_df) in
      let final :=
        after_lectures abbrev_name assign_id_col grade_col assign_email_col
          assignment_df lecture_dfs r in
      (as_lecture_dfs final,
       add_orphans
         (orphaned_rows_of assign_id_col assign_email_col assignment_df
            (orphaned_students final))
         (as_results final))
  | _, _ => acc
  end.

Definition set_updated (dfs : list (string * DataFrame)) (r : Results) : Results :=
  mkResults dfs (res_stats r) (res_matched_students r)
    (res_students_not_found r) (res_new_columns r) (res_by_id r)
    (res_by_email r) (res_orphaned_rows r) (res_failed_id_match_rows r).

(** [merge_grades_from_assignments], given the lecture frames by file name
    and the assignment frames whose file names parsed, by abbreviated name. *)
Definition merge_grades_from_assignments
    (lecture_dfs : list (string * DataFrame))
    (assignments : list (string * DataFrame)) : Results :=
  let '(dfs, r) := fold_left merge_assignment assignments (lecture_dfs, empty_results) in
  set_updated ((fun nd => (nd.1, sort_assignment_columns nd.2)) <$> dfs) r.

(** ** [merge_grades.py]: the column classifier and table matcher *)

(** [re.match(r'Week\s+\d+\s+', s, re.IGNORECASE)] *)
Definition match_week_prefix (s : string) : bool :=
  match s with
  | String a (String b (String c (String d s1))) =>
      String.eqb (PyStr.lower (String a (String b (String c (String d EmptyString))))) "week"
      && match span PyStr.is_space s1 with
         | (String _ _, s2) =>
             match span PyStr.is_digit s2 with
             | (String _ _, String e _) => PyStr.is_space e
             | _ => false
             end
         | _ => false
         end
  | _ => false
  end.

Definition is_gradeable_assignment (col_name : string) : bool :=
  if match_week_prefix (PyStr.strip col_name) then true
  else if bool_decide (is_Some (match_abbrev (PyStr.strip col_name))) then true
  else false.

(** the tail [\s*\([\d.]+\)$] of the pattern of [translate_assignment_name] *)
Definition is_points_suffix (t : string) : bool :=
  match PyStr.lstrip t with
  | String "(" r =>
      match span (fun c => PyStr.is_digit c || Ascii.eqb c ".") r with
      | (String _ _, String ")" EmptyString) => true
      | _ => false
      end
  | _ => false
  end.

(** group [(.+?)] followed by [(?:\s*\([\d.]+\))?$]: the shortest non-empty
    prefix without a newline after which the text ends or is a points
    suffix *)
Fixpoint lazy_group (r : string) : option string :=
  match r with
  | EmptyString => None
  | String c r' =>
      if Ascii.eqb c "010" then None
      else if String.eqb r' EmptyString || is_points_suffix r' then Some (String c EmptyString)
      else match lazy_group r' with
           | Some g => Some (String c g)
           | None => None
           end
  end.

(** [re.match(r'Week\s+(\d+)\s+(.+?)(?:\s*\([\d.]+\))?$', s)]: groups 1 and 2 *)
Definition match_week_full (s : string) : option (string * string) :=
  match s with
  | String "W" (String "e" (String "e" (String "k" s1))) =>
      match span PyStr.is_space s1 with
      | (String _ _, s2) =>
          match span PyStr.is_digit s2 with
          | (String d ds, s3) =>
              match span PyStr.is_space s3 with
              | (String _ _, s4) =>
                  match lazy_group s4 with
                  | Some g => Some (String d ds, g)
                  | None => None
                  end
              | _ => None
              end
          | _ => None
          end
      | _ => None
      end
  | _ => None
  end.

Definition type_map : list (string * string) :=
  [("Participation Activities", "PA"); ("In-Lab Labs", "IL");
   ("Challenge Activities", "CA"); ("Out-of-Lab Labs", "OL")].

Definition translate_assignment_name (col_name : string) : string :=
  match match_week_full (PyStr.strip col_name) with
  | None => col_name
  | Some (week_num, g2) =>
      let assignment_type := PyStr.strip g2 in
      match List.find
              (fun fa => String.eqb (PyStr.lower fa.1) (PyStr.lower assignment_type))
              type_map with
      | Some (_, abbrev) => "W" +:+ week_num +:+ " " +:+ abbrev
      | None => col_name
      end
  end.

Definition clean_assignment_name (col_name : string) : string :=
  PyStr.rstrip
    (if PyStr.has_char "[" col_name then PyStr.before_char "[" col_name
     else col_name).

Definition normalize_column_name (name : string) : string :=
  PyStr.strip
    (PyStr.replace_char "-" " " (PyStr.replace_char "_" " " (PyStr.lower name))).

Definition find_matching_column (lab_col : string) (lecture_cols : list string)
  : option string :=
  let normalized_lab := normalize_column_name (clean_assignment_name lab_col) in
  match List.find
          (fun lec_col =>
             String.eqb (normalize_column_name (clean_assignment_name lec_col))
               normalized_lab)
          lecture_cols with
  | Some lec_col => Some lec_col
  | None =>
      List.find
        (fun lec_col =>
           let normalized_lec :=
             normalize_column_name (clean_assignment_name lec_col) in
           PyStr.contains normalized_lab normalized_lec
           || PyStr.contains normalized_lec normalized_lab)
        lecture_cols
  end.

(** ** [merge_grades.py]: [merge_grades_from_master] *)

(** One entry of [failed_id_match_details]. *)
Record IdMismatch : Type := mkMismatch {
  mm_student_name : string;
  mm_email : Cell;
  mm_apparent_id : string;
  mm_matched_id : option string
}.

Record MasterResults : Type := mkMResults {
  mr_updated_dataframes : list (string * DataFrame);
  mr_stats : list (string * Stats);
  mr_students_not_found : list string;
  mr_orphaned_rows : list (gmap string Cell);
  mr_failed_id_match_rows : list IdMismatch;
  mr_new_columns : list string;
  mr_matched_students : gset string;
  mr_by_id : nat;
  mr_by_email : nat
}.

(** [d[k] = v] on an insertion-ordered dictionary *)
Fixpoint dict_set {K A} `{EqDecision K} (d : list (K * A)) (k : K) (v : A)
  : list (K * A) :=
  match d with
  | [] => [(k, v)]
  | (k', v') :: d' =>
      if decide (k' = k) then (k, v) :: d' else (k', v') :: dict_set d' k v
  end.

(** State of [merge_grades_from_master] inside the loop over the master rows
    for one lecture frame. *)
Record MasterState : Type := mkMaster {
  ms_lecture_df : DataFrame;
  ms_grades_updated : nat;
  ms_columns_added : nat;
  ms_matched_by_id : nat;
  ms_matched_by_email : nat;
  ms_all_master_students : gset string;
  ms_matched_master_indices : gset nat;
  ms_failed_id_match_details : list (nat * IdMismatch);
  ms_new_columns : list string;
  ms_matched_students : gset string;
  ms_by_id : nat;
  ms_by_email : nat
}.

(** the lookup tables of a lecture frame: ids and the username column *)
Definition index_master_username (lecture_username_col : option string)
    (m : gmap string nat) (idx : nat) (row : gmap string Cell)
  : gmap string nat :=
  match lecture_username_col with
  | Some c =>
      if negb (Cell.isna (row_get row c))
      then <[PyStr.lower (PyStr.strip (Cell.str (row_get row c))) := idx]> m
      else m
  | None => m
  end.

Definition build_master_maps (lecture_df : DataFrame)
    (lecture_id_col lecture_username_col : option string)
  : gmap string nat * gmap string nat :=
  fold_left
    (fun maps ir =>
       (index_id lecture_id_col maps.1 ir.1 ir.2,
        index_master_username lecture_username_col maps.2 ir.1 ir.2))
    (iterrows lecture_df) (∅, ∅).

(** the identifiers of one master row *)
Definition master_ids (master_id_col master_email_col : option string)
    (master_row : gmap string Cell) : option string * option string :=
  (match master_id_col with
   | Some c => normalize_student_id (row_get master_row c)
   | None => None
   end,
   match master_email_col with
   | Some c => Some (extract_username_from_email (row_get master_row c))
   | None => None
   end).

(** [master_student_id or master_username or "unknown"] *)
Definition identifier_of (ids : option string * option string) : string :=
  default "unknown" (py_or (py_or ids.1 ids.2) (Some "unknown")).

(** the [last_name] / [first_name] scan over the master columns *)
Definition name_field (part : string) (master_cols : list string)
    (master_row : gmap string Cell) : string :=
  fold_left
    (fun acc col =>
       if PyStr.contains part (PyStr.lower col)
          && PyStr.contains "name" (PyStr.lower col)
       then if negb (Cell.isna (row_get master_row col))
            then Cell.str (row_get master_row col) else EmptyString
       else acc)
    master_cols EmptyString.

Definition master_name (master_cols : list string)
    (master_row : gmap string Cell) : string :=
  PyStr.strip_by (fun c => Ascii.eqb c "," || Ascii.eqb c " ")
    (name_field "last" master_cols master_row +:+ ", "
       +:+ name_field "first" master_cols master_row).

(** the ['Matched ID (Lecture)'] field *)
Definition matched_lecture_id (lecture_df : DataFrame)
    (lecture_id_col : option string) (lecture_row_idx : nat) : option string :=
  match lecture_id_col with
  | Some c =>
      let raw := df_at lecture_df lecture_row_idx c in
      if Cell.truthy raw then normalize_student_id raw else Some "N/A"
  | None => Some "N/A"
  end.

Definition is_identification (raw_id_col raw_email_col : option string)
    (master_col : string) : bool :=
  bool_decide (Some master_col = raw_id_col)
  || bool_decide (Some master_col = raw_email_col)
  || PyStr.contains "name" (PyStr.lower master_col)
  || PyStr.contains "email" (PyStr.lower master_col)
  || PyStr.contains "section" (PyStr.lower master_col)
  || PyStr.contains "class" (PyStr.lower master_col).

(** the body of [for master_col in master_df.columns] *)
Definition transfer_grade (raw_id_col raw_email_col : option string)
    (master_row : gmap string Cell) (lecture_row_idx : nat)
    (st : MasterState) (master_col : string) : MasterState :=
  if is_identification raw_id_col raw_email_col master_col then st
  else if negb (is_gradeable_assignment master_col) then st
  else
    let grade := row_get master_row master_col in
    if Cell.isna grade || Cell.is_empty_str grade then st
    else
      let abbreviated_col := translate_assignment_name master_col in
      match find_matching_column abbreviated_col (columns (ms_lecture_df st)) with
      | Some lecture_col =>
          mkMaster (df_set (ms_lecture_df st) lecture_row_idx lecture_col grade)
            (S (ms_grades_updated st)) (ms_columns_added st)
            (ms_matched_by_id st) (ms_matched_by_email st)
            (ms_all_master_students st) (ms_matched_master_indices st)
            (ms_failed_id_match_details st) (ms_new_columns st)
            (ms_matched_students st) (ms_by_id st) (ms_by_email st)
      | None =>
          mkMaster
            (df_set (df_add_column (ms_lecture_df st) abbreviated_col)
               lecture_row_idx abbreviated_col grade)
            (S (ms_grades_updated st)) (S (ms_columns_added st))
            (ms_matched_by_id st) (ms_matched_by_email st)
            (ms_all_master_students st) (ms_matched_master_indices st)
            (ms_failed_id_match_details st)
            (if bool_decide (abbreviated_col ∈ ms_new_columns st)
             then ms_new_columns st
             else ms_new_columns st ++ [abbreviated_col])
            (ms_matched_students st) (ms_by_id st) (ms_by_email st)
      end.

(** the body of [for master_idx, master_row in master_df.iterrows()] *)
Definition merge_master_row (master_df : DataFrame)
    (master_id_col master_email_col lecture_id_col : option string)
    (student_id_map student_username_map : gmap string nat)
    (st : MasterState) (ir : nat * gmap string Cell) : MasterState :=
  let '(master_idx, master_row) := ir in
  let ids := master_ids master_id_col master_email_col master_row in
  let identifier := identifier_of ids in
  let seen := {[identifier]} ∪ ms_all_master_students st in
  match find_lecture_row student_id_map student_username_map ids with
  | None =>
      mkMaster (ms_lecture_df st) (ms_grades_updated st) (ms_columns_added st)
        (ms_matched_by_id st) (ms_matched_by_email st) seen
        (ms_matched_master_indices st) (ms_failed_id_match_details st)
        (ms_new_columns st) (ms_matched_students st) (ms_by_id st)
        (ms_by_email st)
  | Some (lecture_row_idx, method) =>
      let details :=
        match method, ids.1 with
        | ByEmail, Some master_student_id =>
            if PyStr.truthy master_student_id then
              dict_set (ms_failed_id_match_details st) master_idx
                (mkMismatch (master_name (columns master_df) master_row)
                   (match master_email_col with
                    | Some c => row_get master_row c
                    | None => CNone
                    end)
                   master_student_id
                   (matched_lecture_id (ms_lecture_df st) lecture_id_col
                      lecture_row_idx))
            else ms_failed_id_match_details st
        | _, _ => ms_failed_id_match_details st
        end in
      fold_left
        (transfer_grade (find_student_id_column master_df)
           (find_email_column master_df) master_row lecture_row_idx)
        (columns master_df)
        (mkMaster (ms_lecture_df st) (ms_grades_updated st)
           (ms_columns_added st)
           (match method with
            | ById => S (ms_matched_by_id st)
            | ByEmail => ms_matched_by_id st
            end)
           (match method with
            | ById => ms_matched_by_email st
            | ByEmail => S (ms_matched_by_email st)
            end)
           seen ({[master_idx]} ∪ ms_matched_master_indices st) details
           (ms_new_columns st) ({[identifier]} ∪ ms_matched_students st)
           (match method with
            | ById => S (ms_by_id st)
            | ByEmail => ms_by_id st
            end)
           (match method with
            | ById => ms_by_email st
            | ByEmail => S (ms_by_email st)
            end))
  end.

(** what is carried from one lecture frame to the next *)
Record MasterAcc : Type := mkMAcc {
  ma_updated_dataframes : list (string * DataFrame);
  ma_stats : list (string * Stats);
  ma_state : MasterState
}.

(** [not lecture_id_col and not lecture_username_col] *)
Definition master_lecture_unusable (lecture_df : DataFrame) : bool :=
  negb (truthy_opt (find_student_id_column lecture_df))
  && negb (truthy_opt (find_username_column lecture_df)).

(** the state after the row loop for one usable lecture frame; the
    per-lecture counters start at zero *)
Definition merge_master_rows (master_df lecture_df : DataFrame)
    (st : MasterState) : MasterState :=
  let master_id_col := found (find_student_id_column master_df) in
  let master_email_col := found (find_email_column master_df) in
  let lecture_id_col := found (find_student_id_column lecture_df) in
  let lecture_username_col := found (find_username_column lecture_df) in
  let maps := build_master_maps lecture_df lecture_id_col lecture_username_col in
  fold_left
    (merge_master_row master_df master_id_col master_email_col lecture_id_col
       maps.1 maps.2)
    (iterrows master_df)
    (mkMaster lecture_df 0 0 0 0 (ms_all_master_students st)
       (ms_matched_master_indices st) (ms_failed_id_match_details st)
       (ms_new_columns st) (ms_matched_students st) (ms_by_id st)
       (ms_by_email st)).

(** the body of [for lecture_name, lecture_df in lecture_data.items()] *)
Definition merge_master_lecture (master_df : DataFrame) (acc : MasterAcc)
    (lecture : string * DataFrame) : MasterAcc :=
  let '(lecture_name, lecture_df) := lecture in
  if master_lecture_unusable lecture_df then acc
  else
    let st := merge_master_rows master_df lecture_df (ma_state acc) in
    mkMAcc
      (dict_set (ma_updated_dataframes acc) lecture_name
         (sort_assignment_columns (ms_lecture_df st)))
      (dict_set (ma_stats acc) lecture_name
         (mkStats (ms_grades_updated st) (ms_matched_by_id st)
            (ms_matched_by_email st) (ms_columns_added st)))
      st.

Definition initial_master_state : MasterState :=
  mkMaster (mkDF [] []) 0 0 0 0 ∅ ∅ [] [] ∅ 0 0.

(** [a <= b] on [str]: lexicographic on character codes *)
Definition str_le (a b : string) : Prop := String.leb a b = true.

#[local] Instance str_le_dec : RelDecision str_le :=
  fun a b => decide (String.leb a b = true).

(** [sorted(list(s))] for a set of strings *)
Definition sorted_strings (s : gset string) : list string :=
  merge_sort str_le (elements s).

(** [merge_grades_from_master], given the master frame and the lecture
    frames by file name; [None] is the [ValueError] raised when the master
    frame has neither an id nor a school-email column. *)
Definition merge_grades_from_master (lecture_data : list (string * DataFrame))
    (master_df : DataFrame) : option MasterResults :=
  if negb (truthy_opt (find_student_id_column master_df))
     && negb (truthy_opt (find_email_column master_df))
  then None
  else
    let acc :=
      fold_left (merge_master_lecture master_df) lecture_data
        (mkMAcc [] [] initial_master_state) in
    let st := ma_state acc in
    Some
      (mkMResults (ma_updated_dataframes acc) (ma_stats acc)
         (sorted_strings (ms_all_master_students st ∖ ms_matched_students st))
         (snd <$> List.filter
                    (fun ir => negb (bool_decide (ir.1 ∈ ms_matched_master_indices st)))
                    (iterrows master_df))
         (snd <$> ms_failed_id_match_details st)
         (ms_new_columns st) (ms_matched_students st) (ms_by_id st)
         (ms_by_email st)).

(** ** Auxiliary notions used in the statements *)

(** every character of [s] satisfies [p] *)
Fixpoint all_chars (p : ascii -> bool) (s : string) : bool :=
  match s with
  | EmptyString => true
  | String c s' => p c && all_chars p s'
  end.

(** the characters of [str(z)]: digits or the minus sign *)
Definition is_int_char (c : ascii) : bool :=
  PyStr.is_digit c || Ascii.eqb c "-".

(** the sort key order: week ascending, then type rank ascending *)
Definition key_le (x y : string * Z * Z) : Prop :=
  x.1.2 < y.1.2 \/ (x.1.2 = y.1.2 /\ x.2 <= y.2).


(** the rank of an assignment type in the sort key *)
Definition type_rank (kind : string) : Z :=
  dict_get assignment_type_order kind 99.

(** a float literal, read as Python reads it *)
Definition flt (s : string) : PyNum :=
  PFloat (default PyFloat.NaN (PyFloat.of_string s)).

(** the rule [{week: 1, assignment: "PA", penalty: [{days-late: 2,
    frac-deduction: 0.1}]}] and the same rule without its [assignment] key *)
Definition penalty_2_days_10_percent : list PenaltyEntry :=
  [mkEntry (Some (PInt 2)) (Some (flt "0.1"))].

Definition rule_w1_pa : Adjustment :=
  mkAdj 1 None (Some "PA") (Some penalty_2_days_10_percent).

Definition rule_w1_global : Adjustment :=
  mkAdj 1 None None (Some penalty_2_days_10_percent).

(** the lookup tables that [merge_rows] and [merge_master_rows] build for a
    lecture frame *)
Definition lecture_maps (lecture_df : DataFrame)
  : gmap string nat * gmap string nat :=
  build_maps lecture_df (found (find_student_id_column lecture_df))
    (found (find_email_column lecture_df))
    (found (find_username_column lecture_df)).

Definition master_lecture_maps (lecture_df : DataFrame)
  : gmap string nat * gmap string nat :=
  build_master_maps lecture_df (found (find_student_id_column lecture_df))
    (found (find_username_column lecture_df)).

(** two states of [merge_grades_from_master] agree on everything but the
    lecture frame, its counters and the list of new columns *)
Definition same_bookkeeping (st' st : MasterState) : Prop :=
  ms_matched_by_id st' = ms_matched_by_id st
  /\ ms_matched_by_email st' = ms_matched_by_email st
  /\ ms_all_master_students st' = ms_all_master_students st
  /\ ms_matched_master_indices st' = ms_matched_master_indices st
  /\ ms_failed_id_match_details st' = ms_failed_id_match_details st
  /\ ms_matched_students st' = ms_matched_students st
  /\ ms_by_id st' = ms_by_id st
  /\ ms_by_email st' = ms_by_email st.

(** the identifiers of a master row, with the columns the run detects *)
Definition master_row_ids (master_df : DataFrame) (row : gmap string Cell)
  : option string * option string :=
  master_ids (found (find_student_id_column master_df))
    (found (find_email_column master_df)) row.

(** some cell of the record holds the id [id] *)
Definition row_mentions (r : gmap string Cell) (id : string) : Prop :=
  exists col c, r !! col = Some c /\ normalize_student_id c = Some id.

(** A destination with row A (id "111", username "alice") and row B
    (id "222", username "alice2"). *)
Definition lecture_ab : DataFrame :=
  mkDF ["Student ID"; "Username"]
    [ {[ "Student ID" := CStr "111"; "Username" := CStr "alice" ]};
      {[ "Student ID" := CStr "222"; "Username" := CStr "alice2" ]} ].

(** A source row with id "111" and email "alice2@x.edu", as an assignment
    file and as a master gradebook. *)
Definition assignment_111 : DataFrame :=
  mkDF ["Student ID"; "School email"; "Percent score"]
    [ {[ "Student ID" := CStr "111"; "School email" := CStr "alice2@x.edu";
         "Percent score" := CInt 95 ]} ].

Definition master_111 : DataFrame :=
  mkDF ["Student ID"; "School email"; "Week 1 Participation Activities (10)"]
    [ {[ "Student ID" := CStr "111"; "School email" := CStr "alice2@x.edu";
         "Week 1 Participation Activities (10)" := CInt 95 ]} ].

(** A source row with id "999", absent from the destination, and the email
    of row A. *)
Definition row_999 : gmap string Cell :=
  {[ "Student ID" := CStr "999"; "School email" := CStr "alice@x.edu";
     "Percent score" := CInt 95 ]}.

Definition assignment_999 : DataFrame :=
  mkDF ["Student ID"; "School email"; "Percent score"] [row_999].

Definition master_999 : DataFrame :=
  mkDF ["Last name"; "First name"; "Student ID"; "School email";
        "Week 1 Participation Activities (10)"]
    [ {[ "Last name" := CStr "Liddell"; "First name" := CStr "Alice";
         "Student ID" := CStr "999"; "School email" := CStr "alice@x.edu";
         "Week 1 Participation Activities (10)" := CInt 95 ]} ].

(** The destination [lecture_ab] with a column ["W1 PA"] that already holds
    text: nothing for row A, ["excused"] for row B. *)
Definition lecture_ab_w1 : DataFrame :=
  mkDF ["Student ID"; "Username"; "W1 PA"]
    [ {[ "Student ID" := CStr "111"; "Username" := CStr "alice";
         "W1 PA" := CFloat PyFloat.NaN ]};
      {[ "Student ID" := CStr "222"; "Username" := CStr "alice2";
         "W1 PA" := CStr "excused" ]} ].

(** Two more source rows: one with the id "999" again and an email that is
    nobody's in the destination, one with an id and an email that are both
    unknown there. *)
Definition row_999_stray : gmap string Cell :=
  {[ "Student ID" := CStr "999"; "School email" := CStr "nobody@x.edu";
     "Percent score" := CInt 80 ]}.

Definition row_555 : gmap string Cell :=
  {[ "Student ID" := CStr "555"; "School email" := CStr "zed@x.edu";
     "Percent score" := CInt 70 ]}.

Definition assignment_mixed : DataFrame :=
  mkDF ["Student ID"; "School email"; "Percent score"]
    [row_999; row_999_stray; row_555].

Definition master_row (last first id email : string) (grade : Z)
  : gmap string Cell :=
  {[ "Last name" := CStr last; "First name" := CStr first;
     "Student ID" := CStr id; "School email" := CStr email;
     "Week 1 Participation Activities (10)" := CInt grade ]}.

Definition master_mixed : DataFrame :=
  mkDF ["Last name"; "First name"; "Student ID"; "School email";
        "Week 1 Participation Activities (10)"]
    [ master_row "Liddell" "Alice" "999" "alice@x.edu" 95;
      master_row "Liddell" "Alice" "999" "nobody@x.edu" 80;
      master_row "Zed" "Zoe" "555" "zed@x.edu" 70 ].

(** A destination without any identity column. *)
Definition lecture_names_only : DataFrame :=
  mkDF ["Name"] [ {[ "Name" := CStr "Alice" ]} ].

(** A second destination, in which the username "alice" has the id "333". *)
Definition lecture_c : DataFrame :=
  mkDF ["Student ID"; "Username"]
    [ {[ "Student ID" := CStr "333"; "Username" := CStr "alice" ]} ].


(** ** [src/pyzy/common.py]: [parse_assignment_filename] and the line repair
    of [read_csv_with_trailing_comma_fix] *)

(** the class [[_\s]] *)
Definition is_sep (c : ascii) : bool := Ascii.eqb c "_" || PyStr.is_space c.

(** [w] matched case-insensitively at the start of [s]: the matched text and
    the rest *)
Fixpoint ci_prefix (w s : string) : option (string * string) :=
  match w with
  | EmptyString => Some (EmptyString, s)
  | String a w' =>
      match s with
      | String b s' =>
          if Ascii.eqb (PyStr.lower_char a) (PyStr.lower_char b) then
            match ci_prefix w' s' with
            | Some (m, r) => Some (String b m, r)
            | None => None
            end
          else None
      | EmptyString => None
      end
  end.

(** an alternation [(w1|w2|...)] at the start of [s] *)
Fixpoint first_alt (alts : list string) (s : string) : option (string * string) :=
  match alts with
  | [] => None
  | w :: alts' =>
      match ci_prefix w s with
      | Some r => Some r
      | None => first_alt alts' s
      end
  end.

(** [re.search(f, s)]: the match at the leftmost position where [f] matches *)
Fixpoint re_search {A} (f : string -> option A) (s : string) : option A :=
  match f s with
  | Some r => Some r
  | None =>
      match s with
      | String _ s' => re_search f s'
      | EmptyString => None
      end
  end.

(** [Week[_\s]+(\d+)[_\s]+(Participation|Challenge|In-Lab|Out-of-Lab)[_\s]+(Activities|Labs)]
    at the start of [s], ignoring case: groups 1, 2 and 3.  Every run is
    taken whole and at most one alternative fits, since what follows a run
    is outside its class and the alternatives start with different
    letters. *)
Definition match_zybooks (s : string) : option (string * string * string) :=
  match ci_prefix "Week" s with
  | Some (_, s1) =>
      match span is_sep s1 with
      | (String _ _, s2) =>
          match span PyStr.is_digit s2 with
          | (String d ds, s3) =>
              match span is_sep s3 with
              | (String _ _, s4) =>
                  match first_alt ["Participation"; "Challenge"; "In-Lab"; "Out-of-Lab"] s4 with
                  | Some (ty, s5) =>
                      match span is_sep s5 with
                      | (String _ _, s6) =>
                          match first_alt ["Activities"; "Labs"] s6 with
                          | Some (kind, _) => Some (String d ds, ty, kind)
                          | None => None
                          end
                      | _ => None
                      end
                  | None => None
                  end
              | _ => None
              end
          | _ => None
          end
      | _ => None
      end
  | None => None
  end.

(** [(W\d+)[_\s]+(PA|CA|IL|OL)] at the start of [s], ignoring case: groups 1
    and 2 *)
Definition match_simplified (s : string) : option (string * string) :=
  match s with
  | String w s1 =>
      if Ascii.eqb (PyStr.lower_char w) "w" then
        match span PyStr.is_digit s1 with
        | (String d ds, s2) =>
            match span is_sep s2 with
            | (String _ _, String a (String b _)) =>
                let kind := String a (String b EmptyString) in
                if existsb (String.eqb (PyStr.upper kind)) assignment_kinds
                then Some (String w (String d ds), kind) else None
            | _ => None
            end
        | _ => None
        end
      else None
  | EmptyString => None
  end.

(** [d.get(k, None)] on a dictionary literal *)
Fixpoint dict_lookup {A} (d : list (string * A)) (k : string) : option A :=
  match d with
  | [] => None
  | (k', v) :: d' => if String.eqb k' k then Some v else dict_lookup d' k
  end.

Definition filename_type_map : list (string * string) :=
  [("Participation Activities", "PA"); ("Challenge Activities", "CA");
   ("In-Lab Labs", "IL"); ("Out-of-Lab Labs", "OL")].

(** [parse_assignment_filename], from [stem = Path(filename).stem] on: the
    pair [(full_name, abbrev_name)], [None] for Python's [(None, None)] *)
Definition parse_assignment_stem (stem : string) : option (string * string) :=
  let simplified :=
    match re_search match_simplified stem with
    | Some (g1, g2) =>
        let abbrev_name := PyStr.upper g1 +:+ " " +:+ PyStr.upper g2 in
        Some (abbrev_name, abbrev_name)
    | None => None
    end in
  match re_search match_zybooks stem with
  | Some (week_num, g2, g3) =>
      let assignment_type := PyStr.strip g2 in
      let assignment_kind := PyStr.strip g3 in
      match dict_lookup filename_type_map
              (assignment_type +:+ " " +:+ assignment_kind) with
      | Some abbrev_type =>
          Some ("Week " +:+ week_num +:+ " " +:+ assignment_type +:+ " "
                  +:+ assignment_kind,
                "W" +:+ week_num +:+ " " +:+ abbrev_type)
      | None => simplified
      end
  | None => simplified
  end.

(** the body of the loop over the lines of the file:
    [line.rstrip('\n\r')], one trailing comma dropped, a newline added *)
Definition is_newline_char (c : ascii) : bool :=
  Ascii.eqb c "010" || Ascii.eqb c "013".

Fixpoint drop_last_comma (s : string) : string :=
  match s with
  | EmptyString => EmptyString
  | String c EmptyString => if Ascii.eqb c "," then EmptyString else s
  | String c s' => String c (drop_last_comma s')
  end.

Definition fix_line (line : string) : string :=
  drop_last_comma (PyStr.rstrip_by is_newline_char line) +:+ String "010" EmptyString.

(** ** [src/pyzy/activity.py] *)

(** the body of the row loop of [apply_scores_to_gradebook]: the frame and
    the [updated] counter *)
Definition apply_score_row (lec_username_col lec_email_col : option string)
    (score_map : gmap string Cell) (column_name : string)
    (acc : DataFrame * nat) (ir : nat * gmap string Cell) : DataFrame * nat :=
  match lecture_username lec_username_col lec_email_col ir.2 with
  | Some username =>
      if PyStr.truthy username then
        match score_map !! username with
        | Some score => (df_set acc.1 ir.1 column_name score, S acc.2)
        | None => acc
        end
      else acc
  | None => acc
  end.

(** [apply_scores_to_gradebook(df, score_map, column_name)]: the frame after
    the call and the number of rows updated *)
Definition apply_scores_to_gradebook (df : DataFrame)
    (score_map : gmap string Cell) (column_name : string) : DataFrame * nat :=
  let lec_email_col := found (find_email_column df) in
  let lec_username_col := found (find_username_column df) in
  let df' :=
    if bool_decide (column_name ∈ columns df) then df
    else df_add_column df column_name in
  fold_left (apply_score_row lec_username_col lec_email_col score_map column_name)
    (iterrows df') (df', 0%nat).

(** [a < b] on floats and numbers, and [max(a, b)] *)
Definition float_ltb (a b : PyFloat.t) : bool :=
  match a, b with
  | PyFloat.NaN, _ | _, PyFloat.NaN => false
  | PyFloat.Inf x, PyFloat.Inf y => x && negb y
  | PyFloat.Inf x, PyFloat.Fin _ _ => x
  | PyFloat.Fin _ _, PyFloat.Inf y => negb y
  | PyFloat.Fin m1 e1, PyFloat.Fin m2 e2 =>
      let e := Z.min e1 e2 in
      m1 * 2 ^ (e1 - e) <? m2 * 2 ^ (e2 - e)
  end.

Definition num_ltb (x y : PyNum) : bool :=
  match x, y with
  | PInt a, PInt b => a <? b
  | PInt a, PFloat f => float_ltb (PyFloat.Fin a 0) f
  | PFloat f, PInt b => float_ltb f (PyFloat.Fin b 0)
  | PFloat f, PFloat g => float_ltb f g
  end.

Definition py_max (a b : PyNum) : PyNum := if num_ltb a b then b else a.

(** a row of the frame [parse_activity_report] returns, as far as the
    drivers read it: [row['Username']] and [row['Percent']] *)
Record BestRow : Type := mkBest {
  best_username : string;
  best_percent : PyNum
}.

(** the body of the row loop of [_run_aggregated]: [combined] maps a
    username to [(max_score, count)] *)
Definition combine_row (combined : gmap string (PyNum * nat)) (row : BestRow)
  : gmap string (PyNum * nat) :=
  if negb (PyStr.truthy (best_username row)) then combined
  else
    match combined !! best_username row with
    | Some (max_score, count) =>
        <[best_username row := (py_max max_score (best_percent row), S count)]>
          combined
    | None => <[best_username row := (best_percent row, 1%nat)]> combined
    end.

(** [combined] after all the reports *)
Definition combine_reports (reports : list (list BestRow))
  : gmap string (PyNum * nat) :=
  fold_left (fun combined best => fold_left combine_row best combined) reports ∅.

(** the [score_map] of [_run_per_column] for one report *)
Definition per_column_score_map (best : list BestRow) : gmap string PyNum :=
  fold_left
    (fun score_map row =>
       if PyStr.truthy (best_username row)
       then <[best_username row := best_percent row]> score_map
       else score_map)
    best ∅.

(** ** Further notions used in the statements *)

(** the master row matches in some usable lecture frame *)
Definition matched_somewhere (lecture_data : list (string * DataFrame))
    (master_df : DataFrame) (row : gmap string Cell) : bool :=
  existsb
    (fun l =>
       negb (master_lecture_unusable l.2)
       && bool_decide
            (is_Some (find_lecture_row (master_lecture_maps l.2).1
                        (master_lecture_maps l.2).2
                        (master_row_ids master_df row))))
    lecture_data.

(** the week a rule is for, as [late_score] compares it *)
Definition rule_week (adj : Adjustment) : string :=
  "W" +:+ PyStr.of_Z (adj_week adj).

(** the number of elements of [l] satisfying [f] *)
Definition count_if {A} (f : A -> bool) (l : list A) : nat :=
  length (List.filter f l).

(** the row carries a grade: [not (pd.isna(base_grade) or base_grade == '')] *)
Definition has_grade (grade_col : string) (r : gmap string Cell) : bool :=
  negb (Cell.isna (row_get r grade_col) || Cell.is_empty_str (row_get r grade_col)).

(** the lecture row and method that [merge_rows] finds for an assignment row *)
Definition lecture_hit (assign_id_col : string) (assign_email_col : option string)
    (lecture_df : DataFrame) (r : gmap string Cell) : option (nat * MatchMethod) :=
  find_lecture_row (lecture_maps lecture_df).1 (lecture_maps lecture_df).2
    (assign_ids assign_id_col assign_email_col r).

Definition hit_by (m : MatchMethod) (h : option (nat * MatchMethod)) : bool :=
  match h, m with
  | Some (_, ById), ById => true
  | Some (_, ByEmail), ByEmail => true
  | _, _ => false
  end.

(** the row of [assignment_111] *)
Definition row_111 : gmap string Cell :=
  {[ "Student ID" := CStr "111"; "School email" := CStr "alice2@x.edu";
     "Percent score" := CInt 95 ]}.

(** the output frame [out] keeps the lecture frame [l]: same name, same
    number of rows, every old column, new columns only among [names],
    distinct labels if they were distinct, and the old value in every cell
    outside the columns [names] *)
Definition frame_kept (names : list string) (out l : string * DataFrame) : Prop :=
  out.1 = l.1
  /\ length (rows out.2) = length (rows l.2)
  /\ (forall c, c ∈ columns l.2 -> c ∈ columns out.2)
  /\ (forall c, c ∈ columns out.2 -> c ∈ columns l.2 \/ c ∈ names)
  /\ (NoDup (columns l.2) -> NoDup (columns out.2))
  /\ (forall j c, c ∉ names -> df_at out.2 j c = df_at l.2 j c).

(** the rule is for this week, and for this student and this assignment
    where it names one *)
Definition rule_targets (week assn student_name : string) (adj : Adjustment)
  : bool :=
  String.eqb week (rule_week adj)
  && match adj_student adj with
     | Some s => String.eqb student_name s
     | None => true
     end
  && match adj_assignment adj with
     | Some a => String.eqb assn a
     | None => true
     end.

(** no entry of the penalty list covers [days_late] *)
Definition beyond_thresholds (days_late : PyNum) (penalty : list PenaltyEntry)
  : Prop :=
  Forall (fun q => match entry_days_late q with
                   | Some t => PyNum.leb days_late t = false
                   | None => True
                   end) penalty.

(** some master row resolves to row [j] of the lecture frame *)
Definition master_touches (master_df lecture_df : DataFrame) (j : nat) : Prop :=
  exists row m,
    row ∈ rows master_df
    /\ find_lecture_row (master_lecture_maps lecture_df).1
         (master_lecture_maps lecture_df).2 (master_row_ids master_df row)
       = Some (j, m).

(** The column [col] of the frame holds a [str] in some row.  pandas keeps
    such a column as a column of Python objects (dtype [object]), and
    [df.at[idx, col] = v] then stores [v] in the one cell, as [df_set] does;
    a column created by [df[col] = ''] is of the same kind.  Into a column
    of numbers [df.at] may convert the whole column when [v] is of another
    type, so what is said about the cells of a written column is said for
    columns that are new or hold text. *)
Definition holds_text (df : DataFrame) (col : string) : Prop :=
  exists i s, df_at df i col = CStr s.

(** no gradeable column of the master frame can be matched to the lecture
    column [c]: the cleaned and normalized names contain each other in
    neither direction *)
Definition master_column_free (master_df : DataFrame) (c : string) : Prop :=
  forall mc,
    mc ∈ columns master_df -> is_gradeable_assignment mc = true ->
    PyStr.contains
      (normalize_column_name (clean_assignment_name (translate_assignment_name mc)))
      (normalize_column_name (clean_assignment_name c)) = false
    /\ PyStr.contains
         (normalize_column_name (clean_assignment_name c))
         (normalize_column_name
            (clean_assignment_name (translate_assignment_name mc))) = false.

(** the frame [out] returned for the lecture frame [l]: same number of
    rows, every old column, new columns only under translated names of
    gradeable master columns, distinct labels if they were distinct, the old
    value in every cell of an old column that no master column can be
    matched to, and the old value in every old column [c] with [text c] of
    a row no master row resolves to *)
Definition master_frame_kept (master_df : DataFrame) (touched : nat -> Prop)
    (text : string -> Prop) (out l : DataFrame) : Prop :=
  length (rows out) = length (rows l)
  /\ (forall c, c ∈ columns l -> c ∈ columns out)
  /\ (forall c, c ∈ columns out ->
        c ∈ columns l
        \/ exists mc, mc ∈ columns master_df
             /\ is_gradeable_assignment mc = true
             /\ c = translate_assignment_name mc)
  /\ (NoDup (columns l) -> NoDup (columns out))
  /\ (forall j c, c ∈ columns l -> master_column_free master_df c ->
        df_at out j c = df_at l j c)
  /\ (forall j c, ~ touched j -> c ∈ columns l -> text c ->
        df_at out j c = df_at l j c).

(** the lecture frame's student-id column receives no grade from the master
    frame *)
Definition id_column_free (master_df lecture_df : DataFrame) : Prop :=
  forall c,
    found (find_student_id_column lecture_df) = Some c ->
    master_column_free master_df c.

(** The record that [merge_grades_from_master] stores for a master row while
    it processes the lecture frame [lecture_df]: there is one when the row
    is matched by username and carries a student id.  The lecture row's id
    is read off [frame], the lecture frame as it stands at that moment. *)
Definition fallback_record_at (master_df lecture_df frame : DataFrame)
    (row : gmap string Cell) : option IdMismatch :=
  let ids := master_row_ids master_df row in
  match find_lecture_row (master_lecture_maps lecture_df).1
          (master_lecture_maps lecture_df).2 ids with
  | Some (lecture_row_idx, ByEmail) =>
      match ids.1 with
      | Some master_student_id =>
          if PyStr.truthy master_student_id then
            Some (mkMismatch (master_name (columns master_df) row)
                    (match found (find_email_column master_df) with
                     | Some c => row_get row c
                     | None => CNone
                     end)
                    master_student_id
                    (matched_lecture_id frame
                       (found (find_student_id_column lecture_df))
                       lecture_row_idx))
          else None
      | None => None
      end
  | _ => None
  end.

(** the same record, with the id of the lecture row as the file has it *)
Definition fallback_record (master_df lecture_df : DataFrame)
    (row : gmap string Cell) : option IdMismatch :=
  fallback_record_at master_df lecture_df lecture_df row.

(** the record of the last usable lecture frame in which the row is matched
    by username while it carries an id *)
Definition last_fallback_record (master_df : DataFrame)
    (lecture_data : list (string * DataFrame)) (row : gmap string Cell)
  : option IdMismatch :=
  fold_left
    (fun acc l =>
       if master_lecture_unusable l.2 then acc
       else match fallback_record master_df l.2 row with
            | Some record => Some record
            | None => acc
            end)
    lecture_data None.

(** [record] is the record [record0] up to the lecture row's id, and is
    [record0] under the condition [free] (that no grade is written into the
    id column of the lecture frame) *)
Definition record_like (free : Prop) (record0 record : IdMismatch) : Prop :=
  mm_student_name record = mm_student_name record0
  /\ mm_email record = mm_email record0
  /\ mm_apparent_id record = mm_apparent_id record0
  /\ (free -> record = record0).

(** the rows the row loop for the lecture frame [lecture_df] appends to
    [failed_id_matches]: the assignment rows matched by username whose id
    differs from that of the lecture row *)
Definition id_mismatch_rows (assign_id_col : string)
    (assign_email_col : option string) (assignment_df lecture_df : DataFrame)
  : list (gmap string Cell) :=
  flat_map
    (fun assign_row =>
       match lecture_hit assign_id_col assign_email_col lecture_df assign_row with
       | Some (lecture_row_idx, ByEmail) =>
           id_mismatch_row lecture_df (found (find_student_id_column lecture_df))
             lecture_row_idx
             (assign_ids assign_id_col assign_email_col assign_row).1 assign_row
       | _ => []
       end)
    (rows assignment_df).

(** the score [apply_scores_to_gradebook] finds for a row of the gradebook *)
Definition row_score (df : DataFrame) (score_map : gmap string Cell)
    (r : gmap string Cell) : option Cell :=
  match lecture_username (found (find_username_column df))
          (found (find_email_column df)) r with
  | Some username => if PyStr.truthy username then score_map !! username else None
  | None => None
  end.

(** the rows of the reports, in order, and those of one username *)
Definition rows_of_user (reports : list (list BestRow)) (u : string)
  : list BestRow :=
  List.filter (fun row => String.eqb (best_username row) u) (concat reports).

(** a number as the float it is compared as *)
Definition float_of_num (x : PyNum) : PyFloat.t :=
  match x with
  | PInt a => PyFloat.Fin a 0
  | PFloat f => f
  end.

(** what [combined] holds after the rows [seen] *)
Definition combined_ok (seen : list BestRow) (combined : gmap string (PyNum * nat))
  : Prop :=
  forall u,
    match combined !! u with
    | None =>
        PyStr.truthy u = false
        \/ List.filter (fun row => String.eqb (best_username row) u) seen = []
    | Some (max_score, count) =>
        PyStr.truthy u = true
        /\ count = length (List.filter (fun row => String.eqb (best_username row) u) seen)
        /\ (exists row, row ∈ seen /\ best_username row = u
                        /\ best_percent row = max_score)
        /\ forall row, row ∈ seen -> best_username row = u ->
             num_ltb max_score (best_percent row) = false
    end.

(** ** [src/pyzy/score.py]: assignment names from file names *)

(** [parse_assignment_filename_short], from [stem = Path(filename).stem] on *)
Definition parse_assignment_stem_short (stem : string) : string :=
  match re_search match_zybooks stem with
  | Some (week_num, g2, g3) =>
      match dict_lookup filename_type_map
              (PyStr.strip g2 +:+ " " +:+ PyStr.strip g3) with
      | Some abbrev_type => "W" +:+ week_num +:+ " " +:+ abbrev_type
      | None => stem
      end
  | None => stem
  end.

(** [s.split(sep)[0]]: the text before the first occurrence of [sep] *)
Fixpoint before_sub (sep s : string) : string :=
  if String.prefix sep s then EmptyString
  else match s with
       | EmptyString => EmptyString
       | String c s' => String c (before_sub sep s')
       end.

(** the text from the first occurrence of ["week"] on, when no newline comes
    before it *)
Fixpoint from_week (s : string) : option string :=
  if String.prefix "week" s then Some s
  else match s with
       | EmptyString => None
       | String c s' => if Ascii.eqb c "010" then None else from_week s'
       end.

(** [re.sub(r'^.*?(?=week)', '', s)].  The pattern matches at the start
    only.  When [s] does not start with ["week"] the match is the text before
    the first ["week"]; when it does, the empty match at the start is
    followed by a second, non-empty match from the start, which ends before
    the next ["week"].  Either way the text before the first ["week"] found
    after the first character goes, if no newline comes before it. *)
Definition drop_before_week (s : string) : string :=
  match s with
  | EmptyString => s
  | String c s' =>
      if Ascii.eqb c "010" then s else default s (from_week s')
  end.

(** [s.replace(old, '')] for a non-empty [old]: the occurrences are removed
    from left to right, without overlap; [skip] counts the characters of the
    current occurrence still to drop *)
Fixpoint remove_sub_aux (old : string) (skip : nat) (s : string) : string :=
  match s with
  | EmptyString => EmptyString
  | String c s' =>
      match skip with
      | S k => remove_sub_aux old k s'
      | O =>
          if String.prefix old s
          then remove_sub_aux old (String.length old - 1) s'
          else String c (remove_sub_aux old 0 s')
      end
  end.

Definition remove_sub (old s : string) : string := remove_sub_aux old 0 s.

(** [re.sub(r'_+', '_', s)]: an underscore followed by an underscore is
    dropped *)
Fixpoint collapse_underscores (s : string) : string :=
  match s with
  | EmptyString => EmptyString
  | String c s' =>
      if Ascii.eqb c "_" then
        match s' with
        | String d _ =>
            if Ascii.eqb d "_" then collapse_underscores s'
            else String c (collapse_underscores s')
        | EmptyString => String c EmptyString
        end
      else String c (collapse_underscores s')
  end.

Definition deadline_suffixes : list string :=
  ["_before"; "_after"; "_deadline"; "_lifted"; "_original"; "_extended"].

Definition is_underscore (c : ascii) : bool := Ascii.eqb c "_".

(** [normalize_assignment_name], from [Path(filename).stem] on *)
Definition normalize_assignment_stem (stem : string) : string :=
  let stem := PyStr.lower stem in
  let stem :=
    if PyStr.contains "_report" stem then before_sub "_report" stem else stem in
  let stem := drop_before_week stem in
  let stem := fold_left (fun s suffix => remove_sub suffix s) deadline_suffixes stem in
  let stem := collapse_underscores stem in
  PyStr.strip_by is_underscore stem.

(** the dictionary [{normalize_assignment_name(f.name): f for f in ...}] over
    the stems of the files found, in the order they are found *)
Definition files_by_name (stems : list string) : list (string * string) :=
  fold_left (fun d f => dict_set d (normalize_assignment_stem f) f) stems [].

(** [match_files_between_directories], given the stems of the [*.csv] files
    of the two directories *)
Definition match_files_between_directories (deadline_stems lifted_stems : list string)
  : list (string * string * string) :=
  let deadline_files := files_by_name deadline_stems in
  let lifted_files := files_by_name lifted_stems in
  omap
    (fun nf : string * string =>
       match dict_lookup lifted_files nf.1 with
       | Some lifted_file =>
           Some (nf.2, lifted_file, parse_assignment_stem_short nf.2)
       | None => None
       end)
    deadline_files.


(** [f] is the last of [stems] with its normalized name *)
Definition last_with_name (stems : list string) (f : string) : Prop :=
  exists pre post,
    stems = pre ++ f :: post
    /\ forall y, y ∈ post ->
         normalize_assignment_stem y <> normalize_assignment_stem f.

(** * Properties *)

(** ** String primitives *)

Section StripLemmas.
Variable p : ascii -> bool.

Lemma lstrip_by_fixed s : PyStr.lstrip_by p (PyStr.lstrip_by p s) = PyStr.lstrip_by p s.
Proof.
  induction s as [|c s IH]; simpl; [done|].
  destruct (p c) eqn:Hc; [done|]. simpl. by rewrite Hc.
Qed.

Lemma rstrip_by_fixed s : PyStr.rstrip_by p (PyStr.rstrip_by p s) = PyStr.rstrip_by p s.
Proof.
  induction s as [|c s IH]; simpl; [done|].
  destruct (PyStr.rstrip_by p s) as [|d r] eqn:Hr.
  - destruct (p c) eqn:Hc; simpl; [done|]. by rewrite Hc.
  - simpl. simpl in IH. by rewrite IH.
Qed.

Lemma lstrip_rstrip_by s :
  PyStr.lstrip_by p s = s ->
  PyStr.lstrip_by p (PyStr.rstrip_by p s) = PyStr.rstrip_by p s.
Proof.
  destruct s as [|c s]; simpl; [done|].
  destruct (p c) eqn:Hc.
  - intros H. exfalso.
    assert (Hlen : forall t, (String.length (PyStr.lstrip_by p t) <= String.length t)%nat).
    { induction t as [|a t IHt]; simpl; [lia|]. destruct (p a); simpl; lia. }
    specialize (Hlen s). rewrite H in Hlen. simpl in Hlen. lia.
  - intros _. destruct (PyStr.rstrip_by p s); simpl; by rewrite Hc.
Qed.

Lemma strip_by_idempotent s : PyStr.strip_by p (PyStr.strip_by p s) = PyStr.strip_by p s.
Proof.
  unfold PyStr.strip_by.
  rewrite lstrip_rstrip_by by apply lstrip_by_fixed.
  apply rstrip_by_fixed.
Qed.

Lemma lstrip_by_none s :
  all_chars (fun c => negb (p c)) s = true -> PyStr.lstrip_by p s = s.
Proof.
  destruct s as [|c s]; simpl; [done|].
  intros [Hc _]%andb_true_iff. by destruct (p c).
Qed.

Lemma rstrip_by_none s :
  all_chars (fun c => negb (p c)) s = true -> PyStr.rstrip_by p s = s.
Proof.
  induction s as [|c s IH]; simpl; [done|].
  intros [Hc Hs]%andb_true_iff. rewrite (IH Hs).
  destruct s; [|done]. by destruct (p c).
Qed.

Lemma strip_by_none s :
  all_chars (fun c => negb (p c)) s = true -> PyStr.strip_by p s = s.
Proof.
  intros H. unfold PyStr.strip_by. rewrite lstrip_by_none by done.
  by apply rstrip_by_none.
Qed.
End StripLemmas.

Lemma all_chars_impl (p q : ascii -> bool) s :
  (forall c, p c = true -> q c = true) ->
  all_chars p s = true -> all_chars q s = true.
Proof.
  intros Hpq. induction s as [|c s IH]; simpl; [done|].
  intros [Hc Hs]%andb_true_iff. rewrite (Hpq _ Hc). by apply IH.
Qed.

Lemma has_char_all_chars c s :
  all_chars (fun a => negb (Ascii.eqb a c)) s = true -> PyStr.has_char c s = false.
Proof.
  induction s as [|a s IH]; simpl; [done|].
  intros [Ha Hs]%andb_true_iff. rewrite (IH Hs).
  by destruct (Ascii.eqb a c).
Qed.

Lemma string_of_uint_digits d :
  all_chars is_int_char (NilEmpty.string_of_uint d) = true.
Proof. induction d; simpl; try done; by rewrite IHd. Qed.

Lemma of_Z_int_chars z : all_chars is_int_char (PyStr.of_Z z) = true.
Proof.
  unfold PyStr.of_Z, NilZero.string_of_int.
  destruct (Z.to_int z) as [d|d]; simpl;
    unfold NilZero.string_of_uint; destruct d; try done;
    apply (string_of_uint_digits (_ d)).
Qed.

Lemma int_char_not_space c : is_int_char c = true -> negb (PyStr.is_space c) = true.
Proof.
  unfold is_int_char, PyStr.is_space, PyStr.is_digit.
  destruct (Ascii.eqb_spec c "-") as [->|_]; [done|].
  rewrite orb_false_r. intros [H1 H2]%andb_true_iff.
  apply N.leb_le in H1, H2.
  apply negb_true_iff, orb_false_iff; split; apply andb_false_iff.
  - right. apply N.leb_gt. lia.
  - right. apply N.leb_gt. lia.
Qed.

Lemma int_char_not_dot c : is_int_char c = true -> negb (Ascii.eqb c ".") = true.
Proof.
  destruct (Ascii.eqb_spec c ".") as [->|_]; [|done]. by vm_compute.
Qed.

Lemma strip_of_Z z : PyStr.strip (PyStr.of_Z z) = PyStr.of_Z z.
Proof.
  apply strip_by_none, (all_chars_impl is_int_char); [|apply of_Z_int_chars].
  apply int_char_not_space.
Qed.

Lemma of_Z_no_dot z : PyStr.has_char "." (PyStr.of_Z z) = false.
Proof.
  apply has_char_all_chars, (all_chars_impl is_int_char); [|apply of_Z_int_chars].
  apply int_char_not_dot.
Qed.

(** ** Identity resolver *)

Lemma normalize_student_id_of_str s r :
  normalize_student_id (CStr s) = Some r -> normalize_student_id (CStr r) = Some r.
Proof.
  unfold normalize_student_id. simpl.
  destruct (PyStr.has_char "." (PyStr.strip s)) eqn:Hdot.
  - destruct (PyFloat.of_string (PyStr.strip s)) as [f|] eqn:Hf.
    + destruct (PyFloat.to_int f) as [i|] eqn:Hi.
      * destruct (PyFloat.eqb_Z f i) eqn:He; intros [= <-].
        -- by rewrite strip_of_Z, of_Z_no_dot.
        -- unfold PyStr.strip. rewrite strip_by_idempotent.
           fold (PyStr.strip s). by rewrite Hdot, Hf, Hi, He.
      * intros [= <-]. unfold PyStr.strip. rewrite strip_by_idempotent.
        fold (PyStr.strip s). by rewrite Hdot, Hf, Hi.
    + intros [= <-]. unfold PyStr.strip. rewrite strip_by_idempotent.
      fold (PyStr.strip s). by rewrite Hdot, Hf.
  - intros [= <-]. unfold PyStr.strip. rewrite strip_by_idempotent.
    fold (PyStr.strip s). by rewrite Hdot.
Qed.

Lemma normalize_student_id_via_str x :
  Cell.isna x = false ->
  normalize_student_id x = normalize_student_id (CStr (Cell.str x)).
Proof. unfold normalize_student_id. simpl. by intros ->. Qed.

(** C6: [normalize_student_id] is idempotent on every cell value, the
    string "14788528.0", the string "14788528", the int 14788528 and the
    float 14788528.0 all normalize to the id "14788528", and a missing value
    ([None] or [nan]) yields [None]. *)
Theorem normalize_student_id_idempotent_collapses :
  (forall x : Cell,
     normalize_student_id (cell_of_id (normalize_student_id x))
     = normalize_student_id x)
  /\ normalize_student_id (CStr "14788528.0") = Some "14788528"
  /\ normalize_student_id (CStr "14788528") = Some "14788528"
  /\ normalize_student_id (CInt 14788528) = Some "14788528"
  /\ normalize_student_id (CFloat (PyFloat.Fin 924283 4)) = Some "14788528"
  /\ PyFloat.of_string "14788528.0" = Some (PyFloat.Fin 924283 4)
  /\ normalize_student_id CNone = None
  /\ normalize_student_id (CFloat PyFloat.NaN) = None.
Proof.
  split; [|split_and!; vm_compute; reflexivity].
  intros x. destruct (normalize_student_id x) as [r|] eqn:Hx; simpl; [|done].
  destruct (Cell.isna x) eqn:Hna.
  - unfold normalize_student_id in Hx. by rewrite Hna in Hx.
  - rewrite normalize_student_id_via_str in Hx by done.
    by apply normalize_student_id_of_str in Hx.
Qed.

(** ** Column detectors *)

Lemma find_first_iff {A} (f : A -> bool) (l : list A) (x : A) :
  List.find f l = Some x <->
  exists pre post, l = pre ++ x :: post /\ f x = true
                   /\ forall c, c ∈ pre -> f c = false.
Proof.
  induction l as [|a l IH]; simpl.
  - split; [done|]. intros (pre & post & H & _). by destruct pre.
  - destruct (f a) eqn:Ha.
    + split.
      * intros [= ->]. exists [], l. split_and!; [done..|]. by intros c ?%elem_of_nil.
      * intros (pre & post & H & Hx & Hpre). destruct pre as [|b pre].
        -- simpl in H. by injection H as -> _.
        -- simpl in H. injection H as <- _.
           rewrite Hpre in Ha; [done|]. by left.
    + rewrite IH. split.
      * intros (pre & post & -> & Hx & Hpre). exists (a :: pre), post.
        split_and!; [done..|]. intros c [->|?]%elem_of_cons; auto.
      * intros (pre & post & H & Hx & Hpre). destruct pre as [|b pre].
        -- simpl in H. injection H as -> _. congruence.
        -- simpl in H. injection H as <- ->. exists pre, post.
           split_and!; [done..|]. intros c Hc. apply Hpre. by right.
Qed.

Lemma email_col_matches_iff col :
  email_col_matches col = true <-> fold_header col = "schoolemail".
Proof.
  unfold email_col_matches. rewrite existsb_exists. split.
  - intros (alias & Hin & Heq). apply String.eqb_eq in Heq. rewrite <- Heq.
    unfold email_patterns in Hin. simpl in Hin.
    repeat (destruct Hin as [<-|Hin]; [reflexivity|]). done.
  - intros H. exists "schoolemail". split.
    + unfold email_patterns. simpl. auto.
    + apply String.eqb_eq. by rewrite H.
Qed.

(** C7: [find_email_column] returns a header only if its folded form
    (lower-cased, with spaces, underscores and hyphens removed) equals the
    folded form of one of the aliases "school email", "schoolemail",
    "school_email"; it returns the first such header, and a table whose
    email-like headers are only "Email" and "Primary email" has no email
    column. *)
Theorem find_email_column_only_school_email :
  (forall df col,
     find_email_column df = Some col ->
     col ∈ columns df
     /\ exists alias, alias ∈ email_patterns
                      /\ fold_header col = clean_pattern alias)
  /\ (forall df col,
        find_email_column df = Some col <->
        exists pre post,
          columns df = pre ++ col :: post
          /\ fold_header col = "schoolemail"
          /\ forall c, c ∈ pre -> fold_header c <> "schoolemail")
  /\ (forall rs, find_email_column (mkDF ["Email"; "Primary email"] rs) = None)
  /\ (forall rs,
        find_email_column (mkDF ["Name"; "Email"; "Primary email"; "Student ID"] rs)
        = None).
Proof.
  assert (Hiff : forall df col,
     find_email_column df = Some col <->
     exists pre post,
       columns df = pre ++ col :: post
       /\ fold_header col = "schoolemail"
       /\ forall c, c ∈ pre -> fold_header c <> "schoolemail").
  { intros df col. unfold find_email_column. rewrite find_first_iff.
    split; intros (pre & post & H & Hx & Hpre); exists pre, post;
      (split_and!; [done|by apply email_col_matches_iff|]).
    - intros c Hc Hf. apply email_col_matches_iff in Hf.
      by rewrite (Hpre c Hc) in Hf.
    - intros c Hc. destruct (email_col_matches c) eqn:E; [|done].
      apply email_col_matches_iff in E. by destruct (Hpre c Hc). }
  split_and!; [|done|done|done].
  intros df col Hc. pose proof (proj1 (Hiff df col) Hc) as (pre & post & H & Hx & _). split.
  - rewrite H. apply elem_of_app. right. by left.
  - exists "schoolemail". split; [|done].
    unfold email_patterns. apply elem_of_cons. right. apply elem_of_cons. by left.
Qed.

Lemma find_email_column_witness :
  find_email_column (mkDF ["Email"; "School_E-mail"] []) = Some "School_E-mail"
  /\ "School_E-mail" ∈ columns (mkDF ["Email"; "School_E-mail"] [])
  /\ exists alias, alias ∈ email_patterns
                   /\ fold_header "School_E-mail" = clean_pattern alias.
Proof.
  split; [reflexivity|].
  apply (proj1 find_email_column_only_school_email
           (mkDF ["Email"; "School_E-mail"] []) "School_E-mail").
  reflexivity.
Defined.

Lemma id_col_matches_iff col :
  id_col_matches col = true <->
  exists alias,
    alias ∈ id_patterns
    /\ (PyStr.contains (fold_id_header alias) (fold_id_header col) = true
        \/ PyStr.contains (fold_id_header col) (fold_id_header alias) = true).
Proof.
  unfold id_col_matches. rewrite existsb_exists. split.
  - intros (alias & Hin & H). exists alias. split; [by apply list_elem_of_In|].
    apply orb_true_iff in H. destruct H as [H|H]; [left|right]; revert H.
    + assert (fold_id_header alias
              = PyStr.remove_char "_" (PyStr.remove_char " " alias)) as ->; [|done].
      unfold id_patterns in Hin. simpl in Hin.
      repeat (destruct Hin as [<-|Hin]; [reflexivity|]). done.
    + assert (fold_id_header alias
              = PyStr.remove_char "_" (PyStr.remove_char " " alias)) as ->; [|done].
      unfold id_patterns in Hin. simpl in Hin.
      repeat (destruct Hin as [<-|Hin]; [reflexivity|]). done.
  - intros (alias & Hin & H). exists alias.
    apply list_elem_of_In in Hin. split; [done|].
    assert (fold_id_header alias
            = PyStr.remove_char "_" (PyStr.remove_char " " alias)) as Heq.
    { unfold id_patterns in Hin. simpl in Hin.
      repeat (destruct Hin as [<-|Hin]; [reflexivity|]). done. }
    rewrite <- Heq. apply orb_true_iff. tauto.
Qed.

(** C10: the student-id detector accepts a header as soon as its folded form
    (lower-cased, spaces and underscores removed) contains a folded alias or
    is contained in one; the aliases include "id" and "sid", so a header
    that merely contains "id" ("Paid", "Section ID"), or is a substring of
    "studentid" ("S"), is accepted; the first accepted header in header
    order is returned; the email detector instead requires equality. *)
Theorem find_student_id_column_by_containment :
  (forall col,
     id_col_matches col = true <->
     exists alias,
       alias ∈ id_patterns
       /\ (PyStr.contains (fold_id_header alias) (fold_id_header col) = true
           \/ PyStr.contains (fold_id_header col) (fold_id_header alias) = true))
  /\ "id" ∈ id_patterns /\ "sid" ∈ id_patterns /\ "studentid" ∈ id_patterns
  /\ (forall col,
        PyStr.contains "id" (fold_id_header col) = true ->
        id_col_matches col = true)
  /\ (forall col,
        PyStr.contains (fold_id_header col) "studentid" = true ->
        id_col_matches col = true)
  /\ (forall df col,
        find_student_id_column df = Some col <->
        exists pre post,
          columns df = pre ++ col :: post
          /\ id_col_matches col = true
          /\ forall c, c ∈ pre -> id_col_matches c = false)
  /\ (forall rs, find_student_id_column (mkDF ["Name"; "Paid"; "Student ID"] rs)
                 = Some "Paid")
  /\ (forall rs, find_student_id_column (mkDF ["Name"; "Section ID"; "SID"] rs)
                 = Some "Section ID")
  /\ (forall rs, find_student_id_column (mkDF ["Name"; "S"; "Student ID"] rs)
                 = Some "S")
  /\ (forall rs, find_email_column (mkDF ["Old school email"; "S"; "School emails"] rs)
                 = None).
Proof.
  split_and!; try done.
  - apply id_col_matches_iff.
  - unfold id_patterns. set_solver.
  - unfold id_patterns. set_solver.
  - unfold id_patterns. set_solver.
  - intros col H. apply id_col_matches_iff. exists "id". split.
    + unfold id_patterns. set_solver.
    + by left.
  - intros col H. apply id_col_matches_iff. exists "studentid". split.
    + unfold id_patterns. set_solver.
    + by right.
  - intros df col. apply find_first_iff.
Qed.

Lemma find_student_id_column_witness :
  PyStr.contains "id" (fold_id_header "Amount Paid") = true
  /\ id_col_matches "Amount Paid" = true.
Proof.
  split; [reflexivity|].
  apply (proj1 (proj2 (proj2 (proj2 (proj2 find_student_id_column_by_containment))))
           "Amount Paid").
  reflexivity.
Defined.

(** ** Column ordering *)

Lemma span_spec p s a b :
  span p s = (a, b) ->
  s = a +:+ b /\ all_chars p a = true
  /\ match b with String c _ => p c = false | EmptyString => True end.
Proof.
  revert a b. induction s as [|c s IH]; intros a b; cbn [span].
  - by intros [= <- <-].
  - destruct (p c) eqn:Hc.
    + destruct (span p s) as [a' b'] eqn:Hs. intros [= <- <-].
      destruct (IH a' b' eq_refl) as (-> & Ha & Hb).
      split_and!; [done| |done]. cbn [all_chars]. by rewrite Hc, Ha.
    + intros [= <- <-]. split_and!; [done|done|]. done.
Qed.

Lemma append_nil_l (s : string) : EmptyString +:+ s = s.
Proof. reflexivity. Qed.

Lemma append_cons c (s t : string) : String c s +:+ t = String c (s +:+ t).
Proof. reflexivity. Qed.

Lemma span_app p a b :
  all_chars p a = true ->
  match b with String c _ => p c = false | EmptyString => True end ->
  span p (a +:+ b) = (a, b).
Proof.
  intros Ha Hb. induction a as [|c a IH].
  - rewrite append_nil_l. destruct b as [|d b]; [done|]. cbn [span]. by rewrite Hb.
  - cbn [all_chars] in Ha. apply andb_prop in Ha as [Hc Ha].
    rewrite append_cons. cbn [span]. rewrite Hc, (IH Ha). done.
Qed.

Lemma rstrip_by_app p s t :
  t <> EmptyString -> PyStr.rstrip_by p t = t ->
  PyStr.rstrip_by p (s +:+ t) = s +:+ t.
Proof.
  intros Hne Ht. induction s as [|c s IH]; [by rewrite append_nil_l|].
  rewrite append_cons. cbn [PyStr.rstrip_by]. rewrite IH.
  destruct (s +:+ t) eqn:E; [|done].
  destruct s; [rewrite append_nil_l in E; congruence|discriminate E].
Qed.

Ltac break_match H :=
  repeat (match type of H with
          | context [match ?x with _ => _ end] => destruct x eqn:?
          end;
          cbn beta iota in H; try discriminate H).

Lemma append_assoc_str (a b c : string) : (a +:+ b) +:+ c = a +:+ (b +:+ c).
Proof.
  induction a as [|x a IH]; [by rewrite !append_nil_l|].
  by rewrite !append_cons, IH.
Qed.

Lemma abbreviated_name_key d ds abbrev :
  PyStr.is_digit d = true -> all_chars PyStr.is_digit ds = true ->
  abbrev = "PA" \/ abbrev = "IL" \/ abbrev = "CA" \/ abbrev = "OL" ->
  PyStr.strip ("W" +:+ String d ds +:+ " " +:+ abbrev)
  = "W" +:+ String d ds +:+ " " +:+ abbrev
  /\ match_abbrev ("W" +:+ String d ds +:+ " " +:+ abbrev)
     = Some (String d ds, abbrev).
Proof.
  intros Hd Hds Hab.
  assert (Hne : abbrev <> EmptyString /\ PyStr.rstrip_by PyStr.is_space abbrev = abbrev
                /\ span PyStr.is_space (String " " abbrev) = (String " " EmptyString, abbrev)
                /\ exists a b, abbrev = String a (String b EmptyString)
                     /\ existsb (String.eqb (PyStr.upper abbrev)) assignment_kinds = true).
  { destruct Hab as [-> | [-> | [-> | ->]]];
      (split_and!; [done|reflexivity|reflexivity|]);
      eexists _, _; split; reflexivity. }
  destruct Hne as (Hne & Hr & Hsp & a & b & Hshape & Hk).
  split.
  - unfold PyStr.strip, PyStr.strip_by.
    change ("W" +:+ String d ds +:+ " " +:+ abbrev)
      with (String "W" (String d ds +:+ " " +:+ abbrev)).
    cbn [PyStr.lstrip_by]. change (PyStr.is_space "W") with false. cbn iota.
    assert (String "W" (String d ds +:+ " " +:+ abbrev)
            = ("W" +:+ String d ds +:+ " ") +:+ abbrev) as ->
      by (by rewrite !append_assoc_str).
    by apply rstrip_by_app.
  - change ("W" +:+ String d ds +:+ " " +:+ abbrev)
      with (String "W" (String d ds +:+ String " " abbrev)).
    unfold match_abbrev.
    change (Ascii.eqb (PyStr.lower_char "W") "w") with true. cbn iota.
    rewrite span_app; [|by cbn [all_chars]; rewrite Hd, Hds|reflexivity].
    rewrite Hsp. rewrite Hshape in *. by rewrite Hk.
Qed.




Lemma key_leb_le x y : key_leb x y = true <-> key_le x y.
Proof.
  destruct x as [[c1 w1] t1], y as [[c2 w2] t2]. unfold key_le. simpl.
  rewrite orb_true_iff, andb_true_iff, Z.ltb_lt, Z.eqb_eq, Z.leb_le. done.
Qed.

Lemma key_leb_total x y : key_leb x y = false -> key_le y x.
Proof.
  destruct x as [[c1 w1] t1], y as [[c2 w2] t2]. unfold key_le. simpl.
  rewrite orb_false_iff, andb_false_iff, Z.ltb_ge, Z.eqb_neq, Z.leb_gt. lia.
Qed.

Lemma key_le_trans x y z : key_le x y -> key_le y z -> key_le x z.
Proof. unfold key_le. lia. Qed.

Lemma insert_sorted_perm x l : Permutation (insert_sorted x l) (x :: l).
Proof.
  induction l as [|y l IH]; simpl; [done|].
  destruct (key_leb x y); [done|].
  rewrite IH. apply perm_swap.
Qed.

Lemma sort_by_key_perm l : Permutation (sort_by_key l) l.
Proof.
  induction l as [|x l IH]; simpl; [done|].
  rewrite insert_sorted_perm. by constructor.
Qed.

Lemma insert_sorted_sorted x l :
  StronglySorted key_le l -> StronglySorted key_le (insert_sorted x l).
Proof.
  induction 1 as [|y l Hs IH Hy]; simpl.
  - repeat constructor.
  - destruct (key_leb x y) eqn:Hxy.
    + apply key_leb_le in Hxy. constructor; [by constructor|].
      constructor; [done|].
      eapply Forall_impl; [exact Hy|]. intros z Hz. by eapply key_le_trans.
    + apply key_leb_total in Hxy. constructor; [done|].
      rewrite insert_sorted_perm. by constructor.
Qed.

Lemma sort_by_key_sorted l : StronglySorted key_le (sort_by_key l).
Proof.
  induction l as [|x l IH]; simpl; [constructor|]. by apply insert_sorted_sorted.
Qed.



Lemma sort_by_key_sorted_id l : StronglySorted key_le l -> sort_by_key l = l.
Proof.
  induction 1 as [|x l Hs IH Hx]; [done|].
  cbn [sort_by_key]. rewrite IH. destruct l as [|y l]; [done|].
  cbn [insert_sorted]. apply Forall_cons in Hx as [Hxy _].
  apply key_leb_le in Hxy. by rewrite Hxy.
Qed.

Lemma assignment_key_self col x : assignment_key col = Some x -> x.1.1 = col.
Proof.
  unfold assignment_key. destruct (match_abbrev _) as [[g1 g2]|]; [|done].
  by intros [= <-].
Qed.

Lemma assignment_key_shape col x :
  assignment_key col = Some x ->
  exists g1 g2,
    match_abbrev (PyStr.strip col) = Some (g1, g2)
    /\ x = (col, int_of_digits g1, type_rank (PyStr.upper g2)).
Proof.
  unfold assignment_key. destruct (match_abbrev _) as [[g1 g2]|]; [|done].
  intros [= <-]. by exists g1, g2.
Qed.

Lemma type_rank_table kind :
  type_rank kind =
    if String.eqb "PA" kind then 0
    else if String.eqb "CA" kind then 1
    else if String.eqb "IL" kind then 2
    else if String.eqb "OL" kind then 3
    else 99.
Proof. reflexivity. Qed.

Lemma omap_assignment_key_self (l : list (string * Z * Z)) :
  Forall (fun x => assignment_key x.1.1 = Some x) l ->
  omap assignment_key ((fun x => x.1.1) <$> l) = l.
Proof.
  induction 1 as [|x l Hx Hl IH]; [done|].
  cbn. rewrite Hx. simpl. by rewrite IH.
Qed.

Lemma assignment_cols_self cols :
  Forall (fun x => assignment_key x.1.1 = Some x) (assignment_cols cols).
Proof.
  apply Forall_forall. intros x Hx. unfold assignment_cols in Hx.
  apply list_elem_of_omap in Hx as (col & Hcol & Hk).
  by rewrite (assignment_key_self _ _ Hk).
Qed.

Lemma non_assignment_cols_none cols :
  omap assignment_key (non_assignment_cols cols) = [].
Proof.
  unfold non_assignment_cols. induction cols as [|c cols IH]; [done|].
  cbn [List.filter]. destruct (assignment_key c) eqn:Hc.
  - rewrite bool_decide_eq_true_2 by eauto. done.
  - rewrite bool_decide_eq_false_2 by (by intros [? ?]). cbn. by rewrite Hc.
Qed.

Lemma non_assignment_cols_fixed cols :
  non_assignment_cols (non_assignment_cols cols) = non_assignment_cols cols.
Proof.
  unfold non_assignment_cols. induction cols as [|c cols IH]; [done|].
  cbn [List.filter]. destruct (negb _) eqn:Hc; [|done].
  cbn [List.filter]. by rewrite Hc, IH.
Qed.

Lemma non_assignment_cols_of_keys (l : list (string * Z * Z)) :
  Forall (fun x => assignment_key x.1.1 = Some x) l ->
  non_assignment_cols ((fun x => x.1.1) <$> l) = [].
Proof.
  unfold non_assignment_cols. induction 1 as [|x l Hx Hl IH]; [done|].
  cbn. rewrite Hx. rewrite bool_decide_eq_true_2 by eauto. done.
Qed.

Lemma filter_app' {A} (f : A -> bool) l1 l2 :
  List.filter f (l1 ++ l2) = List.filter f l1 ++ List.filter f l2.
Proof. apply List.filter_app. Qed.

Lemma new_column_order_idempotent cols :
  new_column_order (new_column_order cols) = new_column_order cols.
Proof.
  unfold new_column_order at 1 3.
  set (N := non_assignment_cols cols).
  set (A := sort_by_key (assignment_cols cols)).
  assert (HA : Forall (fun x => assignment_key x.1.1 = Some x) A).
  { unfold A. rewrite sort_by_key_perm. apply assignment_cols_self. }
  unfold new_column_order. fold N A.
  unfold non_assignment_cols at 1. rewrite filter_app'.
  fold (non_assignment_cols N).
  fold (non_assignment_cols ((fun x => x.1.1) <$> A)).
  unfold N at 1. rewrite non_assignment_cols_fixed. fold N.
  rewrite non_assignment_cols_of_keys by done. rewrite app_nil_r.
  unfold assignment_cols. rewrite omap_app.
  unfold N at 2. rewrite non_assignment_cols_none. simpl.
  rewrite omap_assignment_key_self by done.
  rewrite sort_by_key_sorted_id; [done|]. apply sort_by_key_sorted.
Qed.

Lemma assignment_cols_names cols :
  (fun x : string * Z * Z => x.1.1) <$> assignment_cols cols
  = List.filter (fun col => bool_decide (is_Some (assignment_key col))) cols.
Proof.
  unfold assignment_cols. induction cols as [|c cols IH]; [done|].
  cbn. destruct (assignment_key c) as [x|] eqn:Hc.
  - rewrite bool_decide_eq_true_2 by eauto. cbn.
    rewrite (assignment_key_self _ _ Hc). f_equal. exact IH.
  - rewrite bool_decide_eq_false_2 by (by intros [? ?]). exact IH.
Qed.

Lemma filter_partition_perm {A} (f : A -> bool) (l : list A) :
  Permutation (List.filter (fun x => negb (f x)) l ++ List.filter f l) l.
Proof.
  induction l as [|x l IH]; [done|].
  cbn. destruct (f x); cbn.
  - rewrite <- Permutation_middle. by constructor.
  - by constructor.
Qed.

Lemma new_column_order_perm cols : Permutation (new_column_order cols) cols.
Proof.
  unfold new_column_order.
  rewrite (fmap_Permutation _ _ _ (sort_by_key_perm (assignment_cols cols))).
  rewrite assignment_cols_names. apply filter_partition_perm.
Qed.

(** [df[labels]] on a frame with distinct labels *)
Lemma elem_of_select_columns cols labels c :
  c ∈ select_columns cols labels <-> c ∈ labels /\ c ∈ cols.
Proof.
  unfold select_columns. rewrite list_elem_of_In, in_flat_map. split.
  - intros (l & Hl & Hc). apply filter_In in Hc as [Hc ->%String.eqb_eq].
    split; by apply list_elem_of_In.
  - intros [Hl Hc]. exists c. split; [by apply list_elem_of_In|].
    apply filter_In. split; [by apply list_elem_of_In|]. apply String.eqb_refl.
Qed.

Lemma filter_eqb_absent cols label :
  label ∉ cols -> List.filter (String.eqb label) cols = [].
Proof.
  induction cols as [|c cols IH]; [done|]. intros Hl. cbn [List.filter].
  destruct (String.eqb_spec label c) as [->|Hne].
  - destruct Hl. by left.
  - apply IH. intros Hin. apply Hl. by right.
Qed.

Lemma filter_eqb_distinct cols label :
  NoDup cols -> label ∈ cols -> List.filter (String.eqb label) cols = [label].
Proof.
  induction 1 as [|c cols Hc Hnd IH]; intros Hl; [by apply elem_of_nil in Hl|].
  cbn [List.filter]. destruct (String.eqb_spec label c) as [->|Hne].
  - by rewrite filter_eqb_absent.
  - apply IH. by apply elem_of_cons in Hl as [?|?].
Qed.

Lemma select_columns_distinct cols labels :
  NoDup cols -> (forall label, label ∈ labels -> label ∈ cols) ->
  select_columns cols labels = labels.
Proof.
  intros Hnd. induction labels as [|l labels IH]; intros Hin; [done|].
  unfold select_columns in *. cbn [flat_map].
  rewrite filter_eqb_distinct; [|done|apply Hin; by left].
  cbn [app]. f_equal. apply IH. intros l' Hl'. apply Hin. by right.
Qed.

Lemma sort_assignment_columns_distinct df :
  NoDup (columns df) ->
  columns (sort_assignment_columns df) = new_column_order (columns df).
Proof.
  intros Hnd. cbn [sort_assignment_columns columns].
  apply select_columns_distinct; [done|].
  intros l Hl. by rewrite <- (new_column_order_perm (columns df)).
Qed.

Lemma elem_of_sorted_columns df c :
  c ∈ columns (sort_assignment_columns df) <-> c ∈ columns df.
Proof.
  cbn [sort_assignment_columns columns]. rewrite elem_of_select_columns.
  rewrite (new_column_order_perm (columns df)). tauto.
Qed.

Lemma sorted_columns_NoDup df :
  NoDup (columns df) -> NoDup (columns (sort_assignment_columns df)).
Proof.
  intros Hnd. rewrite sort_assignment_columns_distinct by done.
  by rewrite (new_column_order_perm (columns df)).
Qed.











(** C9: column ordering is idempotent on a frame with pairwise distinct
    labels: ordering an ordered table changes nothing. *)
Theorem sort_assignment_columns_idempotent (df : DataFrame) :
  NoDup (columns df) ->
  sort_assignment_columns (sort_assignment_columns df)
  = sort_assignment_columns df.
Proof.
  intros Hnd. pose proof (sorted_columns_NoDup df Hnd) as Hnd'.
  pose proof (sort_assignment_columns_distinct _ Hnd') as H2.
  pose proof (sort_assignment_columns_distinct _ Hnd) as H1.
  rewrite H1, new_column_order_idempotent, <- H1 in H2.
  destruct (sort_assignment_columns (sort_assignment_columns df)) as [c2 r2] eqn:E2.
  destruct (sort_assignment_columns df) as [c1 r1] eqn:E1.
  cbn [columns] in H2. subst c2. f_equal.
  unfold sort_assignment_columns in E2. by injection E2 as _ <-.
Qed.

(** a frame with four distinct labels: ordered once it is
    ["Name"; "W1 PA"; "W1 CA"; "W2 PA"], and ordering it again changes
    nothing *)
Lemma sort_assignment_columns_idempotent_witness :
  let df := mkDF ["W2 PA"; "Name"; "W1 CA"; "W1 PA"]
              [ {[ "Name" := CStr "Alice"; "W1 PA" := CInt 10 ]} ] in
  NoDup (columns df)
  /\ columns (sort_assignment_columns df) = ["Name"; "W1 PA"; "W1 CA"; "W2 PA"]
  /\ sort_assignment_columns (sort_assignment_columns df)
     = sort_assignment_columns df.
Proof.
  intros df.
  assert (H : NoDup (columns df)).
  { apply (bool_decide_unpack _). vm_compute. exact I. }
  split; [exact H|]. split; [vm_compute; reflexivity|].
  exact (sort_assignment_columns_idempotent df H).
Defined.

(** ** Late-penalty evaluator *)

(** A rule that applies to the record and whose penalty is absent, null or
    empty returns the unpenalized score at once, as a matched rule. *)
Lemma late_score_rule_waiver week assn student score days adj :
  week = "W" +:+ PyStr.of_Z (adj_week adj) ->
  not_penalty (adj_penalty adj) = true ->
  (forall s, adj_student adj = Some s -> s = student) ->
  (forall a, adj_assignment adj = Some a -> a = assn) ->
  exists rule,
    late_score_rule week assn student score days adj
    = Return (score, mkInfo true (Some rule) float_zero).
Proof.
  intros Hw Hp Hs Ha. unfold late_score_rule.
  rewrite <- Hw, String.eqb_refl, Hp. simpl.
  destruct (adj_student adj) as [s|], (adj_assignment adj) as [a|].
  - rewrite (Hs s), (Ha a), !String.eqb_refl by done. simpl. eauto.
  - rewrite (Hs s), !String.eqb_refl by done. eauto.
  - rewrite (Ha a), !String.eqb_refl by done. eauto.
  - eauto.
Qed.

(** In a rule that names a student or an assignment (or both) and applies to
    the record, a non-empty penalty list is scanned in order. *)
Lemma late_score_rule_scan week assn student score days adj p ps :
  week = "W" +:+ PyStr.of_Z (adj_week adj) ->
  adj_penalty adj = Some (p :: ps) ->
  (forall s, adj_student adj = Some s -> s = student) ->
  (forall a, adj_assignment adj = Some a -> a = assn) ->
  is_Some (adj_student adj) \/ is_Some (adj_assignment adj) ->
  exists who,
    late_score_rule week assn student score days adj
    = scan_penalty who (p :: ps) days score.
Proof.
  intros Hw Hp Hs Ha Hsome. unfold late_score_rule.
  rewrite <- Hw, String.eqb_refl, Hp. cbn [negb not_penalty default id].
  destruct (adj_student adj) as [s|], (adj_assignment adj) as [a|].
  - rewrite (Hs s), (Ha a), !String.eqb_refl by done. simpl. eauto.
  - rewrite (Hs s), !String.eqb_refl by done. eauto.
  - rewrite (Ha a), !String.eqb_refl by done. eauto.
  - destruct Hsome as [[? ?]|[? ?]]; done.
Qed.

(** The first entry of the scanned list whose threshold is at least the
    record's days late decides the score: [(1 - frac) * score]. *)
Lemma scan_penalty_first who pre p post days score threshold frac keep applied :
  Forall (fun q => match entry_days_late q with
                   | Some t => PyNum.leb days t = false
                   | None => True
                   end) pre ->
  entry_days_late p = Some threshold ->
  PyNum.leb days threshold = true ->
  entry_frac_deduction p = Some frac ->
  PyNum.sub (PInt 1) frac = Some keep ->
  PyNum.mul keep score = Some applied ->
  exists rule,
    scan_penalty who (pre ++ p :: post) days score
    = Return (applied, mkInfo true (Some rule) frac).
Proof.
  intros Hpre Hd Hle Hf Hk Ha.
  induction Hpre as [|q pre Hq _ IH]; cbn [scan_penalty app].
  - rewrite Hd, Hle, Hf, Hk, Ha. eauto.
  - destruct (entry_days_late q) as [t|]; [rewrite Hq|]; exact IH.
Qed.

(** C2 (divergence): a rule with neither a [student] nor an [assignment] key
    never has its penalty list scanned: with a non-empty list it is skipped,
    whatever the record, although the three other shapes scan theirs.  Under
    the week-wide rule [{week: 1, penalty: [{days-late: 2, frac-deduction:
    0.1}]}] a W1 PA record 1.5 days late keeps its score 80 with no rule
    matched, while the same penalty under [{week: 1, assignment: "PA", ...}]
    gives 72.0 with the rule matched. *)
Theorem late_score_global_rule_penalty_list_ignored :
  (forall week assn student score days wk p ps,
     late_score_rule week assn student score days
       (mkAdj wk None None (Some (p :: ps))) = Continue)
  /\ (forall first last,
        late_score (mkLateRow "W1 PA" first last (PInt 80) (flt "1.5"))
          [rule_w1_global]
        = Some (PInt 80, no_adj))
  /\ (forall first last,
        late_score (mkLateRow "W1 PA" first last (PInt 80) (flt "1.5"))
          [rule_w1_pa]
        = Some (flt "72.0",
                mkInfo true
                  (Some "W1 all students, PA: 0.1 deduction (days late <= 2)")
                  (flt "0.1"))).
Proof.
  split_and!.
  - intros. unfold late_score_rule. simpl. by destruct (negb _).
  - intros. vm_compute; reflexivity.
  - intros. vm_compute; reflexivity.
Qed.

(** C8: under the single rule [{week: 1, assignment: "PA", penalty:
    [{days-late: 2, frac-deduction: 0.1}]}], a W1 PA record with score 80
    that is 1.5 days late gets [(1 - 0.1) * 80 = 72.0] with the rule matched,
    and the same record 5 days late keeps 80 with no rule matched. *)
Theorem late_score_week1_pa_example :
  forall first last : string,
    late_score (mkLateRow "W1 PA" first last (PInt 80) (flt "1.5")) [rule_w1_pa]
    = Some (flt "72.0",
            mkInfo true
              (Some "W1 all students, PA: 0.1 deduction (days late <= 2)")
              (flt "0.1"))
    /\ late_score (mkLateRow "W1 PA" first last (flt "80.0") (flt "1.5"))
         [rule_w1_pa]
       = Some (flt "72.0",
               mkInfo true
                 (Some "W1 all students, PA: 0.1 deduction (days late <= 2)")
                 (flt "0.1"))
    /\ late_score (mkLateRow "W1 PA" first last (PInt 80) (PInt 5)) [rule_w1_pa]
       = Some (PInt 80, mkInfo false None (flt "0.0"))
    /\ late_score (mkLateRow "W1 PA" first last (flt "80.0") (flt "5.0"))
         [rule_w1_pa]
       = Some (flt "80.0", mkInfo false None (flt "0.0"))
    /\ flt "72.0" = PFloat (PyFloat.Fin 9 3)
    /\ PyNum.str (flt "72.0") = "72.0"
    /\ PyNum.mul (flt "0.9") (PInt 80) = Some (flt "72.0")
    /\ PyNum.sub (PInt 1) (flt "0.1") = Some (flt "0.9").
Proof. intros. split_and!; vm_compute; reflexivity. Qed.

(** ** Merge engine: the lookup of a source row *)

Lemma find_lecture_row_by_id student_map username_map ids i :
  dict_find student_map ids.1 = Some i ->
  find_lecture_row student_map username_map ids = Some (i, ById).
Proof. unfold find_lecture_row. by intros ->. Qed.

Lemma find_lecture_row_by_email student_map username_map ids j :
  find_lecture_row student_map username_map ids = Some (j, ByEmail) <->
  dict_find student_map ids.1 = None /\ dict_find username_map ids.2 = Some j.
Proof.
  unfold find_lecture_row.
  destruct (dict_find student_map ids.1) as [i|].
  - split; [done|]. by intros [? _].
  - destruct (dict_find username_map ids.2) as [j'|].
    + split; [by intros [= ->]|]. by intros [_ [= ->]].
    + split; [done|]. by intros [_ ?].
Qed.

Lemma find_lecture_row_None student_map username_map ids :
  find_lecture_row student_map username_map ids = None <->
  dict_find student_map ids.1 = None /\ dict_find username_map ids.2 = None.
Proof.
  unfold find_lecture_row.
  destruct (dict_find student_map ids.1) as [i|].
  - split; [done|]. by intros [? _].
  - destruct (dict_find username_map ids.2) as [j'|].
    + split; [done|]. by intros [_ ?].
    + done.
Qed.

Lemma dict_find_Some m k i :
  dict_find m k = Some i <->
  exists s, k = Some s /\ PyStr.truthy s = true /\ m !! s = Some i.
Proof.
  unfold dict_find. destruct k as [s|].
  - destruct (PyStr.truthy s) eqn:Hs.
    + split; [by eauto|]. by intros (s' & [= <-] & _ & ?).
    + split; [done|]. intros (s' & [= <-] & ? & _). congruence.
  - split; [done|]. by intros (s' & ? & _).
Qed.

(** a matched row has a non-empty key *)
Lemma find_lecture_row_key student_map username_map ids x :
  find_lecture_row student_map username_map ids = Some x ->
  exists k, student_key_of ids = Some k /\ PyStr.truthy k = true.
Proof.
  unfold find_lecture_row, student_key_of, py_or.
  destruct (dict_find student_map ids.1) as [i|] eqn:H1.
  - apply dict_find_Some in H1 as (s & -> & Hs & _). intros _.
    simpl. rewrite Hs. eauto.
  - destruct (dict_find username_map ids.2) as [j|] eqn:H2; [|done].
    apply dict_find_Some in H2 as (u & Hu & Hut & _). intros _.
    destruct (truthy_opt ids.1) eqn:Ht.
    + destruct ids.1 as [s|]; [|done]. eauto.
    + eauto.
Qed.

(** the cell written by one step of [merge_grades_from_assignments] is in
    the row that the lookup chose *)
Lemma merge_assign_row_writes abbrev_name assign_id_col grade_col
    assign_email_col lec_id_col student_map username_map st assign_row i m :
  find_lecture_row student_map username_map
    (assign_ids assign_id_col assign_email_col assign_row) = Some (i, m) ->
  Cell.isna (row_get assign_row grade_col) = false ->
  Cell.is_empty_str (row_get assign_row grade_col) = false ->
  ls_lecture_df
    (merge_assign_row abbrev_name assign_id_col grade_col assign_email_col
       lec_id_col student_map username_map st assign_row)
  = df_set (ls_lecture_df st) i abbrev_name (row_get assign_row grade_col).
Proof.
  intros Hf Hna He. unfold merge_assign_row. rewrite Hf, Hna, He. done.
Qed.

(** C1: the destination row of a source row is looked up by normalized id
    first and by username only when the id lookup fails, in both merge
    engines; the row found is the row written.  With destination rows A
    (id "111", username "alice") and B (id "222", username "alice2"), the
    source row with id "111" and email "alice2@x.edu" updates row A and
    leaves row B blank, and is counted as matched by id. *)
Theorem id_match_takes_priority_over_username :
  (forall student_map username_map ids i,
     dict_find student_map ids.1 = Some i ->
     find_lecture_row student_map username_map ids = Some (i, ById))
  /\ (forall student_map username_map ids j,
        find_lecture_row student_map username_map ids = Some (j, ByEmail) <->
        dict_find student_map ids.1 = None
        /\ dict_find username_map ids.2 = Some j)
  /\ (forall abbrev_name assign_id_col grade_col assign_email_col lec_id_col
             student_map username_map st assign_row i m,
        find_lecture_row student_map username_map
          (assign_ids assign_id_col assign_email_col assign_row) = Some (i, m) ->
        Cell.isna (row_get assign_row grade_col) = false ->
        Cell.is_empty_str (row_get assign_row grade_col) = false ->
        ls_lecture_df
          (merge_assign_row abbrev_name assign_id_col grade_col
             assign_email_col lec_id_col student_map username_map st assign_row)
        = df_set (ls_lecture_df st) i abbrev_name
            (row_get assign_row grade_col))
  /\ (exists out,
        res_updated_dataframes
          (merge_grades_from_assignments [("lecture.csv", lecture_ab)]
             [("W1 PA", assignment_111)])
        = [("lecture.csv", out)]
        /\ columns out = ["Student ID"; "Username"; "W1 PA"]
        /\ df_at out 0 "W1 PA" = CInt 95
        /\ df_at out 1 "W1 PA" = CStr EmptyString)
  /\ res_by_id
       (merge_grades_from_assignments [("lecture.csv", lecture_ab)]
          [("W1 PA", assignment_111)]) = 1%nat
  /\ res_by_email
       (merge_grades_from_assignments [("lecture.csv", lecture_ab)]
          [("W1 PA", assignment_111)]) = 0%nat
  /\ (exists res out,
        merge_grades_from_master [("lecture.csv", lecture_ab)] master_111
        = Some res
        /\ mr_updated_dataframes res = [("lecture.csv", out)]
        /\ columns out = ["Student ID"; "Username"; "W1 PA"]
        /\ df_at out 0 "W1 PA" = CInt 95
        /\ df_at out 1 "W1 PA" = CStr EmptyString
        /\ mr_by_id res = 1%nat /\ mr_by_email res = 0%nat).
Proof.
  split_and!.
  - apply find_lecture_row_by_id.
  - apply find_lecture_row_by_email.
  - apply merge_assign_row_writes.
  - eexists. split; [vm_compute; reflexivity|].
    split_and!; vm_compute; reflexivity.
  - vm_compute; reflexivity.
  - vm_compute; reflexivity.
  - eexists. eexists. split; [vm_compute; reflexivity|].
    split; [vm_compute; reflexivity|]. split_and!; vm_compute; reflexivity.
Qed.

Lemma id_match_takes_priority_witness :
  dict_find (lecture_maps lecture_ab).1 (Some "111") = Some 0%nat
  /\ find_lecture_row (lecture_maps lecture_ab).1 (lecture_maps lecture_ab).2
       (Some "111", Some "alice2") = Some (0%nat, ById).
Proof.
  split; [vm_compute; reflexivity|].
  apply (proj1 id_match_takes_priority_over_username
           (lecture_maps lecture_ab).1 (lecture_maps lecture_ab).2
           (Some "111", Some "alice2") 0%nat).
  vm_compute; reflexivity.
Defined.

(** ** Merge engine: bookkeeping of seen and matched keys *)

Section AssignRows.
Variables (abbrev_name assign_id_col grade_col : string).
Variables (assign_email_col lec_id_col : option string).
Variables (student_map username_map : gmap string nat).

Let step :=
  merge_assign_row abbrev_name assign_id_col grade_col assign_email_col
    lec_id_col student_map username_map.
Let key (r : gmap string Cell) :=
  student_key_of (assign_ids assign_id_col assign_email_col r).
Let hit (r : gmap string Cell) :=
  find_lecture_row student_map username_map
    (assign_ids assign_id_col assign_email_col r).

Lemma merge_assign_row_all st r :
  ls_all_assignment_students (step st r)
  = if truthy_opt (key r) then add_key (key r) (ls_all_assignment_students st)
    else ls_all_assignment_students st.
Proof.
  unfold step, merge_assign_row. fold (key r).
  destruct (find_lecture_row _ _ _) as [[i m]|]; [|done].
  by destruct (_ || _).
Qed.

Lemma merge_assign_row_matched st r :
  ls_students_matched_this_assignment (step st r)
  = match hit r with
    | Some _ => add_key (key r) (ls_students_matched_this_assignment st)
    | None => ls_students_matched_this_assignment st
    end.
Proof.
  unfold step, merge_assign_row, hit. fold (key r).
  destruct (find_lecture_row _ _ _) as [[i m]|]; [|done].
  by destruct (_ || _).
Qed.

Lemma merge_assign_row_results_matched st r :
  res_matched_students (ls_results (step st r))
  = match hit r with
    | Some _ => add_key (key r) (res_matched_students (ls_results st))
    | None => res_matched_students (ls_results st)
    end.
Proof.
  unfold step, merge_assign_row, hit. fold (key r).
  destruct (find_lecture_row _ _ _) as [[i m]|]; [|done].
  by destruct (_ || _).
Qed.

Lemma fold_assign_rows_all rs st k :
  k ∈ ls_all_assignment_students (fold_left step rs st) <->
  k ∈ ls_all_assignment_students st
  \/ exists r, r ∈ rs /\ key r = Some k /\ PyStr.truthy k = true.
Proof.
  revert st. induction rs as [|r rs IH]; intros st; simpl.
  - split; [auto|]. intros [?|(r & Hr & _)]; [done|]. by apply elem_of_nil in Hr.
  - rewrite IH, merge_assign_row_all. split.
    + intros [H|(r' & Hr' & Hk)].
      * destruct (truthy_opt (key r)) eqn:Ht; [|auto].
        destruct (key r) as [x|] eqn:Hx; [|done]. simpl in H.
        apply elem_of_union in H as [->%elem_of_singleton|H]; [|auto].
        right. exists r. split; [by left|]. by rewrite Hx.
      * right. exists r'. split; [by right|done].
    + intros [H|(r' & Hr' & Hk & Ht)].
      * left. destruct (truthy_opt (key r)); [|done].
        destruct (key r); simpl; [|done]. apply elem_of_union. by right.
      * apply elem_of_cons in Hr' as [->|Hr'].
        -- left. rewrite Hk. simpl. rewrite Ht. simpl.
           apply elem_of_union. left. by apply elem_of_singleton.
        -- right. eauto.
Qed.

Lemma fold_assign_rows_matched rs st k :
  k ∈ ls_students_matched_this_assignment (fold_left step rs st) <->
  k ∈ ls_students_matched_this_assignment st
  \/ exists r, r ∈ rs /\ key r = Some k /\ is_Some (hit r).
Proof.
  revert st. induction rs as [|r rs IH]; intros st; simpl.
  - split; [auto|]. intros [?|(r & Hr & _)]; [done|]. by apply elem_of_nil in Hr.
  - rewrite IH, merge_assign_row_matched. split.
    + intros [H|(r' & Hr' & Hk)].
      * destruct (hit r) as [x|] eqn:Hh; [|auto].
        destruct (key r) as [y|] eqn:Hy; [|auto]. simpl in H.
        apply elem_of_union in H as [->%elem_of_singleton|H]; [|auto].
        right. exists r. split; [by left|]. rewrite Hy, Hh. eauto.
      * right. exists r'. split; [by right|done].
    + intros [H|(r' & Hr' & Hk & Hh)].
      * left. destruct (hit r); [|done].
        destruct (key r); simpl; [|done]. apply elem_of_union. by right.
      * apply elem_of_cons in Hr' as [->|Hr'].
        -- left. destruct Hh as [x Hx]. rewrite Hx, Hk. simpl.
           apply elem_of_union. left. by apply elem_of_singleton.
        -- right. eauto.
Qed.
End AssignRows.

Lemma merge_rows_all abbrev_name assign_id_col grade_col assign_email_col
    assignment_df lecture_df all_students matched_this r k :
  k ∈ ls_all_assignment_students
        (merge_rows abbrev_name assign_id_col grade_col assign_email_col
           assignment_df lecture_df all_students matched_this r) <->
  k ∈ all_students
  \/ exists row, row ∈ rows assignment_df
       /\ student_key_of (assign_ids assign_id_col assign_email_col row) = Some k
       /\ PyStr.truthy k = true.
Proof.
  unfold merge_rows. destruct (ensure_column _ _ _) as [df' r'].
  by rewrite fold_assign_rows_all.
Qed.

Lemma merge_rows_matched abbrev_name assign_id_col grade_col assign_email_col
    assignment_df lecture_df all_students matched_this r k :
  k ∈ ls_students_matched_this_assignment
        (merge_rows abbrev_name assign_id_col grade_col assign_email_col
           assignment_df lecture_df all_students matched_this r) <->
  k ∈ matched_this
  \/ exists row, row ∈ rows assignment_df
       /\ student_key_of (assign_ids assign_id_col assign_email_col row) = Some k
       /\ is_Some (find_lecture_row (lecture_maps lecture_df).1
                     (lecture_maps lecture_df).2
                     (assign_ids assign_id_col assign_email_col row)).
Proof.
  unfold merge_rows. destruct (ensure_column _ _ _) as [df' r'].
  by rewrite fold_assign_rows_matched.
Qed.

Section AssignLectures.
Variables (abbrev_name assign_id_col grade_col : string).
Variable (assign_email_col : option string).
Variable (assignment_df : DataFrame).

Let lstep :=
  merge_into_lecture abbrev_name assign_id_col grade_col assign_email_col
    assignment_df.
Let key (r : gmap string Cell) :=
  student_key_of (assign_ids assign_id_col assign_email_col r).

Lemma fold_lectures_all lectures acc k :
  k ∈ as_all_assignment_students (fold_left lstep lectures acc) <->
  k ∈ as_all_assignment_students acc
  \/ (exists l, l ∈ lectures /\ lecture_unusable l.2 = false)
     /\ exists row, row ∈ rows assignment_df /\ key row = Some k
                    /\ PyStr.truthy k = true.
Proof.
  revert acc. induction lectures as [|[n ldf] lectures IH]; intros acc; cbn [fold_left].
  - split; [auto|]. intros [?|[(l & Hl & _) _]]; [done|]. by apply elem_of_nil in Hl.
  - rewrite IH. unfold lstep, merge_into_lecture.
    destruct (lecture_unusable ldf) eqn:Hu; cbn [as_all_assignment_students as_students_matched_this_assignment].
    + split; (intros [H|[(l & Hl & Hlu) Hrow]]; [by left|right]);
        (split; [|done]).
      * exists l. split; [by right|done].
      * apply elem_of_cons in Hl as [->|Hl]; [simpl in Hlu; congruence|eauto].
    + rewrite merge_rows_all. split.
      * intros [[H|Hrow]|[(l & Hl & Hlu) Hrow]]; [by left| |].
        -- right. split; [|done]. exists (n, ldf). split; [by left|done].
        -- right. split; [|done]. exists l. split; [by right|done].
      * intros [H|[_ Hrow]]; [by do 2 left|]. left. by right.
Qed.

Lemma fold_lectures_matched lectures acc k :
  k ∈ as_students_matched_this_assignment (fold_left lstep lectures acc) <->
  k ∈ as_students_matched_this_assignment acc
  \/ exists l row,
       l ∈ lectures /\ lecture_unusable l.2 = false
       /\ row ∈ rows assignment_df /\ key row = Some k
       /\ is_Some (find_lecture_row (lecture_maps l.2).1 (lecture_maps l.2).2
                     (assign_ids assign_id_col assign_email_col row)).
Proof.
  revert acc. induction lectures as [|[n ldf] lectures IH]; intros acc; cbn [fold_left].
  - split; [auto|]. intros [?|(l & row & Hl & _)]; [done|]. by apply elem_of_nil in Hl.
  - rewrite IH. unfold lstep, merge_into_lecture.
    destruct (lecture_unusable ldf) eqn:Hu; cbn [as_all_assignment_students as_students_matched_this_assignment].
    + split; (intros [H|(l & row & Hl & Hlu & Hrow)]; [by left|right]).
      * exists l, row. split; [by right|done].
      * apply elem_of_cons in Hl as [->|Hl]; [simpl in Hlu; congruence|].
        exists l, row. done.
    + rewrite merge_rows_matched. split.
      * intros [[H|(row & Hrow & Hk & Hh)]|(l & row & Hl & Hrest)]; [by left| |].
        -- right. exists (n, ldf), row. split; [by left|done].
        -- right. exists l, row. split; [by right|done].
      * intros [H|(l & row & Hl & Hlu & Hrow & Hk & Hh)]; [by do 2 left|].
        apply elem_of_cons in Hl as [->|Hl].
        -- left. right. exists row. done.
        -- right. exists l, row. done.
Qed.
End AssignLectures.

Section MasterRows.
Variable (master_df : DataFrame).
Variables (master_id_col master_email_col lecture_id_col : option string).
Variables (student_id_map student_username_map : gmap string nat).

Let step :=
  merge_master_row master_df master_id_col master_email_col lecture_id_col
    student_id_map student_username_map.
Let ident (r : gmap string Cell) :=
  identifier_of (master_ids master_id_col master_email_col r).
Let hit (r : gmap string Cell) :=
  find_lecture_row student_id_map student_username_map
    (master_ids master_id_col master_email_col r).

(** the grade transfer touches the frame and its counters only *)
Lemma transfer_grade_frame raw_id raw_email row i st col :
  same_bookkeeping (transfer_grade raw_id raw_email row i st col) st.
Proof.
  unfold transfer_grade, same_bookkeeping.
  destruct (is_identification _ _ _); [done|].
  destruct (negb _); [done|]. destruct (_ || _); [done|].
  by destruct (find_matching_column _ _).
Qed.

Lemma fold_transfer_grade_frame raw_id raw_email row i cols st :
  same_bookkeeping
    (fold_left (transfer_grade raw_id raw_email row i) cols st) st.
Proof.
  revert st. induction cols as [|c cols IH]; intros st; [done|].
  cbn [fold_left].
  destruct (IH (transfer_grade raw_id raw_email row i st c))
    as (H1 & H2 & H3 & H4 & H5 & H6 & H7 & H8).
  destruct (transfer_grade_frame raw_id raw_email row i st c)
    as (G1 & G2 & G3 & G4 & G5 & G6 & G7 & G8).
  unfold same_bookkeeping. by rewrite H1, H2, H3, H4, H5, H6, H7, H8.
Qed.


Lemma merge_master_row_matched st ir :
  ms_matched_students (step st ir)
  = match hit ir.2 with
    | Some _ => {[ident ir.2]} ∪ ms_matched_students st
    | None => ms_matched_students st
    end.
Proof.
  destruct ir as [idx r]. unfold step, merge_master_row, hit. fold (ident r).
  simpl. destruct (find_lecture_row _ _ _) as [[i m]|]; [|done].
  match goal with
  | |- context [fold_left ?f ?cols ?s] =>
      destruct (fold_transfer_grade_frame
                  (find_student_id_column master_df)
                  (find_email_column master_df) r i cols s)
        as (_ & _ & _ & _ & _ & -> & _)
  end. done.
Qed.


Lemma fold_master_rows_matched irs st k :
  k ∈ ms_matched_students (fold_left step irs st) <->
  k ∈ ms_matched_students st
  \/ exists ir, ir ∈ irs /\ ident ir.2 = k /\ is_Some (hit ir.2).
Proof.
  revert st. induction irs as [|ir irs IH]; intros st; simpl.
  - split; [auto|]. intros [?|(r & Hr & _)]; [done|]. by apply elem_of_nil in Hr.
  - rewrite IH, merge_master_row_matched. split.
    + intros [H|(ir' & Hr' & Hk)].
      * destruct (hit ir.2) as [x|] eqn:Hh; [|auto].
        apply elem_of_union in H as [->%elem_of_singleton|H]; [|auto].
        right. exists ir. split; [by left|]. rewrite Hh. eauto.
      * right. exists ir'. split; [by right|done].
    + intros [H|(ir' & Hr' & Hk & Hh)].
      * left. destruct (hit ir.2); [|done]. apply elem_of_union. by right.
      * apply elem_of_cons in Hr' as [->|Hr'].
        -- left. destruct Hh as [x Hx]. rewrite Hx, Hk.
           apply elem_of_union. left. by apply elem_of_singleton.
        -- right. eauto.
Qed.
End MasterRows.

Lemma elem_of_iterrows df ir :
  ir ∈ iterrows df <-> rows df !! ir.1 = Some ir.2.
Proof.
  unfold iterrows. rewrite elem_of_lookup_imap. destruct ir as [i r]. simpl. split.
  - by intros (i' & r' & [= -> ->] & H).
  - intros H. by exists i, r.
Qed.

Lemma iterrows_row df r :
  (exists ir, ir ∈ iterrows df /\ ir.2 = r) <-> r ∈ rows df.
Proof.
  rewrite list_elem_of_lookup. split.
  - intros (ir & Hir%elem_of_iterrows & <-). eauto.
  - intros [i Hi]. exists (i, r). split; [by apply elem_of_iterrows|done].
Qed.

Section MasterLectures.
Variable (master_df : DataFrame).

Let lstep := merge_master_lecture master_df.
Let ident (r : gmap string Cell) := identifier_of (master_row_ids master_df r).


Lemma merge_master_rows_matched lecture_df st k :
  k ∈ ms_matched_students (merge_master_rows master_df lecture_df st) <->
  k ∈ ms_matched_students st
  \/ exists row, row ∈ rows master_df /\ ident row = k
       /\ is_Some (find_lecture_row (master_lecture_maps lecture_df).1
                     (master_lecture_maps lecture_df).2
                     (master_row_ids master_df row)).
Proof.
  unfold merge_master_rows. rewrite fold_master_rows_matched. simpl.
  apply or_iff_compat_l. split.
  - intros (ir & Hir & Hk & Hh). exists ir.2. split; [|done].
    apply iterrows_row. eauto.
  - intros (row & (ir & Hir & <-)%iterrows_row & Hk & Hh). eauto.
Qed.


Lemma fold_master_lectures_matched lectures acc k :
  k ∈ ms_matched_students (ma_state (fold_left lstep lectures acc)) <->
  k ∈ ms_matched_students (ma_state acc)
  \/ exists l row,
       l ∈ lectures /\ master_lecture_unusable l.2 = false
       /\ row ∈ rows master_df /\ ident row = k
       /\ is_Some (find_lecture_row (master_lecture_maps l.2).1
                     (master_lecture_maps l.2).2
                     (master_row_ids master_df row)).
Proof.
  revert acc. induction lectures as [|[n ldf] lectures IH]; intros acc; cbn [fold_left].
  - split; [auto|]. intros [?|(l & row & Hl & _)]; [done|]. by apply elem_of_nil in Hl.
  - rewrite IH. unfold lstep, merge_master_lecture.
    destruct (master_lecture_unusable ldf) eqn:Hu; cbn [ma_state].
    + split; (intros [H|(l & row & Hl & Hlu & Hrow)]; [by left|right]).
      * exists l, row. split; [by right|done].
      * apply elem_of_cons in Hl as [->|Hl]; [simpl in Hlu; congruence|].
        exists l, row. done.
    + rewrite merge_master_rows_matched. split.
      * intros [[H|(row & Hrow & Hk & Hh)]|(l & row & Hl & Hrest)]; [by left| |].
        -- right. exists (n, ldf), row. split; [by left|done].
        -- right. exists l, row. split; [by right|done].
      * intros [H|(l & row & Hl & Hlu & Hrow & Hk & Hh)]; [by do 2 left|].
        apply elem_of_cons in Hl as [->|Hl].
        -- left. right. exists row. done.
        -- right. exists l, row. done.
Qed.
End MasterLectures.


(** ** Merge engine: id mismatches *)



Lemma matched_lecture_id_actual lecture_df c j :
  Cell.truthy (df_at lecture_df j c) = true ->
  matched_lecture_id lecture_df (Some c) j
  = normalize_student_id (df_at lecture_df j c).
Proof. unfold matched_lecture_id. by intros ->. Qed.

Lemma lookup_row_999 col c :
  row_999 !! col = Some c ->
  c = CStr "999" \/ c = CStr "alice@x.edu" \/ c = CInt 95.
Proof.
  unfold row_999. intros H.
  apply lookup_insert_Some in H as [[_ <-]|[_ H]]; [auto|].
  apply lookup_insert_Some in H as [[_ <-]|[_ H]]; [auto|].
  apply lookup_singleton_Some in H as [_ <-]. auto.
Qed.

(** C4 as stated fails in [merge_grades_from_assignments]: for the source
    row with id "999" and email "alice@x.edu" against the destination row
    with id "111" and username "alice", the one record produced is the
    source row itself, and no cell of it holds the destination id "111". *)
Lemma id_mismatch_record_lacks_destination_id :
  ~ (exists record,
       res_failed_id_match_rows
         (merge_grades_from_assignments [("lecture.csv", lecture_ab)]
            [("W1 PA", assignment_999)]) = [record]
       /\ row_mentions record "999"
       /\ row_mentions record "111").
Proof.
  intros (record & Hrec & _ & (col & c & Hc & Hn)).
  assert (Hrun : res_failed_id_match_rows
            (merge_grades_from_assignments [("lecture.csv", lecture_ab)]
               [("W1 PA", assignment_999)]) = [row_999])
    by (vm_compute; reflexivity).
  rewrite Hrun in Hrec. injection Hrec as <-.
  apply lookup_row_999 in Hc as [-> | [-> | ->]];
    revert Hn; vm_compute; intros [=].
Qed.


(** * Further properties *)

(** ** Column ordering keeps every column *)

(** X1: column ordering keeps every column label and the rows.  On a frame
    with pairwise distinct labels the ordered labels are a permutation of
    the original ones: none is dropped, none is repeated, and they are still
    distinct.  On a frame in which a label repeats, each occurrence of the
    label selects every column that carries it: three columns of which two
    share a label come back as five columns, and as seventeen when ordered
    again. *)
Theorem sort_assignment_columns_permutation (df : DataFrame) :
  (forall col, col ∈ columns (sort_assignment_columns df) <-> col ∈ columns df)
  /\ rows (sort_assignment_columns df) = rows df
  /\ (NoDup (columns df) ->
      Permutation (columns (sort_assignment_columns df)) (columns df)
      /\ NoDup (columns (sort_assignment_columns df))
      /\ length (columns (sort_assignment_columns df)) = length (columns df))
  /\ columns (sort_assignment_columns (mkDF ["Name"; "W1 PA"; "W1 PA"] []))
     = ["Name"; "W1 PA"; "W1 PA"; "W1 PA"; "W1 PA"]
  /\ length (columns (sort_assignment_columns
                        (sort_assignment_columns
                           (mkDF ["Name"; "W1 PA"; "W1 PA"] []))))
     = 17%nat.
Proof.
  split_and!.
  - intros col. apply elem_of_sorted_columns.
  - done.
  - intros Hnd. rewrite (sort_assignment_columns_distinct df Hnd).
    pose proof (new_column_order_perm (columns df)) as Hp.
    split_and!; by rewrite Hp.
  - vm_compute; reflexivity.
  - vm_compute; reflexivity.
Qed.

Lemma sort_assignment_columns_permutation_witness :
  let df := mkDF ["W2 PA"; "Name"; "W1 CA"] [] in
  NoDup (columns df)
  /\ columns (sort_assignment_columns df) = ["Name"; "W1 CA"; "W2 PA"]
  /\ Permutation (columns (sort_assignment_columns df)) (columns df)
  /\ NoDup (columns (sort_assignment_columns df))
  /\ length (columns (sort_assignment_columns df)) = length (columns df).
Proof.
  intros df.
  assert (H : NoDup (columns df)).
  { apply (bool_decide_unpack _). vm_compute. exact I. }
  split; [exact H|]. split; [vm_compute; reflexivity|].
  exact (proj1 (proj2 (proj2 (sort_assignment_columns_permutation df))) H).
Defined.

(** ** The lookup tables of a destination frame *)

Lemma iterrows_snoc cols rs r :
  iterrows (mkDF cols (rs ++ [r])) = iterrows (mkDF cols rs) ++ [(length rs, r)].
Proof.
  unfold iterrows. simpl. rewrite imap_app. simpl. by rewrite Nat.add_0_r.
Qed.

Lemma index_id_as_username lec_id_col m idx row :
  index_id lec_id_col m idx row
  = index_username
      (match lec_id_col with
       | Some c => normalize_student_id (row_get row c)
       | None => None
       end) m idx.
Proof. unfold index_id, index_username. by destruct lec_id_col. Qed.

(** an index built by [m[key] = idx] over the rows, for the rows that have
    a non-empty key: each key points to the last row that carries it *)
Lemma index_last_writer (key : gmap string Cell -> option string) cols rs k i :
  fold_left (fun m ir => index_username (key ir.2) m ir.1)
    (iterrows (mkDF cols rs)) ∅ !! k = Some i
  <-> PyStr.truthy k = true
      /\ exists r, rs !! i = Some r /\ key r = Some k
           /\ forall j r', (i < j)%nat -> rs !! j = Some r' -> key r' <> Some k.
Proof.
  revert i. induction rs as [|x rs IH] using rev_ind; intros i.
  - simpl. rewrite lookup_empty. split; [done|]. by intros (_ & r & ? & _).
  - rewrite iterrows_snoc, fold_left_app. cbn [fold_left fst snd].
    set (m := fold_left _ (iterrows (mkDF cols rs)) ∅) in *.
    assert (Hlast : forall j r', (length rs < j)%nat -> (rs ++ [x]) !! j = Some r' -> False).
    { intros j r' Hj Hl. apply lookup_lt_Some in Hl.
      rewrite length_app in Hl. simpl in Hl. lia. }
    assert (Hkeep : m !! k = Some i <->
              PyStr.truthy k = true
              /\ exists r, rs !! i = Some r /\ key r = Some k
                   /\ forall j r', (i < j)%nat -> rs !! j = Some r' -> key r' <> Some k)
      by apply IH.
    assert (Hother : key x <> Some k \/ PyStr.truthy k = false ->
              (m !! k = Some i <->
               PyStr.truthy k = true
               /\ exists r, (rs ++ [x]) !! i = Some r /\ key r = Some k
                    /\ forall j r', (i < j)%nat -> (rs ++ [x]) !! j = Some r'
                                    -> key r' <> Some k)).
    { intros Hx. rewrite Hkeep. split.
      - intros (Ht & r & Hr & Hk & Hlater). split; [done|]. exists r.
        split; [by apply lookup_app_l_Some|]. split; [done|].
        intros j r' Hj Hl. apply lookup_app_Some in Hl as [Hl|[Hge Hl]].
        + by eapply Hlater.
        + apply list_lookup_singleton_Some in Hl as [_ <-].
          destruct Hx as [Hx|Hx]; [done|congruence].
      - intros (Ht & r & Hr & Hk & Hlater). split; [done|]. exists r.
        apply lookup_app_Some in Hr as [Hr|[Hge Hr]].
        + split; [done|]. split; [done|]. intros j r' Hj Hl.
          eapply Hlater; [done|]. by apply lookup_app_l_Some.
        + apply list_lookup_singleton_Some in Hr as [_ <-].
          destruct Hx as [Hx|Hx]; [done|congruence]. }
    unfold index_username at 1.
    destruct (key x) as [kx|] eqn:Hkx; [|apply Hother; by left].
    destruct (PyStr.truthy kx) eqn:Htx.
    + destruct (decide (kx = k)) as [->|Hne].
      * rewrite lookup_insert_eq. split.
        -- intros [= <-]. split; [done|]. exists x. split.
           { rewrite lookup_app_r by done. by rewrite Nat.sub_diag. }
           split; [done|]. intros j r' Hj Hl. by destruct (Hlast j r').
        -- intros (_ & r & Hr & Hk & Hlater). f_equal.
           destruct (decide (i = length rs)) as [->|Hi]; [done|]. exfalso.
           assert (i < length rs)%nat.
           { apply lookup_lt_Some in Hr. rewrite length_app in Hr. simpl in Hr. lia. }
           apply (Hlater (length rs) x); [done| |done].
           rewrite lookup_app_r by done. by rewrite Nat.sub_diag.
      * rewrite lookup_insert_ne by done. apply Hother. left. congruence.
    + destruct (decide (kx = k)) as [->|Hne].
      * apply Hother. by right.
      * apply Hother. left. congruence.
Qed.

Lemma build_maps_fst cols rs idc ec uc :
  (build_maps (mkDF cols rs) idc ec uc).1
  = fold_left
      (fun m ir =>
         index_username
           (match idc with
            | Some c => normalize_student_id (row_get ir.2 c)
            | None => None
            end) m ir.1)
      (iterrows (mkDF cols rs)) ∅.
Proof.
  unfold build_maps. generalize (iterrows (mkDF cols rs)).
  generalize (∅ : gmap string nat) at 1 3. generalize (∅ : gmap string nat).
  intros m2 m1 l. revert m1 m2. induction l as [|ir l IH]; intros m1 m2; [done|].
  cbn [fold_left fst snd]. rewrite IH. by rewrite index_id_as_username.
Qed.

Lemma build_maps_snd cols rs idc ec uc :
  (build_maps (mkDF cols rs) idc ec uc).2
  = fold_left (fun m ir => index_username (lecture_username uc ec ir.2) m ir.1)
      (iterrows (mkDF cols rs)) ∅.
Proof.
  unfold build_maps. generalize (iterrows (mkDF cols rs)).
  generalize (∅ : gmap string nat) at 2 3. generalize (∅ : gmap string nat).
  intros m1 m2 l. revert m1 m2. induction l as [|ir l IH]; intros m1 m2; [done|].
  cbn [fold_left fst snd]. by rewrite IH.
Qed.

(** X2: the two lookup tables that [merge_grades_from_assignments] builds
    from a lecture frame hold exactly the non-empty keys of its rows, and a
    key carried by several rows points to the last of them: an id maps to
    the last row whose normalized id it is, a username to the last row whose
    username (username column, else school-email local part) it is. *)
Theorem build_maps_last_row_wins (lecture_df : DataFrame)
    (lec_id_col lec_email_col lec_username_col : option string)
    (k : string) (i : nat) :
  ((build_maps lecture_df lec_id_col lec_email_col lec_username_col).1 !! k
   = Some i
   <-> PyStr.truthy k = true
       /\ exists c r,
            lec_id_col = Some c /\ rows lecture_df !! i = Some r
            /\ normalize_student_id (row_get r c) = Some k
            /\ forall j r', (i < j)%nat -> rows lecture_df !! j = Some r' ->
                 normalize_student_id (row_get r' c) <> Some k)
  /\ ((build_maps lecture_df lec_id_col lec_email_col lec_username_col).2 !! k
      = Some i
      <-> PyStr.truthy k = true
          /\ exists r,
               rows lecture_df !! i = Some r
               /\ lecture_username lec_username_col lec_email_col r = Some k
               /\ forall j r', (i < j)%nat -> rows lecture_df !! j = Some r' ->
                    lecture_username lec_username_col lec_email_col r' <> Some k).
Proof.
  destruct lecture_df as [cols rs]. split.
  - rewrite build_maps_fst.
    rewrite (index_last_writer
               (fun r => match lec_id_col with
                         | Some c => normalize_student_id (row_get r c)
                         | None => None
                         end)).
    cbn [rows].
    apply and_iff_compat_l. destruct lec_id_col as [c|].
    + split.
      * intros (r & Hr & Hk & Hl). by exists c, r.
      * intros (c' & r & [= <-] & Hr & Hk & Hl). by exists r.
    + split; [by intros (r & _ & ? & _)|by intros (c & r & ? & _)].
  - rewrite build_maps_snd.
    by rewrite (index_last_writer (lecture_username lec_username_col lec_email_col)).
Qed.

Lemma build_maps_in_range lecture_df idc ec uc k i :
  (build_maps lecture_df idc ec uc).1 !! k = Some i
  \/ (build_maps lecture_df idc ec uc).2 !! k = Some i ->
  (i < length (rows lecture_df))%nat.
Proof.
  destruct lecture_df as [cols rs]. rewrite build_maps_fst, build_maps_snd.
  cbn [rows]. intros [H|H].
  - apply (index_last_writer
             (fun r => match idc with
                       | Some c => normalize_student_id (row_get r c)
                       | None => None
                       end)) in H as (_ & r & Hr & _).
    by apply lookup_lt_Some in Hr.
  - apply (index_last_writer (lecture_username uc ec)) in H as (_ & r & Hr & _).
    by apply lookup_lt_Some in Hr.
Qed.

Lemma find_lecture_row_in_map sm um ids i m :
  find_lecture_row sm um ids = Some (i, m) ->
  exists k, sm !! k = Some i \/ um !! k = Some i.
Proof.
  unfold find_lecture_row.
  destruct (dict_find sm ids.1) as [i'|] eqn:H1.
  - intros [= <- <-]. apply dict_find_Some in H1 as (s & _ & _ & H). eauto.
  - destruct (dict_find um ids.2) as [i'|] eqn:H2; [|done].
    intros [= <- <-]. apply dict_find_Some in H2 as (s & _ & _ & H). eauto.
Qed.

(** X3: a source row is only ever matched to an existing row of the lecture
    frame: the row index found through the lookup tables is within the
    frame, so a grade is never written outside it. *)
Theorem matched_row_index_in_range (lecture_df : DataFrame)
    (ids : option string * option string) (i : nat) (m : MatchMethod) :
  find_lecture_row (lecture_maps lecture_df).1 (lecture_maps lecture_df).2 ids
  = Some (i, m) ->
  (i < length (rows lecture_df))%nat
  /\ exists r, rows lecture_df !! i = Some r.
Proof.
  intros (k & Hk)%find_lecture_row_in_map.
  assert (i < length (rows lecture_df))%nat as Hi
    by (eapply build_maps_in_range; exact Hk).
  split; [done|]. by apply lookup_lt_is_Some_2.
Qed.

Lemma matched_row_index_in_range_witness :
  find_lecture_row (lecture_maps lecture_ab).1 (lecture_maps lecture_ab).2
    (Some "999", Some "alice2") = Some (1%nat, ByEmail)
  /\ (1 < length (rows lecture_ab))%nat.
Proof.
  assert (H : find_lecture_row (lecture_maps lecture_ab).1
                (lecture_maps lecture_ab).2 (Some "999", Some "alice2")
              = Some (1%nat, ByEmail)) by (vm_compute; reflexivity).
  split; [exact H|].
  exact (proj1 (matched_row_index_in_range lecture_ab _ _ _ H)).
Defined.

Lemma build_maps_last_row_wins_witness :
  (build_maps lecture_ab (Some "Student ID") None (Some "Username")).1 !! "222"
  = Some 1%nat
  /\ PyStr.truthy "222" = true.
Proof.
  assert (H : (build_maps lecture_ab (Some "Student ID") None (Some "Username")).1
              !! "222" = Some 1%nat) by (vm_compute; reflexivity).
  split; [exact H|].
  exact (proj1 (proj1 (proj1 (build_maps_last_row_wins lecture_ab
                                (Some "Student ID") None (Some "Username")
                                "222" 1%nat)) H)).
Defined.

(** ** What a merge pass does to the lecture frame *)

Lemma df_set_columns df i col v : columns (df_set df i col v) = columns df.
Proof. done. Qed.

Lemma df_set_length df i col v :
  length (rows (df_set df i col v)) = length (rows df).
Proof. unfold df_set. simpl. apply length_alter. Qed.

Lemma df_set_at_other_column df i col v j c :
  c <> col -> df_at (df_set df i col v) j c = df_at df j c.
Proof.
  intros Hc. unfold df_at, df_set. simpl.
  destruct (decide (i = j)) as [->|Hij].
  - rewrite list_lookup_alter_eq. destruct (rows df !! j) as [r|]; [|done].
    simpl. unfold row_get. by rewrite lookup_insert_ne.
  - by rewrite list_lookup_alter_ne.
Qed.

Lemma df_set_at_other_row df i col v j c :
  i <> j -> df_at (df_set df i col v) j c = df_at df j c.
Proof.
  intros Hij. unfold df_at, df_set. simpl. by rewrite list_lookup_alter_ne.
Qed.

Lemma df_set_at_same df i col v :
  (i < length (rows df))%nat -> df_at (df_set df i col v) i col = v.
Proof.
  intros Hi. unfold df_at, df_set. simpl. rewrite list_lookup_alter_eq.
  destruct (lookup_lt_is_Some_2 _ _ Hi) as [r ->]. simpl.
  unfold row_get. by rewrite lookup_insert_eq.
Qed.

Lemma df_add_column_length df col :
  length (rows (df_add_column df col)) = length (rows df).
Proof. unfold df_add_column. simpl. apply length_fmap. Qed.

Lemma df_add_column_at_other df col j c :
  c <> col -> df_at (df_add_column df col) j c = df_at df j c.
Proof.
  intros Hc. unfold df_at, df_add_column. simpl. rewrite list_lookup_fmap.
  destruct (rows df !! j) as [r|]; [|done]. simpl.
  unfold row_get. by rewrite lookup_insert_ne.
Qed.

Lemma df_add_column_at_new df col j :
  (j < length (rows df))%nat -> df_at (df_add_column df col) j col = CStr EmptyString.
Proof.
  intros Hj. unfold df_at, df_add_column. simpl. rewrite list_lookup_fmap.
  destruct (lookup_lt_is_Some_2 _ _ Hj) as [r ->]. simpl.
  unfold row_get. by rewrite lookup_insert_eq.
Qed.

Section AssignRowsFrame.
Variables (abbrev_name assign_id_col grade_col : string).
Variables (assign_email_col lec_id_col : option string).
Variables (student_map username_map : gmap string nat).

Let step :=
  merge_assign_row abbrev_name assign_id_col grade_col assign_email_col
    lec_id_col student_map username_map.
Let hit (r : gmap string Cell) :=
  find_lecture_row student_map username_map
    (assign_ids assign_id_col assign_email_col r).
Let graded (r : gmap string Cell) : bool := has_grade grade_col r.

(** the frame after one step: unchanged, or one cell of the assignment's
    column written in the row found *)
Lemma merge_assign_row_frame st r :
  ls_lecture_df (step st r)
  = match hit r with
    | Some (i, _) =>
        if graded r then df_set (ls_lecture_df st) i abbrev_name (row_get r grade_col)
        else ls_lecture_df st
    | None => ls_lecture_df st
    end.
Proof.
  unfold step, merge_assign_row, hit, graded, has_grade.
  destruct (find_lecture_row _ _ _) as [[i m]|]; [|done].
  by destruct (_ || _).
Qed.

Lemma fold_assign_rows_shape rs st :
  columns (ls_lecture_df (fold_left step rs st)) = columns (ls_lecture_df st)
  /\ length (rows (ls_lecture_df (fold_left step rs st)))
     = length (rows (ls_lecture_df st))
  /\ forall j c, c <> abbrev_name ->
       df_at (ls_lecture_df (fold_left step rs st)) j c
       = df_at (ls_lecture_df st) j c.
Proof.
  revert st. induction rs as [|r rs IH]; intros st; [done|].
  cbn [fold_left]. destruct (IH (step st r)) as (Hc & Hl & Ha).
  rewrite Hc, Hl. rewrite merge_assign_row_frame.
  split_and!.
  - destruct (hit r) as [[i m]|]; [|done]. by destruct (graded r).
  - destruct (hit r) as [[i m]|]; [|done]. destruct (graded r); [|done].
    apply df_set_length.
  - intros j c Hne. rewrite (Ha j c Hne), merge_assign_row_frame.
    destruct (hit r) as [[i m]|]; [|done]. destruct (graded r); [|done].
    by apply df_set_at_other_column.
Qed.

(** a row of the frame that no graded source row resolves to keeps its
    cell *)
Lemma fold_assign_rows_untouched rs st j :
  (forall r m, r ∈ rs -> hit r = Some (j, m) -> graded r = false) ->
  df_at (ls_lecture_df (fold_left step rs st)) j abbrev_name
  = df_at (ls_lecture_df st) j abbrev_name.
Proof.
  revert st. induction rs as [|r rs IH]; intros st Hno; [done|].
  cbn [fold_left]. rewrite IH.
  - rewrite merge_assign_row_frame.
    destruct (hit r) as [[i m]|] eqn:Hh; [|done].
    destruct (graded r) eqn:Hg; [|done].
    apply df_set_at_other_row. intros ->.
    rewrite (Hno r m) in Hg; [done|by left|done].
  - intros r' m Hr'. apply Hno. by right.
Qed.

(** the last graded source row that resolves to a row of the frame decides
    its cell *)
Lemma fold_assign_rows_last_writer pre r post st j m :
  hit r = Some (j, m) -> graded r = true ->
  (j < length (rows (ls_lecture_df st)))%nat ->
  (forall r' m', r' ∈ post -> hit r' = Some (j, m') -> graded r' = false) ->
  df_at (ls_lecture_df (fold_left step (pre ++ r :: post) st)) j abbrev_name
  = row_get r grade_col.
Proof.
  intros Hh Hg Hj Hpost. rewrite fold_left_app. cbn [fold_left].
  rewrite fold_assign_rows_untouched by done.
  rewrite merge_assign_row_frame, Hh, Hg.
  apply df_set_at_same.
  by rewrite (proj1 (proj2 (fold_assign_rows_shape pre st))).
Qed.

(** the counters: matched rows by method, written grades, recorded
    mismatches *)
Lemma merge_assign_row_counters st r :
  (ls_matched_by_id (step st r)
   = ls_matched_by_id st + (if hit_by ById (hit r) then 1 else 0))%nat
  /\ (ls_matched_by_email (step st r)
      = ls_matched_by_email st + (if hit_by ByEmail (hit r) then 1 else 0))%nat
  /\ (ls_grades_updated (step st r)
      = ls_grades_updated st
        + (if bool_decide (is_Some (hit r)) && graded r then 1 else 0))%nat
  /\ (length (ls_failed_id_matches (step st r))
      <= length (ls_failed_id_matches st)
         + (if hit_by ByEmail (hit r) then 1 else 0))%nat
  /\ (res_by_id (ls_results (step st r))
      = res_by_id (ls_results st) + (if hit_by ById (hit r) then 1 else 0))%nat
  /\ (res_by_email (ls_results (step st r))
      = res_by_email (ls_results st)
        + (if hit_by ByEmail (hit r) then 1 else 0))%nat.
Proof.
  unfold step, merge_assign_row, hit, graded, has_grade.
  destruct (find_lecture_row _ _ _) as [[i m]|].
  - rewrite bool_decide_eq_true_2 by eauto.
    assert (length (id_mismatch_row (ls_lecture_df st) lec_id_col i
              (assign_ids assign_id_col assign_email_col r).1 r) <= 1)%nat
      as Hmm.
    { unfold id_mismatch_row. destruct lec_id_col; [|simpl; lia].
      destruct (truthy_opt _); [|simpl; lia].
      destruct (_ && _); simpl; lia. }
    destruct (_ || _); destruct m;
      cbn [ls_lecture_df ls_grades_updated ls_matched_by_id
           ls_matched_by_email ls_failed_id_matches ls_results
           record_match res_by_id res_by_email hit_by andb negb];
      rewrite ?length_app; lia.
  - rewrite bool_decide_eq_false_2 by (by intros [? ?]).
    cbn [ls_lecture_df ls_grades_updated ls_matched_by_id
         ls_matched_by_email ls_failed_id_matches ls_results hit_by andb negb].
    lia.
Qed.

Lemma count_if_cons {A} (f : A -> bool) x l :
  count_if f (x :: l) = ((if f x then 1 else 0) + count_if f l)%nat.
Proof. unfold count_if. cbn [List.filter]. by destruct (f x). Qed.

Lemma count_if_le {A} (f : A -> bool) l : (count_if f l <= length l)%nat.
Proof.
  induction l as [|x l IH]; [done|]. rewrite count_if_cons. cbn [length].
  destruct (f x); lia.
Qed.

Lemma count_if_mono {A} (f g : A -> bool) l :
  (forall x, f x = true -> g x = true) -> (count_if f l <= count_if g l)%nat.
Proof.
  intros Hfg. induction l as [|x l IH]; [done|]. rewrite !count_if_cons.
  destruct (f x) eqn:Hf; [rewrite (Hfg x Hf)|destruct (g x)]; lia.
Qed.

Lemma fold_assign_rows_counters rs st :
  (ls_matched_by_id (fold_left step rs st)
   = ls_matched_by_id st + count_if (fun r => hit_by ById (hit r)) rs)%nat
  /\ (ls_matched_by_email (fold_left step rs st)
      = ls_matched_by_email st + count_if (fun r => hit_by ByEmail (hit r)) rs)%nat
  /\ (ls_grades_updated (fold_left step rs st)
      = ls_grades_updated st
        + count_if (fun r => bool_decide (is_Some (hit r)) && graded r) rs)%nat
  /\ (length (ls_failed_id_matches (fold_left step rs st))
      <= length (ls_failed_id_matches st)
         + count_if (fun r => hit_by ByEmail (hit r)) rs)%nat
  /\ (res_by_id (ls_results (fold_left step rs st))
      = res_by_id (ls_results st) + count_if (fun r => hit_by ById (hit r)) rs)%nat
  /\ (res_by_email (ls_results (fold_left step rs st))
      = res_by_email (ls_results st)
        + count_if (fun r => hit_by ByEmail (hit r)) rs)%nat.
Proof.
  revert st. induction rs as [|r rs IH]; intros st.
  - unfold count_if. simpl. lia.
  - cbn [fold_left]. rewrite !count_if_cons.
    destruct (IH (step st r)) as (H1 & H2 & H3 & H4 & H5 & H6).
    destruct (merge_assign_row_counters st r) as (G1 & G2 & G3 & G4 & G5 & G6).
    lia.
Qed.

(** a row with neither an id nor a username leaves the state as it is *)
Lemma merge_assign_row_no_key st r :
  truthy_opt (student_key_of (assign_ids assign_id_col assign_email_col r)) = false ->
  step st r = st.
Proof.
  unfold step, merge_assign_row, student_key_of, py_or.
  set (ids := assign_ids assign_id_col assign_email_col r).
  intros Hk. rewrite Hk.
  assert (truthy_opt ids.1 = false /\ truthy_opt ids.2 = false) as [H1 H2].
  { destruct (truthy_opt ids.1) eqn:E; cbn iota in Hk; [congruence|done]. }
  assert (forall m k, truthy_opt k = false -> dict_find m k = None) as Hdf.
  { intros m [k|] Ht; [|done]. simpl in *. by rewrite Ht. }
  unfold find_lecture_row. rewrite !Hdf by done. by destruct st.
Qed.
End AssignRowsFrame.

Lemma merge_rows_unfold abbrev_name assign_id_col grade_col assign_email_col
    assignment_df lecture_df all_students matched_this r :
  merge_rows abbrev_name assign_id_col grade_col assign_email_col
    assignment_df lecture_df all_students matched_this r
  = fold_left
      (merge_assign_row abbrev_name assign_id_col grade_col assign_email_col
         (found (find_student_id_column lecture_df))
         (lecture_maps lecture_df).1 (lecture_maps lecture_df).2)
      (rows assignment_df)
      (mkLoop (ensure_column abbrev_name lecture_df r).1 0 0 0 [] all_students
         matched_this (ensure_column abbrev_name lecture_df r).2).
Proof. unfold merge_rows, lecture_maps. by destruct (ensure_column _ _ _). Qed.

Lemma ensure_column_frame abbrev_name lecture_df r :
  columns (ensure_column abbrev_name lecture_df r).1
  = (if bool_decide (abbrev_name ∈ columns lecture_df) then columns lecture_df
     else columns lecture_df ++ [abbrev_name])
  /\ length (rows (ensure_column abbrev_name lecture_df r).1)
     = length (rows lecture_df)
  /\ (forall j c, c <> abbrev_name ->
        df_at (ensure_column abbrev_name lecture_df r).1 j c = df_at lecture_df j c)
  /\ (forall j, (j < length (rows lecture_df))%nat ->
        df_at (ensure_column abbrev_name lecture_df r).1 j abbrev_name
        = if bool_decide (abbrev_name ∈ columns lecture_df)
          then df_at lecture_df j abbrev_name else CStr EmptyString).
Proof.
  unfold ensure_column. destruct (bool_decide _); cbn [fst]; [done|].
  split_and!; [done|apply df_add_column_length| |].
  - intros j c Hc. by apply df_add_column_at_other.
  - intros j Hj. by apply df_add_column_at_new.
Qed.

Lemma merge_rows_shape abbrev_name assign_id_col grade_col assign_email_col
    assignment_df lecture_df all_students matched_this r :
  columns (ls_lecture_df
             (merge_rows abbrev_name assign_id_col grade_col assign_email_col
                assignment_df lecture_df all_students matched_this r))
  = (if bool_decide (abbrev_name ∈ columns lecture_df) then columns lecture_df
     else columns lecture_df ++ [abbrev_name])
  /\ length (rows (ls_lecture_df
                     (merge_rows abbrev_name assign_id_col grade_col
                        assign_email_col assignment_df lecture_df all_students
                        matched_this r)))
     = length (rows lecture_df)
  /\ forall j c, c <> abbrev_name ->
       df_at (ls_lecture_df
                (merge_rows abbrev_name assign_id_col grade_col assign_email_col
                   assignment_df lecture_df all_students matched_this r)) j c
       = df_at lecture_df j c.
Proof.
  rewrite merge_rows_unfold.
  destruct (ensure_column_frame abbrev_name lecture_df r) as (Ec & El & Ea & _).
  match goal with
  | |- context [fold_left ?f ?rs ?st] =>
      destruct (fold_assign_rows_shape abbrev_name assign_id_col grade_col
                  assign_email_col (found (find_student_id_column lecture_df))
                  (lecture_maps lecture_df).1 (lecture_maps lecture_df).2 rs st)
        as (Hc & Hl & Ha)
  end.
  cbn [ls_lecture_df] in Hc, Hl, Ha.
  rewrite Hc, Hl, Ec, El. split_and!; [done|done|].
  intros j c Hne. by rewrite Ha, Ea.
Qed.

(** X4: merging one assignment into a lecture frame keeps the frame's rows
    and every other column as they are: the row count is unchanged, the
    column labels are the old ones, followed by the assignment's label when
    it was not yet there, every cell outside the assignment's column keeps
    its value, and distinct labels stay distinct. *)
Theorem merge_rows_frame (abbrev_name assign_id_col grade_col : string)
    (assign_email_col : option string) (assignment_df lecture_df : DataFrame)
    (all_students matched_this : gset string) (r : Results) :
  let out :=
    ls_lecture_df
      (merge_rows abbrev_name assign_id_col grade_col assign_email_col
         assignment_df lecture_df all_students matched_this r) in
  columns out
  = (if bool_decide (abbrev_name ∈ columns lecture_df) then columns lecture_df
     else columns lecture_df ++ [abbrev_name])
  /\ abbrev_name ∈ columns out
  /\ length (rows out) = length (rows lecture_df)
  /\ (forall j c, c <> abbrev_name -> df_at out j c = df_at lecture_df j c)
  /\ (NoDup (columns lecture_df) -> NoDup (columns out)).
Proof.
  intros out.
  destruct (merge_rows_shape abbrev_name assign_id_col grade_col
              assign_email_col assignment_df lecture_df all_students
              matched_this r) as (Hc & Hl & Ha).
  fold out in Hc, Hl, Ha. split_and!; [done| |done|done|].
  - rewrite Hc. case_bool_decide as Hin; [done|].
    apply elem_of_app. right. by apply list_elem_of_singleton.
  - intros Hnd. rewrite Hc. case_bool_decide as Hin; [done|].
    apply NoDup_app. split_and!; [done| |apply NoDup_singleton].
    intros x Hx ->%list_elem_of_singleton. done.
Qed.

Lemma merge_rows_frame_witness :
  NoDup (columns lecture_ab)
  /\ NoDup (columns (ls_lecture_df
                       (merge_rows "W1 PA" "Student ID" "Percent score"
                          (Some "School email") assignment_111 lecture_ab ∅ ∅
                          empty_results))).
Proof.
  assert (H : NoDup (columns lecture_ab)).
  { apply (bool_decide_unpack _). vm_compute. exact I. }
  split; [exact H|].
  exact (proj2 (proj2 (proj2 (proj2
           (merge_rows_frame "W1 PA" "Student ID" "Percent score"
              (Some "School email") assignment_111 lecture_ab ∅ ∅
              empty_results)))) H).
Defined.

(** X5: the cell of the assignment's column in a lecture row after the
    merge, when that column is new or holds text.  If rows of the assignment
    that carry a grade resolve to the lecture row, the grade of the last of
    them is in the cell; if none does, the cell is what it was, or the empty
    string when the column was created by this merge. *)
Theorem merge_rows_cell (abbrev_name assign_id_col grade_col : string)
    (assign_email_col : option string) (assignment_df lecture_df : DataFrame)
    (all_students matched_this : gset string) (r : Results) :
  (abbrev_name ∈ columns lecture_df -> holds_text lecture_df abbrev_name) ->
  let out :=
    ls_lecture_df
      (merge_rows abbrev_name assign_id_col grade_col assign_email_col
         assignment_df lecture_df all_students matched_this r) in
  let hit := lecture_hit assign_id_col assign_email_col lecture_df in
  (forall pre row post j m,
     rows assignment_df = pre ++ row :: post ->
     hit row = Some (j, m) -> has_grade grade_col row = true ->
     (forall row' m', row' ∈ post -> hit row' = Some (j, m') ->
        has_grade grade_col row' = false) ->
     df_at out j abbrev_name = row_get row grade_col)
  /\ (forall j,
        (j < length (rows lecture_df))%nat ->
        (forall row m, row ∈ rows assignment_df -> hit row = Some (j, m) ->
           has_grade grade_col row = false) ->
        df_at out j abbrev_name
        = if bool_decide (abbrev_name ∈ columns lecture_df)
          then df_at lecture_df j abbrev_name else CStr EmptyString).
Proof.
  intros _ out hit. subst out. rewrite merge_rows_unfold.
  destruct (ensure_column_frame abbrev_name lecture_df r) as (Ec & El & Ea & En).
  split.
  - intros pre row post j m Hrows Hh Hg Hpost. rewrite Hrows.
    eapply fold_assign_rows_last_writer; [exact Hh|exact Hg| |exact Hpost].
    cbn [ls_lecture_df]. rewrite El.
    apply find_lecture_row_in_map in Hh as (k & Hk).
    eapply build_maps_in_range. exact Hk.
  - intros j Hj Hno.
    rewrite fold_assign_rows_untouched by exact Hno.
    cbn [ls_lecture_df]. by apply En.
Qed.

(** [assignment_mixed] into [lecture_ab_w1], whose column ["W1 PA"] holds
    text: row A gets the grade of the one row that resolves to it, row B
    keeps its text *)
Lemma merge_rows_cell_witness :
  let out :=
    ls_lecture_df
      (merge_rows "W1 PA" "Student ID" "Percent score" (Some "School email")
         assignment_mixed lecture_ab_w1 ∅ ∅ empty_results) in
  holds_text lecture_ab_w1 "W1 PA"
  /\ df_at out 0 "W1 PA" = CInt 95
  /\ df_at out 1 "W1 PA" = CStr "excused".
Proof.
  intros out.
  assert (Ht : holds_text lecture_ab_w1 "W1 PA") by (by exists 1%nat, "excused").
  pose proof (merge_rows_cell "W1 PA" "Student ID" "Percent score"
                (Some "School email") assignment_mixed lecture_ab_w1 ∅ ∅
                empty_results (fun _ => Ht)) as [H1 H2].
  split; [exact Ht|]. split.
  - apply (H1 [] row_999 [row_999_stray; row_555] 0%nat ByEmail).
    + reflexivity.
    + vm_compute; reflexivity.
    + vm_compute; reflexivity.
    + intros row' m' Hin Hh. exfalso.
      apply elem_of_cons in Hin as [->|Hin]; [vm_compute in Hh; discriminate Hh|].
      apply list_elem_of_singleton in Hin. rewrite Hin in Hh.
      vm_compute in Hh. discriminate Hh.
  - apply (H2 1%nat).
    + vm_compute. lia.
    + intros row m Hin Hh. exfalso. unfold assignment_mixed in Hin.
      cbn [rows] in Hin.
      apply elem_of_cons in Hin as [->|Hin]; [vm_compute in Hh; discriminate Hh|].
      apply elem_of_cons in Hin as [->|Hin]; [vm_compute in Hh; discriminate Hh|].
      apply list_elem_of_singleton in Hin. rewrite Hin in Hh.
      vm_compute in Hh. discriminate Hh.
Defined.

Lemma count_if_hit_split {A} (hit : A -> option (nat * MatchMethod)) rs :
  (count_if (fun row => bool_decide (is_Some (hit row))) rs
   = count_if (fun row => hit_by ById (hit row)) rs
     + count_if (fun row => hit_by ByEmail (hit row)) rs)%nat.
Proof.
  induction rs as [|x rs IH]; [done|]. rewrite !count_if_cons, IH.
  destruct (hit x) as [[i []]|]; cbn [hit_by].
  - rewrite bool_decide_eq_true_2 by eauto. lia.
  - rewrite bool_decide_eq_true_2 by eauto. lia.
  - rewrite bool_decide_eq_false_2 by (by intros [? ?]). lia.
Qed.

(** X6: the per-lecture counters of one merge.  [matched_by_id] and
    [matched_by_email] count the assignment rows resolved by id and by
    username, [grades_updated] counts the resolved rows that carry a grade,
    and the run-wide method counters grow by the same amounts.  Hence no
    more grades are written than rows are matched, no more rows are matched
    than the assignment has, and no more id mismatches are recorded than
    rows are matched by username. *)
Theorem merge_rows_counters (abbrev_name assign_id_col grade_col : string)
    (assign_email_col : option string) (assignment_df lecture_df : DataFrame)
    (all_students matched_this : gset string) (r : Results) :
  let st :=
    merge_rows abbrev_name assign_id_col grade_col assign_email_col
      assignment_df lecture_df all_students matched_this r in
  let hit := lecture_hit assign_id_col assign_email_col lecture_df in
  ls_matched_by_id st
  = count_if (fun row => hit_by ById (hit row)) (rows assignment_df)
  /\ ls_matched_by_email st
     = count_if (fun row => hit_by ByEmail (hit row)) (rows assignment_df)
  /\ ls_grades_updated st
     = count_if (fun row => bool_decide (is_Some (hit row))
                            && has_grade grade_col row) (rows assignment_df)
  /\ res_by_id (ls_results st) = (res_by_id r + ls_matched_by_id st)%nat
  /\ res_by_email (ls_results st) = (res_by_email r + ls_matched_by_email st)%nat
  /\ (ls_grades_updated st <= ls_matched_by_id st + ls_matched_by_email st)%nat
  /\ (ls_matched_by_id st + ls_matched_by_email st
      <= length (rows assignment_df))%nat
  /\ (length (ls_failed_id_matches st) <= ls_matched_by_email st)%nat.
Proof.
  intros st hit. subst st hit. unfold lecture_hit. rewrite merge_rows_unfold.
  match goal with
  | |- context [fold_left ?f ?rs ?st] =>
      destruct (fold_assign_rows_counters abbrev_name assign_id_col grade_col
                  assign_email_col (found (find_student_id_column lecture_df))
                  (lecture_maps lecture_df).1 (lecture_maps lecture_df).2 rs st)
        as (H1 & H2 & H3 & H4 & H5 & H6)
  end.
  cbn [ls_matched_by_id ls_matched_by_email ls_grades_updated
       ls_failed_id_matches ls_results length] in H1, H2, H3, H4, H5, H6.
  assert (res_by_id (ensure_column abbrev_name lecture_df r).2 = res_by_id r
          /\ res_by_email (ensure_column abbrev_name lecture_df r).2
             = res_by_email r) as [E1 E2].
  { unfold ensure_column. by destruct (bool_decide _). }
  rewrite E1 in H5. rewrite E2 in H6.
  rewrite H1, H2, H3, H5, H6.
  set (hit := fun row =>
         find_lecture_row (lecture_maps lecture_df).1 (lecture_maps lecture_df).2
           (assign_ids assign_id_col assign_email_col row)) in *.
  set (rs := rows assignment_df) in *.
  assert (count_if (fun row => bool_decide (is_Some (hit row))
                               && has_grade grade_col row) rs
          <= count_if (fun row => bool_decide (is_Some (hit row))) rs)%nat as G1.
  { apply count_if_mono. by intros x [? _]%andb_prop. }
  pose proof (count_if_hit_split hit rs) as G2.
  pose proof (count_if_le (fun row => bool_decide (is_Some (hit row))) rs) as G3.
  change (fun row => hit_by ById (find_lecture_row (lecture_maps lecture_df).1
            (lecture_maps lecture_df).2
            (assign_ids assign_id_col assign_email_col row)))
    with (fun row => hit_by ById (hit row)) in *.
  change (fun row => hit_by ByEmail (find_lecture_row (lecture_maps lecture_df).1
            (lecture_maps lecture_df).2
            (assign_ids assign_id_col assign_email_col row)))
    with (fun row => hit_by ByEmail (hit row)) in *.
  change (fun row => bool_decide (is_Some (find_lecture_row (lecture_maps lecture_df).1
            (lecture_maps lecture_df).2
            (assign_ids assign_id_col assign_email_col row)))
            && has_grade grade_col row)
    with (fun row => bool_decide (is_Some (hit row)) && has_grade grade_col row) in *.
  split_and!; try done; lia.
Qed.

(** X7: an assignment row that has neither a student id nor a username is
    passed over entirely: the row loop leaves its whole state (frame,
    counters, seen and matched sets, results) as it was, and the row is
    never reported among the orphaned rows. *)
Theorem row_without_key_is_skipped (abbrev_name assign_id_col grade_col : string)
    (assign_email_col lec_id_col : option string)
    (student_map username_map : gmap string nat) (st : LoopState)
    (assign_row : gmap string Cell) :
  truthy_opt (student_key_of (assign_ids assign_id_col assign_email_col assign_row))
  = false ->
  merge_assign_row abbrev_name assign_id_col grade_col assign_email_col
    lec_id_col student_map username_map st assign_row = st
  /\ forall assignment_df orphaned,
       assign_row ∉ orphaned_rows_of assign_id_col assign_email_col
                      assignment_df orphaned.
Proof.
  intros Hk. split; [by apply merge_assign_row_no_key|].
  intros assignment_df orphaned Hin. unfold orphaned_rows_of in Hin.
  apply list_elem_of_In, filter_In in Hin as [_ Hin].
  destruct (student_key_of _) as [k|]; [|done].
  simpl in Hk. by rewrite Hk in Hin.
Qed.

Lemma row_without_key_is_skipped_witness :
  merge_assign_row "W1 PA" "Student ID" "Percent score" None
    (Some "Student ID") ∅ ∅
    (mkLoop lecture_ab 0 0 0 [] ∅ ∅ empty_results)
    {[ "Student ID" := CNone; "Percent score" := CInt 95 ]}
  = mkLoop lecture_ab 0 0 0 [] ∅ ∅ empty_results.
Proof.
  apply (row_without_key_is_skipped "W1 PA" "Student ID" "Percent score" None
           (Some "Student ID") ∅ ∅
           (mkLoop lecture_ab 0 0 0 [] ∅ ∅ empty_results)
           {[ "Student ID" := CNone; "Percent score" := CInt 95 ]}).
  vm_compute; reflexivity.
Defined.

(** ** The lecture loop and the orphaned rows *)

Lemma merge_assign_row_orphaned abbrev_name assign_id_col grade_col
    assign_email_col lec_id_col student_map username_map st r :
  res_orphaned_rows
    (ls_results (merge_assign_row abbrev_name assign_id_col grade_col
                   assign_email_col lec_id_col student_map username_map st r))
  = res_orphaned_rows (ls_results st).
Proof.
  unfold merge_assign_row.
  destruct (find_lecture_row _ _ _) as [[i m]|]; [|done].
  by destruct (_ || _).
Qed.

Lemma merge_rows_orphaned abbrev_name assign_id_col grade_col assign_email_col
    assignment_df lecture_df all_students matched_this r :
  res_orphaned_rows
    (ls_results (merge_rows abbrev_name assign_id_col grade_col
                   assign_email_col assignment_df lecture_df all_students
                   matched_this r))
  = res_orphaned_rows r.
Proof.
  rewrite merge_rows_unfold.
  assert (forall rs st,
            res_orphaned_rows
              (ls_results
                 (fold_left
                    (merge_assign_row abbrev_name assign_id_col grade_col
                       assign_email_col (found (find_student_id_column lecture_df))
                       (lecture_maps lecture_df).1 (lecture_maps lecture_df).2)
                    rs st))
            = res_orphaned_rows (ls_results st)) as Hfold.
  { induction rs as [|x rs IH]; intros st; [done|].
    cbn [fold_left]. by rewrite IH, merge_assign_row_orphaned. }
  rewrite Hfold. cbn [ls_results]. unfold ensure_column.
  by destruct (bool_decide _).
Qed.

Lemma sublist_List_filter {A} (f : A -> bool) l : sublist (List.filter f l) l.
Proof.
  induction l as [|x l IH]; [constructor|]. cbn [List.filter].
  destruct (f x); by constructor.
Qed.

Section LecturesFrame.
Variables (abbrev_name assign_id_col grade_col : string).
Variable (assign_email_col : option string).
Variable (assignment_df : DataFrame).

Let lstep :=
  merge_into_lecture abbrev_name assign_id_col grade_col assign_email_col
    assignment_df.

Lemma fold_lectures_orphaned lectures acc :
  res_orphaned_rows (as_results (fold_left lstep lectures acc))
  = res_orphaned_rows (as_results acc).
Proof.
  revert acc. induction lectures as [|[n ldf] lectures IH]; intros acc; [done|].
  cbn [fold_left]. rewrite IH. unfold lstep, merge_into_lecture.
  destruct (lecture_unusable ldf); [done|].
  cbn [as_results finish_lecture res_orphaned_rows].
  apply merge_rows_orphaned.
Qed.

(** when no lecture frame is usable the loop changes nothing *)
Lemma fold_lectures_unusable lectures acc :
  (forall l, l ∈ lectures -> lecture_unusable l.2 = true) ->
  fold_left lstep lectures acc
  = mkAssign (as_lecture_dfs acc ++ lectures) (as_all_assignment_students acc)
      (as_students_matched_this_assignment acc) (as_results acc).
Proof.
  revert acc. induction lectures as [|[n ldf] lectures IH]; intros acc Hall.
  - cbn [fold_left]. rewrite app_nil_r. by destruct acc.
  - cbn [fold_left]. rewrite IH by (intros l Hl; apply Hall; by right).
    unfold lstep, merge_into_lecture.
    assert (lecture_unusable ldf = true) as -> by (apply (Hall (n, ldf)); by left).
    cbn [as_lecture_dfs as_all_assignment_students
         as_students_matched_this_assignment as_results].
    by rewrite <- app_assoc.
Qed.

(** the frames after the loop: the same names in the same order, each frame
    with its rows, its columns and its other cells kept *)
Lemma fold_lectures_frames lectures acc :
  exists outs,
    as_lecture_dfs (fold_left lstep lectures acc) = as_lecture_dfs acc ++ outs
    /\ Forall2
         (fun out l =>
            out.1 = l.1
            /\ length (rows out.2) = length (rows l.2)
            /\ (forall c, c ∈ columns out.2 <-> c ∈ columns l.2 \/ (c = abbrev_name /\ lecture_unusable l.2 = false))
            /\ (NoDup (columns l.2) -> NoDup (columns out.2))
            /\ (forall j c, c <> abbrev_name -> df_at out.2 j c = df_at l.2 j c))
         outs lectures.
Proof.
  revert acc. induction lectures as [|[n ldf] lectures IH]; intros acc.
  - exists []. cbn [fold_left]. by rewrite app_nil_r.
  - cbn [fold_left]. destruct (IH (lstep acc (n, ldf))) as (outs & Ho & HF).
    setoid_rewrite Ho. clear Ho. unfold lstep, merge_into_lecture.
    destruct (lecture_unusable ldf) eqn:Hu; cbn [as_lecture_dfs].
    + exists ((n, ldf) :: outs). rewrite <- app_assoc. split; [done|].
      constructor; [|done]. cbn [fst snd]. rewrite Hu.
      split_and!; try done. intros c. split; [by left|]. by intros [? | [_ ?]].
    + eexists (_ :: outs). rewrite <- app_assoc. split; [done|].
      constructor; [|done]. cbn [fst snd]. rewrite Hu.
      match goal with
      | |- context [merge_rows ?a ?b ?c ?d ?e ?f ?g ?h ?i] =>
          pose proof (merge_rows_shape a b c d e f g h i) as (Hc & Hl & Ha)
      end.
      split_and!; [done|done| | |done].
      * intros c. rewrite Hc. case_bool_decide as Hin.
        -- split; [by left|]. intros [? | [-> _]]; done.
        -- rewrite elem_of_app, list_elem_of_singleton. split.
           ++ intros [? | ->]; [by left|by right].
           ++ intros [? | [-> _]]; [by left|by right].
      * intros Hnd. rewrite Hc. case_bool_decide as Hin; [done|].
        apply NoDup_app. split_and!; [done| |apply NoDup_singleton].
        intros x Hx ->%list_elem_of_singleton. done.
Qed.
End LecturesFrame.

(** X8: the rows that one assignment adds to [orphaned_rows], when at least
    one lecture frame is usable.  They are rows of the assignment, in the
    assignment's order, appended after the rows recorded before; and a row
    is among them exactly when it has a key and no row of the assignment
    with that key resolved in any usable lecture frame.  So a row that
    itself resolved nowhere is still not reported when another row with the
    same key did resolve. *)
Theorem merge_assignment_orphaned_rows (lecture_dfs : list (string * DataFrame))
    (r : Results) (abbrev_name : string) (assignment_df : DataFrame)
    (assign_id_col grade_col : string) :
  found (find_student_id_column assignment_df) = Some assign_id_col ->
  found (find_grade_column assignment_df) = Some grade_col ->
  (exists l, l ∈ lecture_dfs /\ lecture_unusable l.2 = false) ->
  let assign_email_col := found (find_email_column assignment_df) in
  let key row := student_key_of (assign_ids assign_id_col assign_email_col row) in
  exists orphans,
    res_orphaned_rows
      (merge_assignment (lecture_dfs, r) (abbrev_name, assignment_df)).2
    = res_orphaned_rows r ++ orphans
    /\ sublist orphans (rows assignment_df)
    /\ forall row,
         row ∈ orphans <->
         row ∈ rows assignment_df /\ truthy_opt (key row) = true
         /\ forall l row',
              l ∈ lecture_dfs -> lecture_unusable l.2 = false ->
              row' ∈ rows assignment_df -> key row' = key row ->
              lecture_hit assign_id_col assign_email_col l.2 row' = None.
Proof.
  intros Hid Hgrade Husable assign_email_col key.
  unfold merge_assignment. rewrite Hid, Hgrade. fold assign_email_col.
  set (final := after_lectures _ _ _ _ _ _ _).
  exists (orphaned_rows_of assign_id_col assign_email_col assignment_df
            (orphaned_students final)).
  cbn [snd add_orphans res_orphaned_rows]. split_and!.
  - f_equal. unfold final, after_lectures. by rewrite fold_lectures_orphaned.
  - apply sublist_List_filter.
  - intros row. unfold orphaned_rows_of.
    rewrite list_elem_of_In, filter_In, <- list_elem_of_In. fold (key row).
    assert (Hall : forall k, k ∈ as_all_assignment_students final <->
              exists row0, row0 ∈ rows assignment_df /\ key row0 = Some k
                           /\ PyStr.truthy k = true).
    { intros k. unfold final, after_lectures. rewrite fold_lectures_all.
      cbn [as_all_assignment_students]. split.
      - intros [H|[_ H]]; [by apply elem_of_empty in H|done].
      - intros H. right. done. }
    assert (Hm : forall k, k ∈ as_students_matched_this_assignment final <->
              exists l row0, l ∈ lecture_dfs /\ lecture_unusable l.2 = false
                /\ row0 ∈ rows assignment_df /\ key row0 = Some k
                /\ is_Some (lecture_hit assign_id_col assign_email_col l.2 row0)).
    { intros k. unfold final, after_lectures. rewrite fold_lectures_matched.
      cbn [as_students_matched_this_assignment]. split.
      - intros [H|H]; [by apply elem_of_empty in H|done].
      - intros H. by right. }
    destruct (key row) as [k|] eqn:Hk; cbn [truthy_opt].
    + rewrite andb_true_iff, bool_decide_eq_true. unfold orphaned_students.
      rewrite elem_of_difference, Hall, Hm. split.
      * intros (Hrow & Ht & _ & Hno). split; [done|]. split; [done|].
        intros l row' Hl Hu Hr' Hk'.
        destruct (lecture_hit _ _ _ _) as [x|] eqn:Hh; [|done].
        exfalso. apply Hno. exists l, row'. rewrite Hh. eauto.
      * intros (Hrow & Ht & Hno). split; [done|]. split; [done|]. split.
        -- by exists row.
        -- intros (l & row0 & Hl & Hu & Hr0 & Hk0 & Hh).
           rewrite (Hno l row0 Hl Hu Hr0 Hk0) in Hh. by destruct Hh.
    + split; [by intros [_ ?]|]. by intros (_ & ? & _).
Qed.

(** [assignment_mixed] into [lecture_ab]: the first row resolves by
    username, the second carries the same key "999" and resolves nowhere,
    the third resolves nowhere either.  Only the third is reported. *)
Lemma merge_assignment_orphaned_rows_witness :
  let out :=
    merge_assignment ([("lecture.csv", lecture_ab)], empty_results)
      ("W1 PA", assignment_mixed) in
  let key row :=
    student_key_of (assign_ids "Student ID" (Some "School email") row) in
  exists orphans,
    res_orphaned_rows out.2 = res_orphaned_rows empty_results ++ orphans
    /\ sublist orphans (rows assignment_mixed)
    /\ (forall row,
          row ∈ orphans <->
          row ∈ rows assignment_mixed /\ truthy_opt (key row) = true
          /\ forall l row',
               l ∈ [("lecture.csv", lecture_ab)] ->
               lecture_unusable l.2 = false ->
               row' ∈ rows assignment_mixed -> key row' = key row ->
               lecture_hit "Student ID" (Some "School email") l.2 row' = None)
    /\ row_555 ∈ orphans
    /\ (row_999_stray ∉ orphans)
    /\ (row_999 ∉ orphans).
Proof.
  intros out key.
  assert (Hu : lecture_unusable lecture_ab = false) by (vm_compute; reflexivity).
  assert (Hhit : lecture_hit "Student ID" (Some "School email") lecture_ab row_999
                 = Some (0%nat, ByEmail)) by (vm_compute; reflexivity).
  assert (Hk : key row_999 = key row_999_stray) by (vm_compute; reflexivity).
  assert (Hfirst : row_999 ∈ rows assignment_mixed).
  { unfold assignment_mixed. cbn [rows]. left. }
  destruct (merge_assignment_orphaned_rows [("lecture.csv", lecture_ab)]
              empty_results "W1 PA" assignment_mixed "Student ID" "Percent score")
    as (orphans & H1 & H2 & H3).
  - vm_compute; reflexivity.
  - vm_compute; reflexivity.
  - exists ("lecture.csv", lecture_ab). split; [apply list_elem_of_here|exact Hu].
  - exists orphans. split_and!; [exact H1|exact H2|exact H3| | |].
    + apply H3. split_and!.
      * unfold assignment_mixed. cbn [rows]. do 2 right. left.
      * vm_compute; reflexivity.
      * intros l row' Hl _ Hrow' Hkey.
        apply list_elem_of_singleton in Hl. rewrite Hl. cbn [snd].
        unfold assignment_mixed in Hrow'. cbn [rows] in Hrow'.
        apply elem_of_cons in Hrow' as [->|Hrow'];
          [vm_compute in Hkey; discriminate Hkey|].
        apply elem_of_cons in Hrow' as [->|Hrow'];
          [vm_compute in Hkey; discriminate Hkey|].
        apply list_elem_of_singleton in Hrow'. rewrite Hrow'.
        vm_compute; reflexivity.
    + intros Hin. apply H3 in Hin as (_ & _ & Hno).
      pose proof (Hno ("lecture.csv", lecture_ab) row_999
                    (list_elem_of_here _ _) Hu Hfirst Hk) as Hnone.
      assert (Hnone' : lecture_hit "Student ID" (Some "School email") lecture_ab
                         row_999 = None) by exact Hnone.
      rewrite Hhit in Hnone'. discriminate Hnone'.
    + intros Hin. apply H3 in Hin as (_ & _ & Hno).
      pose proof (Hno ("lecture.csv", lecture_ab) row_999
                    (list_elem_of_here _ _) Hu Hfirst eq_refl) as Hnone.
      assert (Hnone' : lecture_hit "Student ID" (Some "School email") lecture_ab
                         row_999 = None) by exact Hnone.
      rewrite Hhit in Hnone'. discriminate Hnone'.
Defined.

Lemma List_filter_none {A} (f : A -> bool) l :
  (forall x, x ∈ l -> f x = false) -> List.filter f l = [].
Proof.
  induction l as [|x l IH]; intros Hf; [done|]. cbn [List.filter].
  rewrite (Hf x) by (by left). apply IH. intros y Hy. apply Hf. by right.
Qed.

Lemma merge_assignment_unusable lecture_dfs r assignment :
  (forall l, l ∈ lecture_dfs -> lecture_unusable l.2 = true) ->
  merge_assignment (lecture_dfs, r) assignment = (lecture_dfs, r).
Proof.
  intros Hall. destruct assignment as [abbrev_name assignment_df].
  unfold merge_assignment.
  destruct (found (find_student_id_column assignment_df)) as [assign_id_col|];
    [|done].
  destruct (found (find_grade_column assignment_df)) as [grade_col|]; [|done].
  unfold after_lectures. rewrite fold_lectures_unusable by done.
  cbn [as_lecture_dfs as_results app]. f_equal.
  unfold orphaned_rows_of. rewrite List_filter_none.
  - unfold add_orphans. rewrite app_nil_r. by destruct r.
  - intros row _. destruct (student_key_of _) as [k|]; [|done].
    apply andb_false_iff. right. apply bool_decide_eq_false.
    unfold orphaned_students.
    cbn [as_all_assignment_students as_students_matched_this_assignment].
    intros [H _]%elem_of_difference. by apply elem_of_empty in H.
Qed.

(** X9: when no lecture frame has a student-id, school-email or username
    column, [merge_grades_from_assignments] only orders the columns of the
    frames: nothing is matched, no statistics are kept, and no row of any
    assignment is reported as orphaned. *)
Theorem merge_without_usable_lecture (lecture_dfs assignments : list (string * DataFrame)) :
  (forall l, l ∈ lecture_dfs -> lecture_unusable l.2 = true) ->
  merge_grades_from_assignments lecture_dfs assignments
  = set_updated ((fun nd => (nd.1, sort_assignment_columns nd.2)) <$> lecture_dfs)
      empty_results.
Proof.
  intros Hall. unfold merge_grades_from_assignments.
  assert (fold_left merge_assignment assignments (lecture_dfs, empty_results)
          = (lecture_dfs, empty_results)) as ->; [|done].
  induction assignments as [|a assignments IH]; [done|].
  cbn [fold_left]. by rewrite merge_assignment_unusable.
Qed.

Lemma merge_without_usable_lecture_witness :
  res_orphaned_rows
    (merge_grades_from_assignments [("lecture.csv", mkDF ["Name"] [ {[ "Name" := CStr "Alice" ]} ])]
       [("W1 PA", assignment_999)]) = [].
Proof.
  rewrite (merge_without_usable_lecture
             [("lecture.csv", mkDF ["Name"] [ {[ "Name" := CStr "Alice" ]} ])]
             [("W1 PA", assignment_999)]).
  - reflexivity.
  - intros l Hl. apply list_elem_of_singleton in Hl. rewrite Hl.
    vm_compute; reflexivity.
Defined.

(** ** The frames [merge_grades_from_assignments] returns *)

Lemma frame_kept_refl names l : frame_kept names l l.
Proof. unfold frame_kept. split_and!; try done. intros c Hc. by left. Qed.

Lemma frame_kept_step names abbrev_name out mid l :
  frame_kept names mid l ->
  frame_kept [abbrev_name] out mid ->
  frame_kept (names ++ [abbrev_name]) out l.
Proof.
  intros (M1 & M2 & M3 & M4 & M5 & M6) (O1 & O2 & O3 & O4 & O5 & O6).
  unfold frame_kept. split_and!.
  - congruence.
  - congruence.
  - auto.
  - intros c Hc. apply O4 in Hc as [Hc|Hc].
    + apply M4 in Hc as [Hc|Hc]; [by left|]. right. apply elem_of_app. by left.
    + right. apply elem_of_app. by right.
  - auto.
  - intros j c Hc. rewrite O6, M6; [done| |].
    + intros Hin. apply Hc, elem_of_app. by left.
    + intros Hin. apply Hc, elem_of_app. by right.
Qed.

Lemma frame_kept_weaken names names' out l :
  (forall c, c ∈ names -> c ∈ names') ->
  frame_kept names out l -> frame_kept names' out l.
Proof.
  intros Hsub (M1 & M2 & M3 & M4 & M5 & M6). unfold frame_kept.
  split_and!; try done.
  - intros c Hc. destruct (M4 c Hc); auto.
  - intros j c Hc. apply M6. auto.
Qed.

Lemma merge_assignment_frames lecture_dfs r assignment :
  Forall2 (frame_kept [assignment.1])
    (merge_assignment (lecture_dfs, r) assignment).1 lecture_dfs.
Proof.
  destruct assignment as [abbrev_name assignment_df]. unfold merge_assignment.
  assert (Hrefl : Forall2 (frame_kept [abbrev_name]) lecture_dfs lecture_dfs).
  { apply Forall2_same_length_lookup_2; [done|].
    intros i x y Hx Hy. assert (x = y) as -> by congruence.
    apply frame_kept_refl. }
  destruct (found (find_student_id_column assignment_df)) as [assign_id_col|];
    [|done].
  destruct (found (find_grade_column assignment_df)) as [grade_col|]; [|done].
  cbn [fst]. unfold after_lectures.
  destruct (fold_lectures_frames abbrev_name assign_id_col grade_col
              (found (find_email_column assignment_df)) assignment_df
              lecture_dfs (mkAssign [] ∅ ∅ r)) as (outs & Ho & HF).
  rewrite Ho. cbn [as_lecture_dfs app].
  eapply Forall2_impl; [exact HF|].
  intros out l (H1 & H2 & H3 & H4 & H5). unfold frame_kept. cbn [fst].
  split_and!; try done.
  - intros c Hc. apply H3. by left.
  - intros c Hc. apply H3 in Hc as [Hc | [-> _]]; [by left|].
    right. by apply list_elem_of_singleton.
  - intros j c Hc. apply H5. intros ->. apply Hc. by apply list_elem_of_singleton.
Qed.

Lemma fold_merge_assignment_frames assignments names dfs r base :
  Forall2 (frame_kept names) dfs base ->
  Forall2 (frame_kept (names ++ assignments.*1))
    (fold_left merge_assignment assignments (dfs, r)).1 base.
Proof.
  revert names dfs r. induction assignments as [|a assignments IH];
    intros names dfs r Hbase.
  - cbn [fold_left fmap list_fmap fst]. by rewrite app_nil_r.
  - cbn [fold_left]. rewrite fmap_cons.
    replace (names ++ a.1 :: assignments.*1)
      with ((names ++ [a.1]) ++ assignments.*1) by (by rewrite <- app_assoc).
    destruct (merge_assignment (dfs, r) a) as [dfs' r'] eqn:Hstep.
    apply IH.
    pose proof (merge_assignment_frames dfs r a) as Hm. rewrite Hstep in Hm.
    cbn [fst] in Hm.
    apply Forall2_same_length_lookup_2.
    + apply Forall2_length in Hm, Hbase. congruence.
    + intros i out l Hout Hl.
      destruct (Forall2_lookup_l _ _ _ _ _ Hm Hout) as (mid & Hmid & Hom).
      destruct (Forall2_lookup_l _ _ _ _ _ Hbase Hmid) as (l' & Hl' & Hml).
      assert (l' = l) as -> by congruence.
      by eapply frame_kept_step.
Qed.

(** X10: what [merge_grades_from_assignments] does to the lecture frames.
    The returned frames are the given ones, name for name and in the same
    order; each has the same number of rows, keeps every column it had,
    gains no column other than the abbreviated names of the assignments,
    keeps distinct labels distinct, and holds the old value in every cell
    of every column that is not named after an assignment. *)
Theorem merge_grades_from_assignments_keeps_frames
    (lecture_dfs assignments : list (string * DataFrame)) :
  Forall2 (frame_kept assignments.*1)
    (res_updated_dataframes (merge_grades_from_assignments lecture_dfs assignments))
    lecture_dfs.
Proof.
  unfold merge_grades_from_assignments.
  pose proof (fold_merge_assignment_frames assignments [] lecture_dfs
                empty_results lecture_dfs) as Hf.
  destruct (fold_left merge_assignment assignments (lecture_dfs, empty_results))
    as [dfs r]. cbn [fst app] in Hf. cbn [set_updated res_updated_dataframes].
  apply Forall2_fmap_l.
  eapply Forall2_impl.
  - apply Hf. apply Forall2_same_length_lookup_2; [done|].
    intros i x y Hx Hy. assert (x = y) as -> by congruence.
    apply frame_kept_refl.
  - intros out l (M1 & M2 & M3 & M4 & M5 & M6). unfold frame_kept.
    cbn [fst snd]. split_and!; [done|done| | | |].
    + intros c Hc. apply elem_of_sorted_columns. exact (M3 c Hc).
    + intros c Hc. apply (proj1 (elem_of_sorted_columns _ _)) in Hc.
      exact (M4 c Hc).
    + intros Hnd. apply sorted_columns_NoDup. exact (M5 Hnd).
    + intros j c Hc. rewrite <- (M6 j c Hc). done.
Qed.

(** ** The late-penalty evaluator: which rules count *)

Lemma late_score_rule_untargeted week assn student score days adj :
  rule_targets week assn student adj = false ->
  late_score_rule week assn student score days adj = Continue.
Proof.
  unfold rule_targets, rule_week, late_score_rule.
  destruct (String.eqb week _); cbn [negb andb]; [|done].
  destruct (adj_student adj) as [s|], (adj_assignment adj) as [a|];
    cbn [andb]; intros H; rewrite ?andb_true_r in H; try rewrite H; done.
Qed.

Lemma late_score_rules_filter week assn student score days adjustments :
  late_score_rules week assn student score days adjustments
  = late_score_rules week assn student score days
      (List.filter (rule_targets week assn student) adjustments).
Proof.
  induction adjustments as [|adj rest IH]; [done|].
  cbn [List.filter late_score_rules].
  destruct (rule_targets week assn student adj) eqn:Ht.
  - cbn [late_score_rules]. by rewrite IH.
  - by rewrite (late_score_rule_untargeted _ _ _ _ _ _ Ht).
Qed.

Lemma scan_penalty_beyond who penalty days score :
  beyond_thresholds days penalty ->
  scan_penalty who penalty days score = Continue.
Proof.
  induction 1 as [|q penalty Hq _ IH]; [done|]. cbn [scan_penalty].
  destruct (entry_days_late q) as [t|]; [by rewrite Hq|done].
Qed.

Lemma scan_penalty_shape who penalty days score out info :
  scan_penalty who penalty days score = Return (out, info) ->
  info_matched info = true /\ is_Some (info_rule info)
  /\ exists keep, PyNum.sub (PInt 1) (info_frac_deduction info) = Some keep
                  /\ PyNum.mul keep score = Some out.
Proof.
  induction penalty as [|q penalty IH]; [done|]. cbn [scan_penalty].
  destruct (entry_days_late q) as [t|]; [|exact IH].
  destruct (PyNum.leb days t); [|exact IH].
  destruct (entry_frac_deduction q) as [frac|]; [|done].
  destruct (PyNum.sub (PInt 1) frac) as [keep|] eqn:Hk; [|done].
  destruct (PyNum.mul keep score) as [applied|] eqn:Hm; [|done].
  intros [= <- <-]. cbn. eauto.
Qed.

Lemma late_score_rule_shape week assn student score days adj out info :
  late_score_rule week assn student score days adj = Return (out, info) ->
  info_matched info = true /\ is_Some (info_rule info)
  /\ ((info_frac_deduction info = float_zero /\ out = score)
      \/ exists keep, PyNum.sub (PInt 1) (info_frac_deduction info) = Some keep
                      /\ PyNum.mul keep score = Some out).
Proof.
  unfold late_score_rule, waived.
  destruct (negb _); [done|].
  assert (forall who pen,
            scan_penalty who pen days score = Return (out, info) ->
            info_matched info = true /\ is_Some (info_rule info)
            /\ ((info_frac_deduction info = float_zero /\ out = score)
                \/ exists keep,
                     PyNum.sub (PInt 1) (info_frac_deduction info) = Some keep
                     /\ PyNum.mul keep score = Some out)) as Hscan.
  { intros who pen (H1 & H2 & H3)%scan_penalty_shape. auto. }
  assert (forall rule,
            Return (score, mkInfo true (Some rule) float_zero)
            = Return (out, info) ->
            info_matched info = true /\ is_Some (info_rule info)
            /\ ((info_frac_deduction info = float_zero /\ out = score)
                \/ exists keep,
                     PyNum.sub (PInt 1) (info_frac_deduction info) = Some keep
                     /\ PyNum.mul keep score = Some out)) as Hwaive.
  { intros rule [= <- <-]. cbn. split_and!; [done|eauto|by left]. }
  destruct (adj_student adj) as [s|], (adj_assignment adj) as [a|].
  - destruct (_ && _); [|done]. destruct (not_penalty _); eauto.
  - destruct (String.eqb _ _); [|done]. destruct (not_penalty _); eauto.
  - destruct (String.eqb _ _); [|done]. destruct (not_penalty _); eauto.
  - destruct (not_penalty _); [eauto|done].
Qed.

(** X11: a rule for another week, for another student or for another
    assignment never changes what [late_score] returns: the result is the
    same as with those rules removed from the list. *)
Theorem late_score_ignores_other_rules (row : LateRow)
    (adjustments : list Adjustment) (week assn : string) :
  PyStr.split_word0 (row_assignment row) = Some week ->
  PyStr.split_word1 (row_assignment row) = Some assn ->
  late_score row adjustments
  = late_score row
      (List.filter
         (rule_targets week assn (row_first_name row +:+ " " +:+ row_last_name row))
         adjustments).
Proof.
  intros Hw Ha. unfold late_score. rewrite Hw, Ha.
  apply late_score_rules_filter.
Qed.

Lemma late_score_ignores_other_rules_witness :
  late_score (mkLateRow "W1 PA" "Alice" "Liddell" (PInt 80) (flt "1.5"))
    [mkAdj 2 None None None; rule_w1_pa]
  = late_score (mkLateRow "W1 PA" "Alice" "Liddell" (PInt 80) (flt "1.5"))
      (List.filter (rule_targets "W1" "PA" ("Alice" +:+ " " +:+ "Liddell"))
         [mkAdj 2 None None None; rule_w1_pa]).
Proof.
  apply (late_score_ignores_other_rules
           (mkLateRow "W1 PA" "Alice" "Liddell" (PInt 80) (flt "1.5"))
           [mkAdj 2 None None None; rule_w1_pa] "W1" "PA").
  - vm_compute; reflexivity.
  - vm_compute; reflexivity.
Defined.

(** X12: the shape of every result of [late_score].  Either no rule matched:
    then the rule is [None], the deduction is 0.0 and the score is the
    record's own; or a rule matched: then the rule text is present, and
    the score is the record's own with deduction 0.0 (a waiver) or it is
    [(1 - frac_deduction) * score] for the deduction reported. *)
Theorem late_score_result_shape (row : LateRow) (adjustments : list Adjustment)
    (score : PyNum) (info : AdjInfo) :
  late_score row adjustments = Some (score, info) ->
  (info_matched info = false /\ info_rule info = None
   /\ info_frac_deduction info = float_zero /\ score = row_after_score row)
  \/ (info_matched info = true /\ is_Some (info_rule info)
      /\ ((info_frac_deduction info = float_zero /\ score = row_after_score row)
          \/ exists keep,
               PyNum.sub (PInt 1) (info_frac_deduction info) = Some keep
               /\ PyNum.mul keep (row_after_score row) = Some score)).
Proof.
  unfold late_score.
  destruct (PyStr.split_word0 _) as [week|]; [|done].
  destruct (PyStr.split_word1 _) as [assn|]; [|done].
  induction adjustments as [|adj rest IH]; cbn [late_score_rules].
  - intros [= <- <-]. by left.
  - destruct (late_score_rule _ _ _ _ _ adj) as [|[out i]|] eqn:Hr; [done| |exact IH].
    intros [= <- <-]. right. by eapply late_score_rule_shape.
Qed.

Lemma late_score_result_shape_witness :
  late_score (mkLateRow "W1 PA" "Alice" "Liddell" (PInt 80) (flt "1.5"))
    [rule_w1_pa]
  = Some (flt "72.0",
          mkInfo true
            (Some "W1 all students, PA: 0.1 deduction (days late <= 2)")
            (flt "0.1"))
  /\ exists keep,
       PyNum.sub (PInt 1) (flt "0.1") = Some keep
       /\ PyNum.mul keep (PInt 80) = Some (flt "72.0").
Proof.
  assert (H : late_score (mkLateRow "W1 PA" "Alice" "Liddell" (PInt 80) (flt "1.5"))
                [rule_w1_pa]
              = Some (flt "72.0",
                      mkInfo true
                        (Some "W1 all students, PA: 0.1 deduction (days late <= 2)")
                        (flt "0.1"))) by (vm_compute; reflexivity).
  split; [exact H|].
  destruct (late_score_result_shape _ _ _ _ H) as [(Hm & _)|(_ & _ & [(Hz & _)|Hk])].
  - discriminate Hm.
  - discriminate Hz.
  - exact Hk.
Defined.

(** X13: lateness beyond every threshold is not penalized.  If every rule
    that targets the record has a non-empty penalty list none of whose
    entries covers the record's days late, [late_score] returns the
    record's own score with no rule matched. *)
Theorem late_score_beyond_all_thresholds (row : LateRow)
    (adjustments : list Adjustment) (week assn : string) :
  PyStr.split_word0 (row_assignment row) = Some week ->
  PyStr.split_word1 (row_assignment row) = Some assn ->
  (forall adj,
     adj ∈ adjustments ->
     rule_targets week assn (row_first_name row +:+ " " +:+ row_last_name row) adj
     = true ->
     exists p ps, adj_penalty adj = Some (p :: ps)
                  /\ beyond_thresholds (row_days_late row) (p :: ps)) ->
  late_score row adjustments = Some (row_after_score row, no_adj).
Proof.
  intros Hw Ha Hall. unfold late_score. rewrite Hw, Ha.
  induction adjustments as [|adj rest IH]; [done|]. cbn [late_score_rules].
  assert (late_score_rule week assn
            (row_first_name row +:+ " " +:+ row_last_name row)
            (row_after_score row) (row_days_late row) adj = Continue) as ->.
  { destruct (rule_targets week assn
                (row_first_name row +:+ " " +:+ row_last_name row) adj) eqn:Ht.
    - destruct (Hall adj) as (p & ps & Hp & Hb); [by left|done|].
      unfold late_score_rule. rewrite Hp. cbn [not_penalty default].
      destruct (negb _); [done|].
      destruct (adj_student adj), (adj_assignment adj);
        repeat (match goal with |- context [if ?b then _ else _] => destruct b end);
        try done; by apply scan_penalty_beyond.
    - by apply late_score_rule_untargeted. }
  apply IH. intros adj' Hin. apply Hall. by right.
Qed.

Lemma late_score_beyond_all_thresholds_witness :
  late_score (mkLateRow "W1 PA" "Alice" "Liddell" (PInt 80) (PInt 5)) [rule_w1_pa]
  = Some (PInt 80, no_adj).
Proof.
  apply (late_score_beyond_all_thresholds
           (mkLateRow "W1 PA" "Alice" "Liddell" (PInt 80) (PInt 5))
           [rule_w1_pa] "W1" "PA").
  - vm_compute; reflexivity.
  - vm_compute; reflexivity.
  - intros adj Hin _. apply list_elem_of_singleton in Hin. rewrite Hin.
    exists (mkEntry (Some (PInt 2)) (Some (flt "0.1"))), [].
    split; [reflexivity|].
    constructor; [vm_compute; reflexivity|constructor].
Defined.

(** ** Usernames and the username column *)

Lemma lower_char_idempotent c :
  PyStr.lower_char (PyStr.lower_char c) = PyStr.lower_char c.
Proof. destruct c as [[] [] [] [] [] [] [] []]; reflexivity. Qed.

Lemma is_space_lower_char c : PyStr.is_space (PyStr.lower_char c) = PyStr.is_space c.
Proof. destruct c as [[] [] [] [] [] [] [] []]; reflexivity. Qed.

Lemma lower_char_at c :
  Ascii.eqb (PyStr.lower_char c) "@" = Ascii.eqb c "@".
Proof. destruct c as [[] [] [] [] [] [] [] []]; reflexivity. Qed.

Lemma lower_idempotent s : PyStr.lower (PyStr.lower s) = PyStr.lower s.
Proof.
  unfold PyStr.lower. induction s as [|c s IH]; [done|].
  cbn [PyStr.map_chars]. by rewrite lower_char_idempotent, IH.
Qed.

Lemma has_char_lower_at s :
  PyStr.has_char "@" (PyStr.lower s) = PyStr.has_char "@" s.
Proof.
  unfold PyStr.lower. induction s as [|c s IH]; [done|].
  cbn [PyStr.map_chars PyStr.has_char]. by rewrite lower_char_at, IH.
Qed.

Lemma lstrip_lower s :
  PyStr.lstrip_by PyStr.is_space (PyStr.lower s)
  = PyStr.lower (PyStr.lstrip_by PyStr.is_space s).
Proof.
  unfold PyStr.lower. induction s as [|c s IH]; [done|].
  cbn [PyStr.map_chars PyStr.lstrip_by]. rewrite is_space_lower_char.
  by destruct (PyStr.is_space c).
Qed.

Lemma rstrip_lower s :
  PyStr.rstrip_by PyStr.is_space (PyStr.lower s)
  = PyStr.lower (PyStr.rstrip_by PyStr.is_space s).
Proof.
  unfold PyStr.lower. induction s as [|c s IH]; [done|].
  cbn [PyStr.map_chars PyStr.rstrip_by]. rewrite IH, is_space_lower_char.
  destruct (PyStr.rstrip_by PyStr.is_space s) as [|d r]; cbn [PyStr.map_chars].
  - by destruct (PyStr.is_space c).
  - done.
Qed.

Lemma strip_lower s : PyStr.strip (PyStr.lower s) = PyStr.lower (PyStr.strip s).
Proof.
  unfold PyStr.strip, PyStr.strip_by. by rewrite lstrip_lower, rstrip_lower.
Qed.

Lemma has_char_lstrip_by p c s :
  PyStr.has_char c s = false -> PyStr.has_char c (PyStr.lstrip_by p s) = false.
Proof.
  induction s as [|a s IH]; [done|]. cbn [PyStr.lstrip_by PyStr.has_char].
  intros [Ha Hs]%orb_false_elim. destruct (p a); [by apply IH|].
  cbn [PyStr.has_char]. by rewrite Ha, Hs.
Qed.

Lemma has_char_rstrip_by p c s :
  PyStr.has_char c s = false -> PyStr.has_char c (PyStr.rstrip_by p s) = false.
Proof.
  induction s as [|a s IH]; [done|]. cbn [PyStr.rstrip_by PyStr.has_char].
  intros [Ha Hs]%orb_false_elim. specialize (IH Hs).
  destruct (PyStr.rstrip_by p s) as [|d r].
  - destruct (p a); [done|]. cbn [PyStr.has_char]. by rewrite Ha.
  - cbn [PyStr.has_char] in *. by rewrite Ha, IH.
Qed.

Lemma has_char_before_char c s :
  PyStr.has_char c (PyStr.before_char c s) = false.
Proof.
  induction s as [|a s IH]; [done|]. cbn [PyStr.before_char].
  destruct (Ascii.eqb a c) eqn:Ha; [done|].
  cbn [PyStr.has_char]. by rewrite Ha, IH.
Qed.

Lemma before_char_app c local rest :
  PyStr.has_char c local = false ->
  PyStr.before_char c (local +:+ String c rest) = local.
Proof.
  induction local as [|a s IH]; simpl.
  - by rewrite Ascii.eqb_refl.
  - intros [Ha Hs]%orb_false_elim. rewrite Ha. by rewrite IH.
Qed.

Lemma has_char_app c s t :
  PyStr.has_char c (s +:+ t) = PyStr.has_char c s || PyStr.has_char c t.
Proof.
  induction s as [|a s IH]; [done|]. simpl.
  by rewrite IH, orb_assoc.
Qed.

(** X14: the username [extract_username_from_email] returns is in normal
    form whatever the cell: it holds no ["@"], no upper-case letter and no
    leading or trailing whitespace.  For an address the result is the text
    before the first ["@"], stripped and lower-cased, so the domain plays no
    part and two addresses that differ in it give the same username. *)
Theorem extract_username_from_email_normal_form :
  (forall email,
     PyStr.has_char "@" (extract_username_from_email email) = false
     /\ PyStr.lower (extract_username_from_email email)
        = extract_username_from_email email
     /\ PyStr.strip (extract_username_from_email email)
        = extract_username_from_email email)
  /\ (forall local domain,
        PyStr.has_char "@" local = false ->
        extract_username_from_email (CStr (local +:+ "@" +:+ domain))
        = PyStr.lower (PyStr.strip local)).
Proof.
  split.
  - intros email. unfold extract_username_from_email.
    destruct (_ || _); [done|].
    set (b := PyStr.before_char "@" (Cell.str email)). split_and!.
    + rewrite has_char_lower_at. unfold PyStr.strip, PyStr.strip_by.
      apply has_char_rstrip_by, has_char_lstrip_by, has_char_before_char.
    + apply lower_idempotent.
    + rewrite strip_lower. f_equal. apply strip_by_idempotent.
  - intros local domain Hl. unfold extract_username_from_email.
    cbn [Cell.isna Cell.truthy Cell.str orb].
    assert (PyStr.truthy (local +:+ "@" +:+ domain) = true) as ->.
    { by destruct local. }
    change ("@" +:+ domain) with (String "@" domain).
    rewrite has_char_app. cbn [PyStr.has_char].
    rewrite Ascii.eqb_refl, orb_true_r. cbn [negb orb].
    by rewrite before_char_app.
Qed.

Lemma extract_username_from_email_normal_form_witness :
  PyStr.has_char "@" "bk849" = false
  /\ extract_username_from_email (CStr ("bk849" +:+ "@" +:+ "drexel.edu"))
     = PyStr.lower (PyStr.strip "bk849").
Proof.
  assert (H : PyStr.has_char "@" "bk849" = false) by reflexivity.
  split; [exact H|].
  exact (proj2 extract_username_from_email_normal_form "bk849" "drexel.edu" H).
Defined.

Lemma username_col_matches_iff col :
  username_col_matches col = true <-> fold_header col = "username".
Proof.
  unfold username_col_matches, username_patterns. cbn [existsb].
  change (clean_pattern "username") with "username".
  change (clean_pattern "user name") with "username".
  change (clean_pattern "user_name") with "username".
  rewrite !orb_true_iff, !String.eqb_eq. split.
  - intros [H | [H | [H | H]]]; [done|done|done|discriminate H].
  - intros H. by left.
Qed.

(** X15: [find_username_column] returns the first header whose folded form
    (lower-cased, with spaces, underscores and hyphens removed) is
    ["username"], and [None] exactly when the frame has no such header; a
    header that merely contains the word, such as "zyBooks username", is
    not taken. *)
Theorem find_username_column_first_exact (df : DataFrame) :
  (forall col,
     find_username_column df = Some col <->
     exists pre post,
       columns df = pre ++ col :: post
       /\ fold_header col = "username"
       /\ forall c, c ∈ pre -> fold_header c <> "username")
  /\ (find_username_column df = None <->
      forall c, c ∈ columns df -> fold_header c <> "username")
  /\ find_username_column (mkDF ["zyBooks username"; "User-Name"] (rows df))
     = Some "User-Name".
Proof.
  split_and!.
  - intros col. unfold find_username_column. rewrite find_first_iff.
    split; intros (pre & post & H & Hx & Hpre); exists pre, post;
      (split_and!; [done|by apply username_col_matches_iff|]).
    + intros c Hc Hf. apply username_col_matches_iff in Hf.
      rewrite (Hpre c Hc) in Hf. discriminate Hf.
    + intros c Hc. destruct (username_col_matches c) eqn:Hm; [|done].
      apply username_col_matches_iff in Hm. by destruct (Hpre c Hc).
  - unfold find_username_column. split.
    + intros Hnone c Hc Hf. apply username_col_matches_iff in Hf.
      apply list_elem_of_In in Hc.
      by rewrite (find_none _ _ Hnone c Hc) in Hf.
    + intros Hall. destruct (List.find _ _) as [c|] eqn:Hf; [|done].
      apply find_some in Hf as [Hin Hm]. apply list_elem_of_In in Hin.
      apply username_col_matches_iff in Hm. by destruct (Hall c Hin).
  - vm_compute; reflexivity.
Qed.

(** ** The column classifier of [merge_grades.py] *)






Lemma match_week_full_abbreviated d rest :
  PyStr.is_digit d = true ->
  match_week_full (String "W" (String d rest)) = None.
Proof.
  intros Hd. destruct d as [[] [] [] [] [] [] [] []];
    try (vm_compute in Hd; discriminate Hd); reflexivity.
Qed.

Lemma type_map_abbrev fa ab :
  List.find (fun fa0 : string * string => String.eqb (PyStr.lower fa0.1) fa) type_map
  = Some ab ->
  ab.2 = "PA" \/ ab.2 = "IL" \/ ab.2 = "CA" \/ ab.2 = "OL".
Proof.
  intros Hf. apply find_some in Hf as [Hin _]. unfold type_map in Hin.
  cbn in Hin. destruct Hin as [<- | [<- | [<- | [<- | []]]]]; cbn; auto.
Qed.

Lemma match_week_full_digits s week_num g :
  match_week_full s = Some (week_num, g) ->
  exists d ds, week_num = String d ds /\ PyStr.is_digit d = true
               /\ all_chars PyStr.is_digit ds = true.
Proof.
  unfold match_week_full. intros Hm. break_match Hm.
  injection Hm as <- <-. subst.
  match goal with
  | H : span PyStr.is_digit _ = (String ?d ?ds, _) |- _ =>
      apply span_spec in H as (_ & Hall & _); exists d, ds
  end.
  cbn [all_chars] in Hall. apply andb_prop in Hall as [H1 H2]. done.
Qed.

(** what a translated name looks like *)
Lemma translate_assignment_name_cases col_name :
  translate_assignment_name col_name = col_name
  \/ exists d ds abbrev,
       PyStr.is_digit d = true /\ all_chars PyStr.is_digit ds = true
       /\ (abbrev = "PA" \/ abbrev = "IL" \/ abbrev = "CA" \/ abbrev = "OL")
       /\ translate_assignment_name col_name
          = "W" +:+ String d ds +:+ " " +:+ abbrev.
Proof.
  unfold translate_assignment_name.
  destruct (match_week_full _) as [[week_num g2]|] eqn:Hm; [|by left].
  destruct (List.find _ type_map) as [[full abbrev]|] eqn:Hf; [|by left].
  right. apply type_map_abbrev in Hf. cbn [snd] in Hf.
  apply match_week_full_digits in Hm as (d & ds & -> & H1 & H2).
  exists d, ds, abbrev. done.
Qed.



(** X16: [translate_assignment_name] either leaves the column name as it is
    or returns an abbreviated name ["W<digits> <PA|IL|CA|OL>"]; translating
    twice is translating once; and every abbreviated name it returns is one
    that [is_gradeable_assignment] accepts and that the column ordering
    recognizes as an assignment column, with the week number and the type
    that were translated. *)
Theorem translate_assignment_name_abbreviates (col_name : string) :
  translate_assignment_name (translate_assignment_name col_name)
  = translate_assignment_name col_name
  /\ (translate_assignment_name col_name = col_name
      \/ exists week abbrev,
           translate_assignment_name col_name = "W" +:+ week +:+ " " +:+ abbrev
           /\ (abbrev = "PA" \/ abbrev = "IL" \/ abbrev = "CA" \/ abbrev = "OL")
           /\ all_chars PyStr.is_digit week = true
           /\ assignment_key (translate_assignment_name col_name)
              = Some (translate_assignment_name col_name, int_of_digits week,
                      type_rank abbrev)
           /\ is_gradeable_assignment (translate_assignment_name col_name) = true).
Proof.
  destruct (translate_assignment_name_cases col_name)
    as [Hsame | (d & ds & abbrev & Hd & Hds & Hab & Hout)].
  - split; [by rewrite Hsame|by left].
  - destruct (abbreviated_name_key d ds abbrev Hd Hds Hab) as [Hstrip Hma].
    split.
    + rewrite Hout. unfold translate_assignment_name at 1. rewrite Hstrip.
      change ("W" +:+ String d ds +:+ " " +:+ abbrev)
        with (String "W" (String d (ds +:+ " " +:+ abbrev))) at 1.
      by rewrite match_week_full_abbreviated.
    + right. exists (String d ds), abbrev. rewrite Hout.
      split_and!; [done|done|by cbn [all_chars]; rewrite Hd, Hds| |].
      * unfold assignment_key. rewrite Hstrip, Hma. unfold type_rank.
        destruct Hab as [-> | [-> | [-> | ->]]]; reflexivity.
      * unfold is_gradeable_assignment. rewrite Hstrip, Hma.
        rewrite bool_decide_eq_true_2 by eauto. by destruct (match_week_prefix _).
Qed.

Lemma all_chars_lstrip_by q p s :
  all_chars q s = true -> all_chars q (PyStr.lstrip_by p s) = true.
Proof.
  induction s as [|c s IH]; [done|]. cbn [PyStr.lstrip_by].
  destruct (p c); [|done]. cbn [all_chars]. intros [_ H]%andb_prop. auto.
Qed.

Lemma all_chars_rstrip_by q p s :
  all_chars q s = true -> all_chars q (PyStr.rstrip_by p s) = true.
Proof.
  induction s as [|c s IH]; [done|]. cbn [PyStr.rstrip_by all_chars].
  intros [Hc Hs]%andb_prop. specialize (IH Hs).
  destruct (PyStr.rstrip_by p s) as [|d r].
  - destruct (p c); [done|]. cbn [all_chars]. by rewrite Hc.
  - cbn [all_chars] in *. by rewrite Hc, IH.
Qed.

Lemma map_chars_fixed g s :
  all_chars (fun c => Ascii.eqb (g c) c) s = true -> PyStr.map_chars g s = s.
Proof.
  induction s as [|c s IH]; [done|]. cbn [all_chars PyStr.map_chars].
  intros [Hc Hs]%andb_prop. apply Ascii.eqb_eq in Hc. by rewrite Hc, IH.
Qed.


Lemma all_chars_map_chars (q : ascii -> bool) g s :
  (forall c, q (g c) = true) -> all_chars q (PyStr.map_chars g s) = true.
Proof.
  intros Hq. induction s as [|c s IH]; [done|]. cbn [PyStr.map_chars all_chars].
  by rewrite Hq, IH.
Qed.

Lemma map_chars_compose f g s :
  PyStr.map_chars f (PyStr.map_chars g s) = PyStr.map_chars (fun c => f (g c)) s.
Proof.
  induction s as [|c s IH]; [done|]. cbn [PyStr.map_chars]. by rewrite IH.
Qed.

Lemma normalize_column_name_map name :
  normalize_column_name name
  = PyStr.strip
      (PyStr.map_chars
         (fun c =>
            let l := PyStr.lower_char c in
            let u := if Ascii.eqb l "_" then " "%char else l in
            if Ascii.eqb u "-" then " "%char else u) name).
Proof.
  unfold normalize_column_name, PyStr.replace_char, PyStr.lower.
  by rewrite !map_chars_compose.
Qed.

Lemma normalize_char_idempotent c :
  let g := fun c =>
             let l := PyStr.lower_char c in
             let u := if Ascii.eqb l "_" then " "%char else l in
             if Ascii.eqb u "-" then " "%char else u in
  g (g c) = g c.
Proof. destruct c as [[] [] [] [] [] [] [] []]; reflexivity. Qed.

Lemma prefix_refl s : String.prefix s s = true.
Proof.
  induction s as [|c s IH]; [done|]. cbn [String.prefix].
  by destruct (ascii_dec c c).
Qed.

Lemma contains_refl s : PyStr.contains s s = true.
Proof. destruct s; cbn [PyStr.contains]; by rewrite prefix_refl. Qed.

Lemma contains_empty s : PyStr.contains EmptyString s = true.
Proof. by destruct s. Qed.

(** X17: the two name cleaners are idempotent and return a normal form.
    [clean_assignment_name] returns a name without ["["] and without
    trailing whitespace; [normalize_column_name] returns a name without
    upper-case letters, underscores or hyphens and without leading or
    trailing whitespace; applying either a second time changes nothing. *)
Theorem name_cleaners_idempotent (name : string) :
  clean_assignment_name (clean_assignment_name name) = clean_assignment_name name
  /\ PyStr.has_char "[" (clean_assignment_name name) = false
  /\ PyStr.rstrip (clean_assignment_name name) = clean_assignment_name name
  /\ normalize_column_name (normalize_column_name name)
     = normalize_column_name name
  /\ PyStr.strip (normalize_column_name name) = normalize_column_name name
  /\ PyStr.lower (normalize_column_name name) = normalize_column_name name
  /\ PyStr.has_char "_" (normalize_column_name name) = false
  /\ PyStr.has_char "-" (normalize_column_name name) = false.
Proof.
  assert (Hno : PyStr.has_char "[" (clean_assignment_name name) = false).
  { unfold clean_assignment_name, PyStr.rstrip.
    apply has_char_rstrip_by.
    destruct (PyStr.has_char "[" name) eqn:Hb; [|done].
    apply has_char_before_char. }
  assert (Hr : PyStr.rstrip (clean_assignment_name name) = clean_assignment_name name).
  { unfold clean_assignment_name, PyStr.rstrip. apply rstrip_by_fixed. }
  set (g := fun c =>
              let l := PyStr.lower_char c in
              let u := if Ascii.eqb l "_" then " "%char else l in
              if Ascii.eqb u "-" then " "%char else u).
  assert (Himg : forall q,
            (forall c, q (g c) = true) ->
            all_chars q (normalize_column_name name) = true).
  { intros q Hq. rewrite normalize_column_name_map. fold g.
    unfold PyStr.strip, PyStr.strip_by.
    apply all_chars_rstrip_by, all_chars_lstrip_by.
    by apply all_chars_map_chars. }
  split_and!.
  - unfold clean_assignment_name at 1. rewrite Hno. exact Hr.
  - exact Hno.
  - exact Hr.
  - rewrite (normalize_column_name_map (normalize_column_name name)). fold g.
    rewrite map_chars_fixed.
    + rewrite normalize_column_name_map. apply strip_by_idempotent.
    + apply Himg. intros c. apply Ascii.eqb_eq.
      apply (normalize_char_idempotent c).
  - rewrite normalize_column_name_map. apply strip_by_idempotent.
  - unfold PyStr.lower. apply map_chars_fixed, Himg.
    intros c. subst g. destruct c as [[] [] [] [] [] [] [] []]; reflexivity.
  - apply has_char_all_chars, Himg.
    intros c. subst g. destruct c as [[] [] [] [] [] [] [] []]; reflexivity.
  - apply has_char_all_chars, Himg.
    intros c. subst g. destruct c as [[] [] [] [] [] [] [] []]; reflexivity.
Qed.

(** X18: [find_matching_column] returns a column of the list whose cleaned
    and normalized name contains, or is contained in, that of the column
    looked for; a column whose cleaned and normalized name is equal is
    preferred to every column that only matches by containment, wherever it
    stands; and [None] is returned only when no column matches either
    way, so that the column looked for is itself not in the list.  A column
    whose cleaned and normalized name is empty matches whatever the list
    holds first. *)
Theorem find_matching_column_spec (lab_col : string) (lecture_cols : list string) :
  let key c := normalize_column_name (clean_assignment_name c) in
  (forall c,
     find_matching_column lab_col lecture_cols = Some c ->
     c ∈ lecture_cols
     /\ (PyStr.contains (key lab_col) (key c) = true
         \/ PyStr.contains (key c) (key lab_col) = true))
  /\ (forall pre c post,
        lecture_cols = pre ++ c :: post ->
        key c = key lab_col ->
        (forall c', c' ∈ pre -> key c' <> key lab_col) ->
        find_matching_column lab_col lecture_cols = Some c)
  /\ (find_matching_column lab_col lecture_cols = None ->
      (lab_col ∉ lecture_cols)
      /\ forall c, c ∈ lecture_cols ->
           PyStr.contains (key lab_col) (key c) = false
           /\ PyStr.contains (key c) (key lab_col) = false)
  /\ (key lab_col = EmptyString -> lecture_cols <> [] ->
      is_Some (find_matching_column lab_col lecture_cols)).
Proof.
  intros key.
  set (exact := fun lec_col => String.eqb (key lec_col) (key lab_col)).
  set (fuzzy := fun lec_col =>
         PyStr.contains (key lab_col) (key lec_col)
         || PyStr.contains (key lec_col) (key lab_col)).
  assert (Hdef : find_matching_column lab_col lecture_cols
                 = match List.find exact lecture_cols with
                   | Some c => Some c
                   | None => List.find fuzzy lecture_cols
                   end) by reflexivity.
  rewrite Hdef. clear Hdef.
  assert (Hnone : List.find exact lecture_cols = None ->
                  List.find fuzzy lecture_cols = None ->
                  forall c, c ∈ lecture_cols -> fuzzy c = false).
  { intros _ Hf c Hc. apply list_elem_of_In in Hc. exact (find_none _ _ Hf c Hc). }
  split_and!.
  - intros c. destruct (List.find exact lecture_cols) as [e|] eqn:He.
    + intros [= <-]. apply find_some in He as [Hin He].
      split; [by apply list_elem_of_In|]. left.
      unfold exact in He. apply String.eqb_eq in He. rewrite He.
      apply contains_refl.
    + intros Hf. apply find_some in Hf as [Hin Hf].
      split; [by apply list_elem_of_In|]. by apply orb_prop in Hf.
  - intros pre c post Hcols Hkey Hpre.
    assert (List.find exact lecture_cols = Some c) as ->; [|done].
    apply find_first_iff. exists pre, post. split_and!; [done| |].
    + unfold exact. by apply String.eqb_eq.
    + intros c' Hc'. unfold exact. apply String.eqb_neq. auto.
  - destruct (List.find exact lecture_cols) as [e|] eqn:He; [done|].
    intros Hf. pose proof (Hnone eq_refl Hf) as Hall. split.
    + intros Hin. specialize (Hall _ Hin). unfold fuzzy in Hall.
      by rewrite contains_refl in Hall.
    + intros c Hc. specialize (Hall _ Hc). by apply orb_false_elim in Hall.
  - intros Hempty Hne.
    destruct (List.find exact lecture_cols) as [e|] eqn:He; [by eexists|].
    destruct lecture_cols as [|c cols]; [done|].
    cbn [List.find]. assert (fuzzy c = true) as ->; [|by eexists].
    unfold fuzzy. by rewrite Hempty, contains_empty.
Qed.

Lemma find_matching_column_spec_witness :
  ["Name"; "w1-pa extra"; "W1 PA [Total Pts: 10]"]
  = ["Name"; "w1-pa extra"] ++ "W1 PA [Total Pts: 10]" :: []
  /\ find_matching_column "W1_PA" ["Name"; "w1-pa extra"; "W1 PA [Total Pts: 10]"]
     = Some "W1 PA [Total Pts: 10]".
Proof.
  assert (H : ["Name"; "w1-pa extra"; "W1 PA [Total Pts: 10]"]
              = ["Name"; "w1-pa extra"] ++ "W1 PA [Total Pts: 10]" :: [])
    by reflexivity.
  split; [exact H|].
  apply (proj1 (proj2 (find_matching_column_spec "W1_PA"
                         ["Name"; "w1-pa extra"; "W1 PA [Total Pts: 10]"]))
           ["Name"; "w1-pa extra"] "W1 PA [Total Pts: 10]" [] H).
  - vm_compute; reflexivity.
  - intros c' Hc' Hk.
    apply elem_of_cons in Hc' as [-> | Hc'].
    + vm_compute in Hk. discriminate Hk.
    + apply list_elem_of_singleton in Hc'. rewrite Hc' in Hk.
      vm_compute in Hk. discriminate Hk.
Defined.

(** ** [merge_grades_from_master]: orphaned rows *)

Section MasterIndices.
Variable (master_df : DataFrame).
Variables (master_id_col master_email_col lecture_id_col : option string).
Variables (student_id_map student_username_map : gmap string nat).

Let step :=
  merge_master_row master_df master_id_col master_email_col lecture_id_col
    student_id_map student_username_map.
Let hit (r : gmap string Cell) :=
  find_lecture_row student_id_map student_username_map
    (master_ids master_id_col master_email_col r).

Lemma merge_master_row_indices st ir :
  ms_matched_master_indices (step st ir)
  = match hit ir.2 with
    | Some _ => {[ir.1]} ∪ ms_matched_master_indices st
    | None => ms_matched_master_indices st
    end.
Proof.
  destruct ir as [idx r]. unfold step, merge_master_row, hit.
  cbn [fst snd]. destruct (find_lecture_row _ _ _) as [[i m]|]; [|done].
  match goal with
  | |- context [fold_left ?f ?cols ?s] =>
      destruct (fold_transfer_grade_frame
                  (find_student_id_column master_df)
                  (find_email_column master_df) r i cols s)
        as (_ & _ & _ & -> & _)
  end. done.
Qed.

Lemma fold_master_rows_indices irs st i :
  i ∈ ms_matched_master_indices (fold_left step irs st) <->
  i ∈ ms_matched_master_indices st
  \/ exists ir, ir ∈ irs /\ ir.1 = i /\ is_Some (hit ir.2).
Proof.
  revert st. induction irs as [|ir irs IH]; intros st; cbn [fold_left].
  - split; [auto|]. intros [?|(r & Hr & _)]; [done|]. by apply elem_of_nil in Hr.
  - rewrite IH, merge_master_row_indices. split.
    + intros [H|(ir' & Hr' & Hk)].
      * destruct (hit ir.2) as [x|] eqn:Hh; [|auto].
        apply elem_of_union in H as [->%elem_of_singleton|H]; [|auto].
        right. exists ir. split; [by left|]. rewrite Hh. eauto.
      * right. exists ir'. split; [by right|done].
    + intros [H|(ir' & Hr' & Hk & Hh)].
      * left. destruct (hit ir.2); [|done]. apply elem_of_union. by right.
      * apply elem_of_cons in Hr' as [->|Hr'].
        -- left. destruct Hh as [x Hx]. rewrite Hx, Hk.
           apply elem_of_union. left. by apply elem_of_singleton.
        -- right. eauto.
Qed.
End MasterIndices.

Lemma merge_master_rows_indices master_df lecture_df st i :
  i ∈ ms_matched_master_indices (merge_master_rows master_df lecture_df st) <->
  i ∈ ms_matched_master_indices st
  \/ exists row, rows master_df !! i = Some row
       /\ is_Some (find_lecture_row (master_lecture_maps lecture_df).1
                     (master_lecture_maps lecture_df).2
                     (master_row_ids master_df row)).
Proof.
  unfold merge_master_rows. rewrite fold_master_rows_indices.
  cbn [ms_matched_master_indices].
  apply or_iff_compat_l. split.
  - intros ([i' row] & Hir & Hi & Hh). cbn [fst snd] in *. subst i'.
    exists row. split; [|done]. by apply (elem_of_iterrows master_df (i, row)).
  - intros (row & Hrow & Hh). exists (i, row).
    split; [by apply elem_of_iterrows|done].
Qed.

Lemma fold_master_lectures_indices master_df lectures acc i :
  i ∈ ms_matched_master_indices
        (ma_state (fold_left (merge_master_lecture master_df) lectures acc)) <->
  i ∈ ms_matched_master_indices (ma_state acc)
  \/ exists l row,
       l ∈ lectures /\ master_lecture_unusable l.2 = false
       /\ rows master_df !! i = Some row
       /\ is_Some (find_lecture_row (master_lecture_maps l.2).1
                     (master_lecture_maps l.2).2
                     (master_row_ids master_df row)).
Proof.
  revert acc. induction lectures as [|[n ldf] lectures IH]; intros acc; cbn [fold_left].
  - split; [auto|]. intros [?|(l & row & Hl & _)]; [done|]. by apply elem_of_nil in Hl.
  - rewrite IH. unfold merge_master_lecture.
    destruct (master_lecture_unusable ldf) eqn:Hu; cbn [ma_state].
    + split; (intros [H|(l & row & Hl & Hlu & Hrow)]; [by left|right]).
      * exists l, row. split; [by right|done].
      * apply elem_of_cons in Hl as [->|Hl]; [simpl in Hlu; congruence|].
        exists l, row. done.
    + rewrite merge_master_rows_indices. split.
      * intros [[H|(row & Hrow & Hh)]|(l & row & Hl & Hrest)]; [by left| |].
        -- right. exists (n, ldf), row. split; [by left|done].
        -- right. exists l, row. split; [by right|done].
      * intros [H|(l & row & Hl & Hlu & Hrow & Hh)]; [by do 2 left|].
        apply elem_of_cons in Hl as [->|Hl].
        -- left. right. exists row. done.
        -- right. exists l, row. done.
Qed.

Lemma matched_somewhere_iff lecture_data master_df row :
  matched_somewhere lecture_data master_df row = true <->
  exists l, l ∈ lecture_data /\ master_lecture_unusable l.2 = false
    /\ is_Some (find_lecture_row (master_lecture_maps l.2).1
                  (master_lecture_maps l.2).2 (master_row_ids master_df row)).
Proof.
  unfold matched_somewhere. rewrite existsb_exists. split.
  - intros (l & Hl & [Hu Hh]%andb_prop). exists l.
    split; [by apply list_elem_of_In|]. split.
    + by apply negb_true_iff.
    + by apply bool_decide_eq_true in Hh.
  - intros (l & Hl & Hu & Hh). exists l. split; [by apply list_elem_of_In|].
    apply andb_true_intro. split; [by rewrite Hu|by apply bool_decide_eq_true].
Qed.

Lemma filter_iterrows_snd (P : nat -> bool) (Q : gmap string Cell -> bool) rs k :
  (forall i r, rs !! i = Some r -> P (k + i)%nat = Q r) ->
  (snd <$> List.filter (fun ir : nat * gmap string Cell => P ir.1)
             (imap (fun i r => ((k + i)%nat, r)) rs))
  = List.filter Q rs.
Proof.
  revert k. induction rs as [|r rs IH]; intros k HPQ; [done|].
  cbn [imap List.filter fst]. rewrite <- (HPQ 0%nat r eq_refl).
  assert ((snd <$> List.filter (fun ir : nat * gmap string Cell => P ir.1)
             (imap ((fun i r0 => ((k + i)%nat, r0)) ∘ S) rs))
          = List.filter Q rs) as Htail.
  { rewrite <- (IH (S k)).
    - f_equal. f_equal. apply imap_ext. intros i x _. cbn. f_equal. lia.
    - intros i x Hx. rewrite <- (HPQ (S i) x Hx). f_equal. lia. }
  destruct (P (k + 0)%nat); cbn [fmap list_fmap snd]; by rewrite <- Htail.
Qed.

Lemma master_orphaned_rows_eq (lecture_data : list (string * DataFrame))
    (master_df : DataFrame) (res : MasterResults) :
  merge_grades_from_master lecture_data master_df = Some res ->
  mr_orphaned_rows res
  = List.filter (fun row => negb (matched_somewhere lecture_data master_df row))
      (rows master_df).
Proof.
  unfold merge_grades_from_master. destruct (_ && _); [done|].
  intros [= <-]. cbn [mr_orphaned_rows]. unfold iterrows.
  set (idxs := ms_matched_master_indices _).
  pose (P := fun i : nat => negb (bool_decide (i ∈ idxs))).
  apply (filter_iterrows_snd P
           (fun row => negb (matched_somewhere lecture_data master_df row))
           (rows master_df) 0%nat).
  intros i r Hr. cbn [Nat.add]. unfold P. f_equal.
  apply eq_true_iff_eq. rewrite bool_decide_eq_true, matched_somewhere_iff.
  unfold idxs. rewrite fold_master_lectures_indices. cbn [ma_state initial_master_state
    ms_matched_master_indices]. split.
  - intros [H|(l & row & Hl & Hu & Hrow & Hh)]; [by apply elem_of_empty in H|].
    exists l. assert (row = r) as -> by congruence. done.
  - intros (l & Hl & Hu & Hh). right. by exists l, r.
Qed.

(** X19: the rows [merge_grades_from_master] reports as orphaned are the
    rows of the master frame that resolved in no usable lecture frame, in
    the master's order.  The test is per row, not per student key: a row
    that resolved nowhere is reported even when another row with the same
    identifier did resolve. *)
Theorem master_orphaned_rows (lecture_data : list (string * DataFrame))
    (master_df : DataFrame) (res : MasterResults) :
  merge_grades_from_master lecture_data master_df = Some res ->
  mr_orphaned_rows res
  = List.filter (fun row => negb (matched_somewhere lecture_data master_df row))
      (rows master_df).
Proof. apply master_orphaned_rows_eq. Qed.

(** [master_mixed] into [lecture_ab]: the first row resolves by username;
    the second, with the same identifier "999", and the third resolve
    nowhere, and both are reported. *)
Lemma master_orphaned_rows_witness :
  let row1 := master_row "Liddell" "Alice" "999" "alice@x.edu" 95 in
  let row2 := master_row "Liddell" "Alice" "999" "nobody@x.edu" 80 in
  let row3 := master_row "Zed" "Zoe" "555" "zed@x.edu" 70 in
  exists res,
    merge_grades_from_master [("lecture.csv", lecture_ab)] master_mixed = Some res
    /\ mr_orphaned_rows res
       = List.filter
           (fun row => negb (matched_somewhere [("lecture.csv", lecture_ab)]
                               master_mixed row))
           (rows master_mixed)
    /\ mr_orphaned_rows res = [row2; row3]
    /\ identifier_of (master_row_ids master_mixed row1)
       = identifier_of (master_row_ids master_mixed row2).
Proof.
  intros row1 row2 row3.
  assert (H1 : matched_somewhere [("lecture.csv", lecture_ab)] master_mixed row1
               = true) by (vm_compute; reflexivity).
  assert (H2 : matched_somewhere [("lecture.csv", lecture_ab)] master_mixed row2
               = false) by (vm_compute; reflexivity).
  assert (H3 : matched_somewhere [("lecture.csv", lecture_ab)] master_mixed row3
               = false) by (vm_compute; reflexivity).
  destruct (merge_grades_from_master [("lecture.csv", lecture_ab)] master_mixed)
    as [res|] eqn:H.
  - exists res. split; [reflexivity|].
    pose proof (master_orphaned_rows _ _ _ H) as Ho.
    split; [exact Ho|]. split.
    + rewrite Ho. change (rows master_mixed) with [row1; row2; row3].
      cbn [List.filter]. rewrite H1, H2, H3. reflexivity.
    + vm_compute; reflexivity.
  - exfalso. unfold merge_grades_from_master in H.
    assert (Hc : negb (truthy_opt (find_student_id_column master_mixed))
                 && negb (truthy_opt (find_email_column master_mixed)) = false)
      by (vm_compute; reflexivity).
    rewrite Hc in H. discriminate H.
Defined.

Lemma fold_master_lectures_unusable master_df lectures acc :
  (forall l, l ∈ lectures -> master_lecture_unusable l.2 = true) ->
  fold_left (merge_master_lecture master_df) lectures acc = acc.
Proof.
  revert acc. induction lectures as [|[n ldf] lectures IH]; intros acc Hall; [done|].
  cbn [fold_left]. unfold merge_master_lecture at 2.
  assert (master_lecture_unusable ldf = true) as ->
    by (apply (Hall (n, ldf)); by left).
  apply IH. intros l Hl. apply Hall. by right.
Qed.

Lemma List_filter_all {A} (f : A -> bool) l :
  (forall x, x ∈ l -> f x = true) -> List.filter f l = l.
Proof.
  induction l as [|x l IH]; intros Hf; [done|]. cbn [List.filter].
  rewrite (Hf x) by (by left). f_equal. apply IH. intros y Hy. apply Hf. by right.
Qed.

(** X20: when no lecture frame has a student-id or a username column,
    [merge_grades_from_master] returns no frame and no statistics, matches
    nobody, and reports every row of the master frame as orphaned; yet its
    list [students_not_found] is empty, because the master's students are
    only collected while a usable lecture frame is processed. *)
Theorem master_without_usable_lecture (lecture_data : list (string * DataFrame))
    (master_df : DataFrame) (res : MasterResults) :
  merge_grades_from_master lecture_data master_df = Some res ->
  (forall l, l ∈ lecture_data -> master_lecture_unusable l.2 = true) ->
  mr_updated_dataframes res = []
  /\ mr_stats res = []
  /\ mr_matched_students res = ∅
  /\ mr_students_not_found res = []
  /\ mr_orphaned_rows res = rows master_df
  /\ mr_failed_id_match_rows res = []
  /\ mr_new_columns res = []
  /\ mr_by_id res = 0%nat /\ mr_by_email res = 0%nat.
Proof.
  intros Hres Hall.
  pose proof (master_orphaned_rows_eq lecture_data master_df res Hres) as Ho.
  revert Hres. unfold merge_grades_from_master. destruct (_ && _); [done|].
  rewrite fold_master_lectures_unusable by done.
  intros [= <-]. cbn in Ho |- *. split_and!; try done.
  rewrite Ho. apply List_filter_all. intros row _.
  apply negb_true_iff. apply not_true_iff_false.
  intros (l & Hl & Hu & _)%matched_somewhere_iff.
  rewrite (Hall l Hl) in Hu. discriminate Hu.
Qed.

Lemma master_without_usable_lecture_witness :
  exists res,
    merge_grades_from_master
      [("lecture.csv", mkDF ["Name"] [ {[ "Name" := CStr "Alice" ]} ])] master_999
    = Some res
    /\ mr_students_not_found res = []
    /\ mr_orphaned_rows res = rows master_999.
Proof.
  destruct (merge_grades_from_master
              [("lecture.csv", mkDF ["Name"] [ {[ "Name" := CStr "Alice" ]} ])]
              master_999) as [res|] eqn:H.
  - exists res. split; [reflexivity|].
    destruct (master_without_usable_lecture _ _ _ H) as (_ & _ & _ & Hn & Ho & _).
    + intros l Hl. apply list_elem_of_singleton in Hl. rewrite Hl.
      vm_compute; reflexivity.
    + split; [exact Hn|exact Ho].
  - exfalso. unfold merge_grades_from_master in H.
    assert (Hc : negb (truthy_opt (find_student_id_column master_999))
                 && negb (truthy_opt (find_email_column master_999)) = false)
      by (vm_compute; reflexivity).
    rewrite Hc in H. discriminate H.
Defined.

(** ** [merge_grades_from_master]: the frames returned *)

Lemma find_matching_column_None_notin lab_col lecture_cols :
  find_matching_column lab_col lecture_cols = None -> lab_col ∉ lecture_cols.
Proof.
  unfold find_matching_column.
  destruct (List.find _ lecture_cols) as [e|] eqn:He; [done|].
  intros Hf Hin. apply list_elem_of_In in Hin.
  pose proof (find_none _ _ Hf _ Hin) as Hn. cbn beta in Hn.
  by rewrite contains_refl in Hn.
Qed.

Lemma find_matching_column_Some_in lab_col lecture_cols c :
  find_matching_column lab_col lecture_cols = Some c -> c ∈ lecture_cols.
Proof.
  unfold find_matching_column.
  destruct (List.find _ lecture_cols) as [e|] eqn:He.
  - intros [= <-]. apply find_some in He as [Hin _]. by apply list_elem_of_In.
  - intros Hf. apply find_some in Hf as [Hin _]. by apply list_elem_of_In.
Qed.

Lemma find_matching_column_Some_contains lab_col lecture_cols c :
  find_matching_column lab_col lecture_cols = Some c ->
  PyStr.contains (normalize_column_name (clean_assignment_name lab_col))
    (normalize_column_name (clean_assignment_name c)) = true
  \/ PyStr.contains (normalize_column_name (clean_assignment_name c))
       (normalize_column_name (clean_assignment_name lab_col)) = true.
Proof.
  unfold find_matching_column.
  destruct (List.find _ lecture_cols) as [e|] eqn:He.
  - intros [= <-]. apply find_some in He as [_ He].
    apply String.eqb_eq in He. rewrite He. left. apply contains_refl.
  - intros Hf. apply find_some in Hf as [_ Hf]. by apply orb_prop in Hf.
Qed.

Lemma master_frame_kept_refl master_df touched text l :
  master_frame_kept master_df touched text l l.
Proof. unfold master_frame_kept. split_and!; try done. intros c Hc. by left. Qed.

Lemma master_frame_kept_trans master_df touched text out mid l :
  master_frame_kept master_df touched text mid l ->
  master_frame_kept master_df touched text out mid ->
  master_frame_kept master_df touched text out l.
Proof.
  intros (M1 & M2 & M3 & M4 & M5 & M6) (O1 & O2 & O3 & O4 & O5 & O6).
  unfold master_frame_kept. split_and!.
  - congruence.
  - auto.
  - intros c Hc. apply O3 in Hc as [Hc|Hc]; [auto|by right].
  - auto.
  - intros j c Hc Hfree. rewrite O5, M5; auto.
  - intros j c Hj Hc Ht. rewrite O6, M6; auto.
Qed.

Lemma master_frame_kept_sort master_df touched text out l :
  master_frame_kept master_df touched text out l ->
  master_frame_kept master_df touched text (sort_assignment_columns out) l.
Proof.
  intros (M1 & M2 & M3 & M4 & M5 & M6). unfold master_frame_kept.
  split_and!; [done| | | | |].
  - intros c Hc. apply elem_of_sorted_columns. exact (M2 c Hc).
  - intros c Hc. apply (proj1 (elem_of_sorted_columns _ _)) in Hc.
    exact (M3 c Hc).
  - intros Hnd. apply sorted_columns_NoDup. exact (M4 Hnd).
  - intros j c Hc Hfree. by rewrite <- (M5 j c Hc Hfree).
  - intros j c Hj Hc Ht. by rewrite <- (M6 j c Hj Hc Ht).
Qed.

Lemma transfer_grade_kept master_df (touched : nat -> Prop) text raw_id raw_email
    row i st col :
  touched i -> col ∈ columns master_df ->
  master_frame_kept master_df touched text
    (ms_lecture_df (transfer_grade raw_id raw_email row i st col))
    (ms_lecture_df st).
Proof.
  intros Hi Hcol. unfold transfer_grade.
  destruct (is_identification _ _ _); [apply master_frame_kept_refl|].
  destruct (is_gradeable_assignment col) eqn:Hg; cbn [negb];
    [|apply master_frame_kept_refl].
  destruct (_ || _); [apply master_frame_kept_refl|].
  destruct (find_matching_column _ _) as [lecture_col|] eqn:Hf;
    cbn [ms_lecture_df]; unfold master_frame_kept.
  - split_and!; [apply df_set_length|done|by left|done| |].
    + intros j c Hc Hfree. apply df_set_at_other_column. intros ->.
      destruct (Hfree col Hcol Hg) as [F1 F2].
      apply find_matching_column_Some_contains in Hf as [Hf|Hf]; congruence.
    + intros j c Hj Hc Ht. apply df_set_at_other_row. by intros ->.
  - apply find_matching_column_None_notin in Hf.
    set (abbr := translate_assignment_name col) in *.
    rewrite df_set_length, df_add_column_length. cbn [df_set df_add_column columns].
    split_and!; [done| | | | |].
    + intros c Hc. apply elem_of_app. by left.
    + intros c [Hc | ->%list_elem_of_singleton]%elem_of_app; [by left|].
      right. by exists col.
    + intros Hnd. apply NoDup_app. split_and!; [done| |apply NoDup_singleton].
      intros x Hx ->%list_elem_of_singleton. done.
    + intros j c Hc Hfree. rewrite df_set_at_other_column by (by intros ->).
      apply df_add_column_at_other. by intros ->.
    + intros j c Hj Hc Ht. rewrite df_set_at_other_row by (by intros ->).
      apply df_add_column_at_other. by intros ->.
Qed.

Lemma fold_transfer_grade_kept master_df (touched : nat -> Prop) text raw_id
    raw_email row i cols st :
  touched i -> (forall c, c ∈ cols -> c ∈ columns master_df) ->
  master_frame_kept master_df touched text
    (ms_lecture_df (fold_left (transfer_grade raw_id raw_email row i) cols st))
    (ms_lecture_df st).
Proof.
  intros Hi. revert st. induction cols as [|c cols IH]; intros st Hcols.
  - apply master_frame_kept_refl.
  - cbn [fold_left]. eapply master_frame_kept_trans.
    + apply (transfer_grade_kept master_df touched text raw_id raw_email row i
               st c); [done|]. apply Hcols. by left.
    + apply IH. intros c' Hc'. apply Hcols. by right.
Qed.

Lemma merge_master_row_kept master_df (touched : nat -> Prop) text mid memail
    lid sm um st ir :
  (forall j m, find_lecture_row sm um (master_ids mid memail ir.2) = Some (j, m) ->
     touched j) ->
  master_frame_kept master_df touched text
    (ms_lecture_df (merge_master_row master_df mid memail lid sm um st ir))
    (ms_lecture_df st).
Proof.
  destruct ir as [idx row]. cbn [snd]. intros Ht. unfold merge_master_row.
  destruct (find_lecture_row _ _ _) as [[i m]|] eqn:Hh;
    [|apply master_frame_kept_refl].
  match goal with
  | |- context [fold_left (transfer_grade ?a ?b ?r ?k) ?cols ?s] =>
      pose proof (fold_transfer_grade_kept master_df touched text a b r k cols s)
        as Hk
  end.
  cbn [ms_lecture_df] in Hk. apply Hk; [by eapply Ht|done].
Qed.

Lemma fold_master_rows_kept master_df (touched : nat -> Prop) text mid memail
    lid sm um irs st :
  (forall ir j m, ir ∈ irs ->
     find_lecture_row sm um (master_ids mid memail ir.2) = Some (j, m) ->
     touched j) ->
  master_frame_kept master_df touched text
    (ms_lecture_df
       (fold_left (merge_master_row master_df mid memail lid sm um) irs st))
    (ms_lecture_df st).
Proof.
  revert st. induction irs as [|ir irs IH]; intros st Ht.
  - apply master_frame_kept_refl.
  - cbn [fold_left]. eapply master_frame_kept_trans.
    + apply (merge_master_row_kept master_df touched text mid memail lid sm um
               st ir).
      intros j m. apply Ht. by left.
    + apply IH. intros ir' j m Hir'. apply Ht. by right.
Qed.

Lemma merge_master_rows_kept master_df lecture_df st :
  master_frame_kept master_df (master_touches master_df lecture_df)
    (holds_text lecture_df)
    (ms_lecture_df (merge_master_rows master_df lecture_df st)) lecture_df.
Proof.
  unfold merge_master_rows.
  match goal with
  | |- context [fold_left (merge_master_row _ ?a ?b ?c ?d ?e) ?irs ?s] =>
      pose proof (fold_master_rows_kept master_df
                    (master_touches master_df lecture_df)
                    (holds_text lecture_df) a b c d e irs s) as Hk
  end.
  cbn [ms_lecture_df] in Hk. apply Hk. intros ir j m Hir Hh.
  exists ir.2, m. split; [|exact Hh].
  apply iterrows_row. by exists ir.
Qed.

Lemma dict_set_keys {K A} `{EqDecision K} (d : list (K * A)) k v :
  (dict_set d k v).*1 = if bool_decide (k ∈ d.*1) then d.*1 else d.*1 ++ [k].
Proof.
  induction d as [|[k' v'] d IH]; [done|]. cbn [dict_set].
  destruct (decide (k' = k)) as [->|Hne].
  - rewrite bool_decide_eq_true_2; [done|]. rewrite fmap_cons. by left.
  - rewrite !fmap_cons, IH. cbn [fst].
    destruct (bool_decide (k ∈ d.*1)) eqn:Hin.
    + apply bool_decide_eq_true in Hin.
      rewrite bool_decide_eq_true_2; [done|]. by right.
    + apply bool_decide_eq_false in Hin.
      rewrite bool_decide_eq_false_2; [done|].
      intros [?|?]%elem_of_cons; [congruence|done].
Qed.

Lemma dict_set_fresh {K A} `{EqDecision K} (d : list (K * A)) k v :
  k ∉ d.*1 -> dict_set d k v = d ++ [(k, v)].
Proof.
  induction d as [|[k' v'] d IH]; [done|]. rewrite fmap_cons. cbn [fst dict_set].
  intros Hk. destruct (decide (k' = k)) as [->|Hne].
  - destruct Hk. by left.
  - cbn [app]. f_equal. apply IH. intros Hin. apply Hk. by right.
Qed.

Lemma fold_master_lectures_stats master_df lectures acc :
  (ma_stats acc).*1 = (ma_updated_dataframes acc).*1 ->
  (ma_stats (fold_left (merge_master_lecture master_df) lectures acc)).*1
  = (ma_updated_dataframes
       (fold_left (merge_master_lecture master_df) lectures acc)).*1.
Proof.
  revert acc. induction lectures as [|[n ldf] lectures IH]; intros acc Hacc; [done|].
  cbn [fold_left]. apply IH. unfold merge_master_lecture.
  destruct (master_lecture_unusable ldf); [done|].
  cbn [ma_stats ma_updated_dataframes]. by rewrite !dict_set_keys, Hacc.
Qed.

Lemma fold_master_lectures_frames master_df lectures acc :
  NoDup lectures.*1 ->
  (forall l, l ∈ lectures -> l.1 ∉ (ma_updated_dataframes acc).*1) ->
  exists outs,
    ma_updated_dataframes (fold_left (merge_master_lecture master_df) lectures acc)
    = ma_updated_dataframes acc ++ outs
    /\ Forall2
         (fun out l =>
            out.1 = l.1
            /\ master_frame_kept master_df (master_touches master_df l.2)
                 (holds_text l.2) out.2 l.2)
         outs
         (List.filter (fun l => negb (master_lecture_unusable l.2)) lectures).
Proof.
  revert acc. induction lectures as [|[n ldf] lectures IH]; intros acc Hnd Hfresh.
  - exists []. cbn [fold_left List.filter]. by rewrite app_nil_r.
  - rewrite fmap_cons in Hnd. apply NoDup_cons in Hnd as [Hn Hnd].
    cbn [fold_left List.filter snd fst] in *.
    unfold merge_master_lecture at 2.
    destruct (master_lecture_unusable ldf) eqn:Hu; cbn [negb].
    + apply IH; [done|]. intros l Hl. apply Hfresh. by right.
    + set (st := merge_master_rows master_df ldf (ma_state acc)).
      set (out := sort_assignment_columns (ms_lecture_df st)).
      assert (Hset : dict_set (ma_updated_dataframes acc) n out
                     = ma_updated_dataframes acc ++ [(n, out)]).
      { apply dict_set_fresh. apply (Hfresh (n, ldf)). by left. }
      rewrite Hset.
      match goal with
      | |- context [fold_left ?f lectures ?acc'] =>
          destruct (IH acc' Hnd) as (outs & Ho & HF)
      end.
      { intros l Hl. cbn [ma_updated_dataframes]. rewrite fmap_app.
        intros [Hin | Hin%list_elem_of_singleton]%elem_of_app.
        - revert Hin. apply Hfresh. by right.
        - cbn [fst] in Hin. apply Hn. rewrite <- Hin.
          apply list_elem_of_fmap. by exists l. }
      cbn [ma_updated_dataframes] in Ho.
      exists ((n, out) :: outs). rewrite Ho, <- app_assoc. split; [done|].
      constructor; [|done]. cbn [fst snd]. split; [done|].
      apply master_frame_kept_sort, merge_master_rows_kept.
Qed.

(** the id and username columns receive no grade from [master_999] *)
Lemma master_999_free c :
  c = "Student ID" \/ c = "Username" -> master_column_free master_999 c.
Proof.
  intros Hc mc Hmc Hg. unfold master_999 in Hmc. cbn [columns] in Hmc.
  destruct Hc as [-> | ->];
    repeat (apply elem_of_cons in Hmc as [->|Hmc];
            [revert Hg; vm_compute;
             first [discriminate|intros _; split; reflexivity]|]);
    exfalso; revert Hmc; apply not_elem_of_nil.
Qed.

(** X21: the frames [merge_grades_from_master] returns, for lecture files
    with distinct names.  There is one frame for each usable lecture frame
    and none for the others, under the same names and in the same order,
    and the statistics are listed for the same names.  Each returned frame
    has as many rows as its lecture frame, keeps every column, gains columns
    only under translated names of gradeable master columns, and keeps
    distinct labels distinct.  A column of the lecture frame that no
    gradeable master column can be matched to holds its old values in every
    row; a column that holds text holds its old values in every row that no
    master row resolves to. *)
Theorem master_keeps_frames (lecture_data : list (string * DataFrame))
    (master_df : DataFrame) (res : MasterResults) :
  merge_grades_from_master lecture_data master_df = Some res ->
  NoDup lecture_data.*1 ->
  Forall2
    (fun out l =>
       out.1 = l.1
       /\ master_frame_kept master_df (master_touches master_df l.2)
            (holds_text l.2) out.2 l.2)
    (mr_updated_dataframes res)
    (List.filter (fun l => negb (master_lecture_unusable l.2)) lecture_data)
  /\ (mr_stats res).*1 = (mr_updated_dataframes res).*1.
Proof.
  unfold merge_grades_from_master. destruct (_ && _); [done|].
  intros [= <-] Hnd. cbn [mr_updated_dataframes mr_stats]. split.
  - destruct (fold_master_lectures_frames master_df lecture_data
                (mkMAcc [] [] initial_master_state) Hnd) as (outs & Ho & HF).
    + intros l _ Hin. cbn in Hin. by apply elem_of_nil in Hin.
    + rewrite Ho. exact HF.
  - by apply fold_master_lectures_stats.
Qed.

(** [master_999] into [lecture_names_only] and [lecture_ab_w1]: one frame
    comes back, for the usable frame; its row B, to which no master row
    resolves, keeps its text in the column ["W1 PA"] that receives the
    grade of row A, and the username column is as it was *)
Lemma master_keeps_frames_witness :
  let lecture_data :=
    [("names.csv", lecture_names_only); ("lecture.csv", lecture_ab_w1)] in
  exists res out,
    merge_grades_from_master lecture_data master_999 = Some res
    /\ mr_updated_dataframes res = [("lecture.csv", out)]
    /\ (mr_stats res).*1 = ["lecture.csv"]
    /\ length (rows out) = 2%nat
    /\ df_at out 1 "W1 PA" = CStr "excused"
    /\ (forall j, df_at out j "Username" = df_at lecture_ab_w1 j "Username").
Proof.
  intros lecture_data.
  assert (Hnd : NoDup lecture_data.*1).
  { apply (bool_decide_unpack _). vm_compute. exact I. }
  assert (Hu1 : master_lecture_unusable lecture_names_only = true)
    by (vm_compute; reflexivity).
  assert (Hu2 : master_lecture_unusable lecture_ab_w1 = false)
    by (vm_compute; reflexivity).
  assert (Hhit : forall row, row ∈ rows master_999 ->
            find_lecture_row (master_lecture_maps lecture_ab_w1).1
              (master_lecture_maps lecture_ab_w1).2 (master_row_ids master_999 row)
            = Some (0%nat, ByEmail)).
  { intros row Hrow. unfold master_999 in Hrow. cbn [rows] in Hrow.
    apply list_elem_of_singleton in Hrow. rewrite Hrow. vm_compute; reflexivity. }
  assert (Hfree : master_column_free master_999 "Username").
  { apply master_999_free. by right. }
  destruct (merge_grades_from_master lecture_data master_999) as [res|] eqn:H.
  - destruct (master_keeps_frames _ _ _ H Hnd) as [HF Hs].
    unfold lecture_data in HF. cbn [List.filter snd] in HF.
    rewrite Hu1, Hu2 in HF. cbn [negb] in HF.
    apply Forall2_cons_inv_r in HF as (o & os & [Ho Hkept] & Hnil & Heq).
    apply Forall2_nil_inv_r in Hnil. subst os.
    destruct o as [name out]. cbn [fst snd] in Ho, Hkept. subst name.
    destruct Hkept as (K1 & K2 & K3 & K4 & K5 & K6).
    exists res, out. split_and!.
    + reflexivity.
    + exact Heq.
    + rewrite Hs, Heq. reflexivity.
    + rewrite K1. reflexivity.
    + rewrite (K6 1%nat "W1 PA"); [reflexivity| | |].
      * intros (row & m & Hrow & Hh). rewrite (Hhit row Hrow) in Hh.
        discriminate Hh.
      * unfold lecture_ab_w1. cbn [columns]. do 2 right. left.
      * by exists 1%nat, "excused".
    + intros j. apply K5; [|exact Hfree].
      unfold lecture_ab_w1. cbn [columns]. right. left.
  - exfalso. unfold merge_grades_from_master in H.
    assert (Hc : negb (truthy_opt (find_student_id_column master_999))
                 && negb (truthy_opt (find_email_column master_999)) = false)
      by (vm_compute; reflexivity).
    rewrite Hc in H. discriminate H.
Defined.

(** ** [activity.py]: writing a score map into a gradebook *)

Section ApplyScores.
Variables (uc ec : option string) (score_map : gmap string Cell) (col : string).

Let sc (r : gmap string Cell) : option Cell :=
  match lecture_username uc ec r with
  | Some username => if PyStr.truthy username then score_map !! username else None
  | None => None
  end.

Lemma apply_score_row_cases acc ir :
  apply_score_row uc ec score_map col acc ir
  = match sc ir.2 with
    | Some s => (df_set acc.1 ir.1 col s, S acc.2)
    | None => acc
    end.
Proof.
  unfold apply_score_row, sc. destruct (lecture_username uc ec ir.2) as [u|]; [|done].
  destruct (PyStr.truthy u); [|done]. by destruct (score_map !! u).
Qed.

Lemma fold_apply_score_rows rs k df0 n0 :
  (k + length rs <= length (rows df0))%nat ->
  columns (fold_left (apply_score_row uc ec score_map col)
             (imap (fun i r => ((k + i)%nat, r)) rs) (df0, n0)).1
  = columns df0
  /\ length (rows (fold_left (apply_score_row uc ec score_map col)
                     (imap (fun i r => ((k + i)%nat, r)) rs) (df0, n0)).1)
     = length (rows df0)
  /\ (forall j c, c <> col ->
        df_at (fold_left (apply_score_row uc ec score_map col)
                 (imap (fun i r => ((k + i)%nat, r)) rs) (df0, n0)).1 j c
        = df_at df0 j c)
  /\ (forall j,
        df_at (fold_left (apply_score_row uc ec score_map col)
                 (imap (fun i r => ((k + i)%nat, r)) rs) (df0, n0)).1 j col
        = match (if decide (k <= j)%nat then rs !! (j - k)%nat else None) with
          | Some r => default (df_at df0 j col) (sc r)
          | None => df_at df0 j col
          end)
  /\ (fold_left (apply_score_row uc ec score_map col)
        (imap (fun i r => ((k + i)%nat, r)) rs) (df0, n0)).2
     = (n0 + count_if (fun r => bool_decide (is_Some (sc r))) rs)%nat.
Proof.
  revert k df0 n0. induction rs as [|r rs IH]; intros k df0 n0 Hlen.
  - cbn [imap fold_left fst snd]. split_and!; try done.
    all: try (intros j; destruct (decide _); by rewrite ?lookup_nil).
    all: try (unfold count_if; cbn; lia).
  - cbn [imap fold_left length] in *. rewrite apply_score_row_cases.
    cbn [fst snd]. rewrite Nat.add_0_r, count_if_cons.
    set (acc' := match sc r with
                 | Some s => (df_set df0 k col s, S n0)
                 | None => (df0, n0)
                 end).
    assert (Hext : imap ((fun i r0 => ((k + i)%nat, r0)) ∘ S) rs
                   = imap (fun i r0 => ((S k + i)%nat, r0)) rs).
    { apply imap_ext. intros i x _. cbn. f_equal. lia. }
    rewrite Hext.
    assert (Hacc : columns acc'.1 = columns df0
                   /\ length (rows acc'.1) = length (rows df0)
                   /\ (forall j c, c <> col -> df_at acc'.1 j c = df_at df0 j c)
                   /\ (forall j, j <> k -> df_at acc'.1 j col = df_at df0 j col)
                   /\ df_at acc'.1 k col = default (df_at df0 k col) (sc r)
                   /\ acc'.2 = (n0 + (if bool_decide (is_Some (sc r)) then 1 else 0))%nat).
    { unfold acc'. destruct (sc r) as [s|]; cbn [fst snd default].
      - rewrite bool_decide_eq_true_2 by eauto.
        split_and!; [done|apply df_set_length| | | |lia].
        + intros j c Hc. by apply df_set_at_other_column.
        + intros j Hj. apply df_set_at_other_row. congruence.
        + apply df_set_at_same. lia.
      - rewrite bool_decide_eq_false_2 by (by intros [? ?]).
        split_and!; try done; lia. }
    destruct Hacc as (A1 & A2 & A3 & A4 & A5 & A6).
    destruct acc' as [df1 n1]. cbn [fst snd] in *.
    destruct (IH (S k) df1 n1) as (I1 & I2 & I3 & I4 & I5); [lia|].
    split_and!.
    + congruence.
    + congruence.
    + intros j c Hc. by rewrite I3, A3.
    + intros j. rewrite I4.
      destruct (decide (S k <= j)%nat) as [Hj|Hj].
      * rewrite decide_True by lia.
        replace (j - k)%nat with (S (j - S k)) by lia. cbn [lookup list_lookup].
        rewrite A4 by lia. done.
      * destruct (decide (k <= j)%nat) as [Hk|Hk].
        -- assert (j = k) as -> by lia. rewrite Nat.sub_diag. cbn. exact A5.
        -- apply A4. lia.
    + rewrite I5, A6. lia.
Qed.
End ApplyScores.

Lemma length_filter_Forall2 {A B} (f : A -> bool) (g : B -> bool) l l' :
  Forall2 (fun a b => f a = g b) l l' ->
  length (List.filter f l) = length (List.filter g l').
Proof.
  induction 1 as [|a b l l' Hab _ IH]; [done|]. cbn [List.filter].
  rewrite Hab. destruct (g b); cbn [length]; by rewrite IH.
Qed.

Lemma found_in_columns (f : string -> bool) cols c :
  found (List.find f cols) = Some c -> c ∈ cols.
Proof.
  unfold found. destruct (truthy_opt _); [|done].
  intros H. apply find_some in H as [H _]. by apply list_elem_of_In.
Qed.

Lemma lecture_username_insert uc ec col v (r : gmap string Cell) :
  uc <> Some col -> ec <> Some col ->
  lecture_username uc ec (<[col := v]> r) = lecture_username uc ec r.
Proof.
  intros Hu He. unfold lecture_username, row_get.
  destruct uc as [u|], ec as [e|];
    rewrite ?(lookup_insert_ne r col u) by congruence;
    rewrite ?(lookup_insert_ne r col e) by congruence; done.
Qed.

(** X22: [apply_scores_to_gradebook] on a gradebook frame whose score column
    is new or holds text.  The frame keeps its rows and all its other
    columns; the score column is created, filled with empty strings, when it
    is not there; a row whose username (username column, else the local part
    of the school email) is a key of the score map gets that score in the
    score column, every other row keeps what it had there; and the number
    returned is the number of rows that got a score. *)
Theorem apply_scores_to_gradebook_spec (df : DataFrame)
    (score_map : gmap string Cell) (column_name : string) :
  (column_name ∈ columns df -> holds_text df column_name) ->
  let out := (apply_scores_to_gradebook df score_map column_name).1 in
  let updated := (apply_scores_to_gradebook df score_map column_name).2 in
  columns out
  = (if bool_decide (column_name ∈ columns df) then columns df
     else columns df ++ [column_name])
  /\ length (rows out) = length (rows df)
  /\ (forall j c, c <> column_name -> df_at out j c = df_at df j c)
  /\ (forall j r,
        rows df !! j = Some r ->
        df_at out j column_name
        = match row_score df score_map r with
          | Some score => score
          | None =>
              if bool_decide (column_name ∈ columns df)
              then row_get r column_name else CStr EmptyString
          end)
  /\ updated
     = count_if (fun r => bool_decide (is_Some (row_score df score_map r)))
         (rows df)
  /\ (updated <= length (rows df))%nat.
Proof.
  intros _ out updated. subst out updated. unfold apply_scores_to_gradebook.
  set (ec := found (find_email_column df)).
  set (uc := found (find_username_column df)).
  set (df' := if bool_decide (column_name ∈ columns df) then df
              else df_add_column df column_name).
  unfold iterrows.
  destruct (fold_apply_score_rows uc ec score_map column_name (rows df') 0 df' 0)
    as (F1 & F2 & F3 & F4 & F5); [cbn; lia|].
  cbn [Nat.add] in F1, F2, F3, F4, F5.
  change (fun i r => (i, r)) with (fun (i : nat) (r : gmap string Cell) => (i, r)).
  rewrite F1, F2, F5.
  assert (Hdf' : columns df'
                 = (if bool_decide (column_name ∈ columns df) then columns df
                    else columns df ++ [column_name])
                 /\ length (rows df') = length (rows df)
                 /\ forall j c, c <> column_name -> df_at df' j c = df_at df j c).
  { unfold df'. case_bool_decide; [done|].
    split_and!; [done|apply df_add_column_length|].
    intros j c Hc. by apply df_add_column_at_other. }
  destruct Hdf' as (D1 & D2 & D3).
  assert (Hsc : forall j r, rows df !! j = Some r ->
            exists r', rows df' !! j = Some r'
              /\ match lecture_username uc ec r' with
                 | Some username =>
                     if PyStr.truthy username then score_map !! username else None
                 | None => None
                 end = row_score df score_map r
              /\ row_get r' column_name
                 = if bool_decide (column_name ∈ columns df)
                   then row_get r column_name else CStr EmptyString).
  { intros j r Hr. unfold df'. case_bool_decide as Hin.
    - exists r. done.
    - exists (<[column_name := CStr EmptyString]> r). split_and!.
      + unfold df_add_column. cbn [rows]. by rewrite list_lookup_fmap, Hr.
      + unfold row_score. fold uc ec. rewrite lecture_username_insert; [done| |].
        * intros Hu. apply Hin. by apply (found_in_columns username_col_matches).
        * intros He. apply Hin. by apply (found_in_columns email_col_matches).
      + unfold row_get. by rewrite lookup_insert_eq. }
  assert (Hcount :
            (count_if
                   (fun r =>
                      bool_decide
                        (is_Some
                           match lecture_username uc ec r with
                           | Some username =>
                               if PyStr.truthy username
                               then score_map !! username else None
                           | None => None
                           end)) (rows df'))%nat
            = count_if (fun r => bool_decide (is_Some (row_score df score_map r)))
                (rows df)).
  { unfold count_if.
    assert (Hrows : Forall2
              (fun r' r =>
                 match lecture_username uc ec r' with
                 | Some username =>
                     if PyStr.truthy username then score_map !! username else None
                 | None => None
                 end = row_score df score_map r) (rows df') (rows df)).
    { apply Forall2_same_length_lookup_2; [done|].
      intros j r' r Hr' Hr. destruct (Hsc j r Hr) as (r2 & Hr2 & Hs & _).
      by assert (r2 = r') as <- by congruence. }
    apply length_filter_Forall2. eapply Forall2_impl; [exact Hrows|].
    intros r' r Hr. cbn beta. by rewrite Hr. }
  split_and!.
  - exact D1.
  - exact D2.
  - intros j c Hc. by rewrite F3, D3.
  - intros j r Hr. rewrite F4. rewrite decide_True by lia.
    rewrite Nat.sub_0_r. destruct (Hsc j r Hr) as (r' & Hr' & Hs & Hg).
    rewrite Hr', Hs. destruct (row_score df score_map r) as [s|]; [done|].
    cbn [default]. unfold df_at. by rewrite Hr'.
  - exact Hcount.
  - rewrite Hcount. apply count_if_le.
Qed.

(** the score 75.5 for "alice" written into [lecture_ab_w1], whose column
    ["W1 PA"] holds text: row A gets the score, row B keeps its text *)
Lemma apply_scores_to_gradebook_spec_witness :
  let scores : gmap string Cell := {[ "alice" := CFloat (PyFloat.Fin 151 (-1)) ]} in
  let out := (apply_scores_to_gradebook lecture_ab_w1 scores "W1 PA").1 in
  holds_text lecture_ab_w1 "W1 PA"
  /\ df_at out 0 "W1 PA" = CFloat (PyFloat.Fin 151 (-1))
  /\ df_at out 1 "W1 PA" = CStr "excused"
  /\ (apply_scores_to_gradebook lecture_ab_w1 scores "W1 PA").2 = 1%nat.
Proof.
  intros scores out.
  assert (Ht : holds_text lecture_ab_w1 "W1 PA") by (by exists 1%nat, "excused").
  pose proof (apply_scores_to_gradebook_spec lecture_ab_w1 scores "W1 PA"
                (fun _ => Ht)) as (_ & _ & _ & H4 & H5 & _).
  split; [exact Ht|]. split_and!.
  - exact (H4 0%nat _ eq_refl).
  - exact (H4 1%nat _ eq_refl).
  - exact H5.
Defined.

(** ** [activity.py]: aggregating several reports *)

Lemma num_ltb_float x y : num_ltb x y = float_ltb (float_of_num x) (float_of_num y).
Proof.
  destruct x as [a|f], y as [b|g]; cbn [num_ltb float_of_num]; try done.
  cbn [float_ltb]. rewrite Z.min_id, Z.sub_diag. cbn [Z.pow].
  by rewrite !Z.mul_1_r.
Qed.

Lemma fin_lt_scale m1 e1 m2 e2 E :
  E <= e1 -> E <= e2 ->
  (m1 * 2 ^ (e1 - Z.min e1 e2) < m2 * 2 ^ (e2 - Z.min e1 e2)
   <-> m1 * 2 ^ (e1 - E) < m2 * 2 ^ (e2 - E)).
Proof.
  intros H1 H2. set (e := Z.min e1 e2).
  assert (E <= e) by (unfold e; lia).
  assert (e <= e1 /\ e <= e2) as [? ?] by (unfold e; lia).
  replace (e1 - E) with ((e1 - e) + (e - E)) by lia.
  replace (e2 - E) with ((e2 - e) + (e - E)) by lia.
  rewrite !Z.pow_add_r by lia. rewrite !Z.mul_assoc.
  assert (0 < 2 ^ (e - E)) by (apply Z.pow_pos_nonneg; lia).
  split; intros Hlt; nia.
Qed.

Lemma float_ltb_irrefl a : float_ltb a a = false.
Proof.
  destruct a as [m e|[]|]; cbn [float_ltb]; try done.
  apply Z.ltb_irrefl.
Qed.

Lemma float_ltb_trans a b c :
  float_ltb a b = true -> float_ltb b c = true -> float_ltb a c = true.
Proof.
  destruct a as [m1 e1|[]|], b as [m2 e2|[]|], c as [m3 e3|[]|];
    cbn [float_ltb andb negb]; try done.
  rewrite !Z.ltb_lt.
  set (E := Z.min e1 (Z.min e2 e3)).
  rewrite (fin_lt_scale m1 e1 m2 e2 E), (fin_lt_scale m2 e2 m3 e3 E),
    (fin_lt_scale m1 e1 m3 e3 E) by (unfold E; lia).
  lia.
Qed.

Lemma num_ltb_irrefl x : num_ltb x x = false.
Proof. rewrite num_ltb_float. apply float_ltb_irrefl. Qed.

Lemma num_ltb_trans x y z :
  num_ltb x y = true -> num_ltb y z = true -> num_ltb x z = true.
Proof. rewrite !num_ltb_float. apply float_ltb_trans. Qed.

Lemma combine_row_ok seen combined row :
  combined_ok seen combined ->
  combined_ok (seen ++ [row]) (combine_row combined row).
Proof.
  intros Hok u. specialize (Hok u). unfold combine_row.
  rewrite List.filter_app. cbn [List.filter].
  destruct (PyStr.truthy (best_username row)) eqn:Ht; cbn [negb].
  - destruct (decide (best_username row = u)) as [Hu|Hu].
    + subst u. rewrite String.eqb_refl.
      destruct (combined !! best_username row) as [[mx n]|] eqn:Hc.
      * rewrite lookup_insert_eq. destruct Hok as (_ & Hn & (r0 & Hr0 & Hu0 & Hp0) & Hmax).
        split_and!; [done|rewrite length_app; cbn; lia| |].
        -- unfold py_max. destruct (num_ltb mx (best_percent row)) eqn:Hlt.
           ++ exists row. split; [|done]. apply elem_of_app. right. by left.
           ++ exists r0. split; [|done]. apply elem_of_app. by left.
        -- intros r [Hr | ->%list_elem_of_singleton]%elem_of_app Hur.
           ++ unfold py_max. destruct (num_ltb mx (best_percent row)) eqn:Hlt;
                [|by apply Hmax].
              destruct (num_ltb (best_percent row) (best_percent r)) eqn:Hlt2;
                [|done].
              rewrite <- (Hmax r Hr Hur). symmetry.
              by eapply num_ltb_trans.
           ++ unfold py_max. destruct (num_ltb mx (best_percent row)) eqn:Hlt;
                [apply num_ltb_irrefl|done].
      * rewrite lookup_insert_eq.
        destruct Hok as [Hf|Hnil]; [congruence|]. rewrite Hnil.
        split_and!; [done|done| |].
        -- exists row. split; [|done]. apply elem_of_app. right. by left.
        -- intros r [Hr | ->%list_elem_of_singleton]%elem_of_app Hur.
           ++ exfalso. apply list_elem_of_In in Hr.
              assert (In r (List.filter
                              (fun row0 => String.eqb (best_username row0)
                                             (best_username row)) seen)) as Hin.
              { apply filter_In. split; [done|]. by apply String.eqb_eq. }
              by rewrite Hnil in Hin.
           ++ apply num_ltb_irrefl.
    + apply String.eqb_neq in Hu as Hu'. rewrite Hu', app_nil_r.
      assert (Hkeep : (match combined !! best_username row with
                       | Some (max_score, count) =>
                           <[best_username row :=
                               (py_max max_score (best_percent row), S count)]>
                             combined
                       | None =>
                           <[best_username row := (best_percent row, 1%nat)]>
                             combined
                       end) !! u = combined !! u).
      { destruct (combined !! best_username row) as [[mx n]|];
          by rewrite lookup_insert_ne. }
      rewrite Hkeep. destruct (combined !! u) as [[mx n]|]; [|done].
      destruct Hok as (H1 & H2 & (r0 & Hr0 & Hp0) & Hmax).
      split_and!; [done|done| |].
      * exists r0. split; [|done]. apply elem_of_app. by left.
      * intros r [Hr | ->%list_elem_of_singleton]%elem_of_app Hur;
          [by apply Hmax|done].
  - assert (String.eqb (best_username row) u = true -> PyStr.truthy u = false)
      as Hsame.
    { intros Heq%String.eqb_eq. by rewrite <- Heq. }
    destruct (combined !! u) as [[mx n]|].
    + destruct Hok as (H1 & H2 & (r0 & Hr0 & Hp0) & Hmax).
      destruct (String.eqb (best_username row) u) eqn:Hu;
        [rewrite Hsame in H1; done|]. rewrite app_nil_r.
      split_and!; [done|done| |].
      * exists r0. split; [|done]. apply elem_of_app. by left.
      * intros r [Hr | ->%list_elem_of_singleton]%elem_of_app Hur;
          [by apply Hmax|]. apply String.eqb_neq in Hu. done.
    + destruct (String.eqb (best_username row) u) eqn:Hu; [left; by apply Hsame|].
      by rewrite app_nil_r.
Qed.

Lemma fold_combine_row_ok rows_ seen combined :
  combined_ok seen combined ->
  combined_ok (seen ++ rows_) (fold_left combine_row rows_ combined).
Proof.
  revert seen combined. induction rows_ as [|row rows_ IH]; intros seen combined Hok.
  - by rewrite app_nil_r.
  - cbn [fold_left]. replace (seen ++ row :: rows_) with ((seen ++ [row]) ++ rows_)
      by (by rewrite <- app_assoc).
    apply IH. by apply combine_row_ok.
Qed.

Lemma combine_reports_concat reports combined :
  fold_left (fun combined best => fold_left combine_row best combined) reports
    combined
  = fold_left combine_row (concat reports) combined.
Proof.
  revert combined. induction reports as [|best reports IH]; intros combined; [done|].
  cbn [fold_left concat]. by rewrite fold_left_app, IH.
Qed.

(** X23: what [_run_aggregated] keeps for each student after all the
    reports.  A username is a key of [combined] exactly when it is not
    empty and some report row carries it; its count is the number of report
    rows that carry it, and its score is the percent of one of those rows,
    than which none of them is greater. *)
Theorem combine_reports_spec (reports : list (list BestRow)) (u : string) :
  (combine_reports reports !! u = None <->
   PyStr.truthy u = false \/ rows_of_user reports u = [])
  /\ (forall max_score count,
        combine_reports reports !! u = Some (max_score, count) ->
        PyStr.truthy u = true
        /\ count = length (rows_of_user reports u)
        /\ (1 <= count)%nat
        /\ (exists row, row ∈ rows_of_user reports u
                        /\ best_percent row = max_score)
        /\ forall row, row ∈ rows_of_user reports u ->
             num_ltb max_score (best_percent row) = false).
Proof.
  unfold combine_reports, rows_of_user. rewrite combine_reports_concat.
  assert (Hok : combined_ok (concat reports)
                  (fold_left combine_row (concat reports) ∅)).
  { apply (fold_combine_row_ok (concat reports) [] ∅). intros v.
    rewrite lookup_empty. by right. }
  specialize (Hok u).
  assert (Hin : forall row,
            row ∈ List.filter (fun row => String.eqb (best_username row) u)
                    (concat reports)
            <-> row ∈ concat reports /\ best_username row = u).
  { intros row. rewrite !list_elem_of_In, filter_In, String.eqb_eq. done. }
  destruct (fold_left combine_row (concat reports) ∅ !! u) as [[mx n]|].
  - destruct Hok as (H1 & H2 & (r0 & Hr0 & Hu0 & Hp0) & Hmax). split.
    + split; [done|]. intros [Hf|Hnil]; [congruence|].
      assert (r0 ∈ List.filter (fun row => String.eqb (best_username row) u)
                     (concat reports)) as Hr by (by apply Hin).
      rewrite Hnil in Hr. by apply elem_of_nil in Hr.
    + intros max_score count [= <- <-]. split_and!; [done|done| | |].
      * rewrite H2.
        assert (r0 ∈ List.filter (fun row => String.eqb (best_username row) u)
                       (concat reports)) as Hr by (by apply Hin).
        destruct (List.filter _ _); [by apply elem_of_nil in Hr|cbn; lia].
      * exists r0. split; [by apply Hin|done].
      * intros row [Hr Hu]%Hin. by apply Hmax.
  - split; [done|]. intros ? ? [=].
Qed.

Lemma combine_reports_spec_witness :
  combine_reports
    [[mkBest "alice" (flt "50.0")]; [mkBest "alice" (flt "75.0")];
     [mkBest "alice" (flt "60.0")]] !! "alice" = Some (flt "75.0", 3%nat)
  /\ 3%nat = length (rows_of_user
                      [[mkBest "alice" (flt "50.0")]; [mkBest "alice" (flt "75.0")];
                       [mkBest "alice" (flt "60.0")]] "alice").
Proof.
  assert (H : combine_reports
                [[mkBest "alice" (flt "50.0")]; [mkBest "alice" (flt "75.0")];
                 [mkBest "alice" (flt "60.0")]] !! "alice"
              = Some (flt "75.0", 3%nat)) by (vm_compute; reflexivity).
  split; [exact H|].
  exact (proj1 (proj2 (proj2 (combine_reports_spec _ "alice") _ _ H))).
Defined.

(** ** [parse_assignment_filename] *)

Lemma re_search_Some {A} (f : string -> option A) s r :
  re_search f s = Some r -> exists t, f t = Some r.
Proof.
  induction s as [|c s IH]; cbn [re_search].
  - destruct (f EmptyString) eqn:Hf; [|done]. intros [= <-]. eauto.
  - destruct (f (String c s)) eqn:Hf; [intros [= <-]; eauto|]. exact IH.
Qed.


Lemma match_zybooks_digits t week g2 g3 :
  match_zybooks t = Some (week, g2, g3) ->
  exists d ds, week = String d ds /\ PyStr.is_digit d = true
               /\ all_chars PyStr.is_digit ds = true.
Proof.
  unfold match_zybooks. intros Hm. break_match Hm.
  injection Hm as <- <- <-. subst.
  match goal with
  | H : span PyStr.is_digit _ = (String ?d ?ds, _) |- _ =>
      apply span_spec in H as (_ & Hall & _); exists d, ds
  end.
  cbn [all_chars] in Hall. apply andb_prop in Hall as [H1 H2]. done.
Qed.

Lemma filename_type_map_Some key abbrev_type :
  dict_lookup filename_type_map key = Some abbrev_type ->
  (key = "Participation Activities" /\ abbrev_type = "PA")
  \/ (key = "Challenge Activities" /\ abbrev_type = "CA")
  \/ (key = "In-Lab Labs" /\ abbrev_type = "IL")
  \/ (key = "Out-of-Lab Labs" /\ abbrev_type = "OL").
Proof.
  unfold filename_type_map. cbn [dict_lookup].
  destruct (String.eqb_spec "Participation Activities" key) as [<-|_];
    [intros [= <-]; tauto|].
  destruct (String.eqb_spec "Challenge Activities" key) as [<-|_];
    [intros [= <-]; tauto|].
  destruct (String.eqb_spec "In-Lab Labs" key) as [<-|_];
    [intros [= <-]; tauto|].
  destruct (String.eqb_spec "Out-of-Lab Labs" key) as [<-|_];
    [intros [= <-]; tauto|].
  done.
Qed.





Lemma digit_not_week_letter d :
  PyStr.is_digit d = true ->
  Ascii.eqb (PyStr.lower_char "W") (PyStr.lower_char d) = false
  /\ Ascii.eqb (PyStr.lower_char "e") (PyStr.lower_char d) = false
  /\ PyStr.is_space d = false /\ is_sep d = false.
Proof. destruct d as [[] [] [] [] [] [] [] []]; by vm_compute. Qed.

Lemma match_zybooks_digit d rest :
  PyStr.is_digit d = true -> match_zybooks (String d rest) = None.
Proof.
  intros (H & _)%digit_not_week_letter. unfold match_zybooks.
  cbn [ci_prefix]. by rewrite H.
Qed.

Lemma match_zybooks_W_digit d rest :
  PyStr.is_digit d = true -> match_zybooks (String "W" (String d rest)) = None.
Proof.
  intros (_ & H & _)%digit_not_week_letter. unfold match_zybooks.
  cbn [ci_prefix]. rewrite Ascii.eqb_refl. by rewrite H.
Qed.

Lemma re_search_zybooks_digits s kind :
  all_chars PyStr.is_digit s = true ->
  kind = "PA" \/ kind = "IL" \/ kind = "CA" \/ kind = "OL" ->
  re_search match_zybooks (s +:+ String " " kind) = None.
Proof.
  intros Hs Hk. induction s as [|c s IH].
  - rewrite append_nil_l.
    destruct Hk as [-> | [-> | [-> | ->]]]; vm_compute; reflexivity.
  - cbn [all_chars] in Hs. apply andb_prop in Hs as [Hc Hs].
    rewrite append_cons. cbn [re_search].
    rewrite (match_zybooks_digit c _ Hc). by apply IH.
Qed.






(** ** [_run_per_column]: the score map of one report *)

Lemma per_column_score_map_snoc rows_ x :
  per_column_score_map (rows_ ++ [x])
  = if PyStr.truthy (best_username x)
    then <[best_username x := best_percent x]> (per_column_score_map rows_)
    else per_column_score_map rows_.
Proof. unfold per_column_score_map. by rewrite fold_left_app. Qed.

(** X26: in [_run_per_column] the score map of a report holds, for every
    non-empty username of the report, the percent of the last row that
    carries it (where [_run_aggregated] keeps the greatest), and nothing
    for any other name. *)
Theorem per_column_score_map_last_row (best : list BestRow) (u : string)
    (p : PyNum) :
  per_column_score_map best !! u = Some p <->
  PyStr.truthy u = true
  /\ exists pre row post,
       best = pre ++ row :: post
       /\ best_username row = u /\ best_percent row = p
       /\ forall r, r ∈ post -> best_username r <> u.
Proof.
  induction best as [|x best IH] using rev_ind.
  - unfold per_column_score_map. cbn [fold_left]. rewrite lookup_empty.
    split; [done|]. intros (_ & pre & row & post & H & _).
    by destruct pre.
  - rewrite per_column_score_map_snoc.
    assert (Hother : best_username x <> u \/ PyStr.truthy (best_username x) = false ->
              (per_column_score_map best !! u = Some p <->
               PyStr.truthy u = true
               /\ exists pre row post,
                    best ++ [x] = pre ++ row :: post
                    /\ best_username row = u /\ best_percent row = p
                    /\ forall r, r ∈ post -> best_username r <> u)).
    { intros Hx. rewrite IH. split.
      - intros (Ht & pre & row & post & -> & Hu & Hp & Hpost).
        split; [done|]. exists pre, row, (post ++ [x]).
        split_and!; [by rewrite <- app_assoc|done|done|].
        intros r [Hr | ->%list_elem_of_singleton]%elem_of_app; [by apply Hpost|].
        destruct Hx as [Hx|Hx]; [done|]. intros Heq. congruence.
      - intros (Ht & pre & row & post & Heq & Hu & Hp & Hpost).
        split; [done|].
        destruct post as [|y post _] using rev_ind.
        + apply app_inj_tail in Heq as [_ ->].
          destruct Hx as [Hx|Hx]; [done|congruence].
        + rewrite app_comm_cons, app_assoc in Heq.
          apply app_inj_tail in Heq as [-> ->].
          exists pre, row, post. split_and!; [done|done|done|].
          intros r Hr. apply Hpost, elem_of_app. by left. }
    destruct (PyStr.truthy (best_username x)) eqn:Ht; [|apply Hother; by right].
    destruct (decide (best_username x = u)) as [Hu|Hu];
      [|rewrite lookup_insert_ne by done; apply Hother; by left].
    subst u. rewrite lookup_insert_eq. split.
    + intros [= <-]. split; [done|]. exists best, x, [].
      split_and!; [done|done|done|]. intros r Hr. by apply elem_of_nil in Hr.
    + intros (_ & pre & row & post & Heq & Hu & Hp & Hpost).
      destruct post as [|y post _] using rev_ind.
      * apply app_inj_tail in Heq as [_ ->]. by rewrite Hp.
      * rewrite app_comm_cons, app_assoc in Heq.
        apply app_inj_tail in Heq as [_ ->].
        destruct (Hpost y); [|done]. apply elem_of_app. right. by left.
Qed.

Lemma per_column_score_map_last_row_witness :
  per_column_score_map [mkBest "alice" (flt "90.0"); mkBest "alice" (flt "50.0")]
    !! "alice" = Some (flt "50.0")
  /\ PyStr.truthy "alice" = true.
Proof.
  assert (H : per_column_score_map
                [mkBest "alice" (flt "90.0"); mkBest "alice" (flt "50.0")]
                !! "alice" = Some (flt "50.0")) by (vm_compute; reflexivity).
  split; [exact H|].
  exact (proj1 (proj1 (per_column_score_map_last_row _ _ _) H)).
Defined.

(** ** The line repair of [read_csv_with_trailing_comma_fix] *)

Lemma rstrip_by_app_stripped p s nl :
  all_chars p nl = true ->
  PyStr.rstrip_by p (s +:+ nl) = PyStr.rstrip_by p s.
Proof.
  intros Hnl. induction s as [|c s IH].
  - rewrite append_nil_l. induction nl as [|a nl IHnl]; [done|].
    cbn [all_chars] in Hnl. apply andb_prop in Hnl as [Ha Hnl].
    cbn [PyStr.rstrip_by]. rewrite (IHnl Hnl). cbn [PyStr.rstrip_by].
    by rewrite Ha.
  - rewrite append_cons. cbn [PyStr.rstrip_by]. by rewrite IH.
Qed.

Lemma drop_last_comma_app s :
  drop_last_comma (s +:+ ",") = s.
Proof.
  induction s as [|c s IH]; [done|]. rewrite append_cons.
  cbn [drop_last_comma]. rewrite IH.
  destruct (s +:+ ",") eqn:E; [|done]. by destruct s.
Qed.

Lemma drop_last_comma_other s c :
  Ascii.eqb c "," = false -> drop_last_comma (s +:+ String c EmptyString)
                             = s +:+ String c EmptyString.
Proof.
  intros Hc. induction s as [|a s IH].
  - rewrite append_nil_l. cbn [drop_last_comma]. by rewrite Hc.
  - rewrite append_cons. cbn [drop_last_comma]. rewrite IH.
    destruct (s +:+ String c EmptyString) eqn:E; [|done]. by destruct s.
Qed.

(** X25: the line repair of [read_csv_with_trailing_comma_fix].  Whatever
    run of line-feed and carriage-return characters ends the line, the
    repaired line ends with one line feed; a line whose text ends with a
    comma loses that one comma, so a text ending with two commas keeps
    one; and a line whose text ends with any other character keeps its
    text. *)
Theorem fix_line_spec (text nl : string) :
  all_chars is_newline_char nl = true ->
  fix_line (text +:+ "," +:+ nl) = text +:+ String "010" EmptyString
  /\ fix_line (text +:+ ",," +:+ nl) = text +:+ "," +:+ String "010" EmptyString
  /\ (forall c, Ascii.eqb c "," = false -> is_newline_char c = false ->
        fix_line (text +:+ String c nl)
        = text +:+ String c (String "010" EmptyString))
  /\ fix_line nl = String "010" EmptyString.
Proof.
  intros Hnl. unfold fix_line.
  assert (Hkeep : forall s c, is_newline_char c = false ->
            PyStr.rstrip_by is_newline_char (s +:+ String c nl)
            = s +:+ String c EmptyString).
  { intros s c Hc.
    assert (s +:+ String c nl = (s +:+ String c EmptyString) +:+ nl) as ->
      by (by rewrite append_assoc_str).
    rewrite rstrip_by_app_stripped by done.
    apply rstrip_by_app; [done|]. cbn [PyStr.rstrip_by]. by rewrite Hc. }
  split_and!.
  - change ("," +:+ nl) with (String "," nl). rewrite Hkeep by done.
    by rewrite drop_last_comma_app.
  - change (",," +:+ nl) with (String "," (String "," nl)).
    assert (text +:+ String "," (String "," nl)
            = (text +:+ ",") +:+ String "," nl) as ->
      by (by rewrite append_assoc_str).
    rewrite Hkeep by done. rewrite drop_last_comma_app.
    by rewrite append_assoc_str.
  - intros c Hc Hn. rewrite Hkeep by done.
    rewrite drop_last_comma_other by done. by rewrite append_assoc_str.
  - rewrite <- (append_nil_l nl), rstrip_by_app_stripped by done. done.
Qed.

Lemma fix_line_spec_witness :
  all_chars is_newline_char (String "013" (String "010" EmptyString)) = true
  /\ fix_line ("a,b" +:+ "," +:+ String "013" (String "010" EmptyString))
     = "a,b" +:+ String "010" EmptyString.
Proof.
  assert (H : all_chars is_newline_char (String "013" (String "010" EmptyString))
              = true) by reflexivity.
  split; [exact H|].
  exact (proj1 (fix_line_spec "a,b" _ H)).
Defined.

(** ** [score.py]: assignment names from file names *)

Lemma re_search_zybooks_abbreviated d ds kind :
  PyStr.is_digit d = true -> all_chars PyStr.is_digit ds = true ->
  kind = "PA" \/ kind = "IL" \/ kind = "CA" \/ kind = "OL" ->
  re_search match_zybooks ("W" +:+ String d ds +:+ " " +:+ kind) = None.
Proof.
  intros Hd Hds Hk.
  change ("W" +:+ String d ds +:+ " " +:+ kind)
    with (String "W" (String d ds +:+ String " " kind)).
  cbn [re_search]. rewrite append_cons, (match_zybooks_W_digit d _ Hd).
  rewrite <- append_cons. apply re_search_zybooks_digits; [|done].
  by cbn [all_chars]; rewrite Hd, Hds.
Qed.

(** X27: [parse_assignment_filename_short] returns either the stem itself
    or an abbreviated name ["W<digits> <PA|CA|IL|OL>"]; in the second case
    [parse_assignment_filename] returns the same abbreviated name for the
    stem, and the column ordering recognizes it; and parsing the result
    again changes nothing. *)
Theorem parse_assignment_filename_short_spec (stem : string) :
  parse_assignment_stem_short (parse_assignment_stem_short stem)
  = parse_assignment_stem_short stem
  /\ (parse_assignment_stem_short stem = stem
      \/ exists full,
           parse_assignment_stem stem = Some (full, parse_assignment_stem_short stem)
           /\ is_Some (assignment_key (parse_assignment_stem_short stem))).
Proof.
  destruct (re_search match_zybooks stem) as [[[week g2] g3]|] eqn:Hz.
  2: { assert (parse_assignment_stem_short stem = stem) as Hs
         by (unfold parse_assignment_stem_short; by rewrite Hz).
       rewrite !Hs. split; [done|by left]. }
  destruct (dict_lookup filename_type_map
              (PyStr.strip g2 +:+ " " +:+ PyStr.strip g3)) as [kind|] eqn:Hk.
  2: { assert (parse_assignment_stem_short stem = stem) as Hs
         by (unfold parse_assignment_stem_short; by rewrite Hz, Hk).
       rewrite !Hs. split; [done|by left]. }
  assert (Hs : parse_assignment_stem_short stem = "W" +:+ week +:+ " " +:+ kind)
    by (unfold parse_assignment_stem_short; by rewrite Hz, Hk).
  assert (Hp : parse_assignment_stem stem
               = Some ("Week " +:+ week +:+ " " +:+ PyStr.strip g2 +:+ " "
                         +:+ PyStr.strip g3,
                       "W" +:+ week +:+ " " +:+ kind))
    by (unfold parse_assignment_stem; by rewrite Hz, Hk).
  rewrite !Hs, Hp. clear Hs Hp.
  apply re_search_Some in Hz as (t & Ht).
  apply match_zybooks_digits in Ht as (d & ds & -> & Hd & Hds).
  assert (Hkind : kind = "PA" \/ kind = "IL" \/ kind = "CA" \/ kind = "OL").
  { apply filename_type_map_Some in Hk.
    destruct Hk as [[_ ->] | [[_ ->] | [[_ ->] | [_ ->]]]]; tauto. }
  split.
  - unfold parse_assignment_stem_short.
    by rewrite (re_search_zybooks_abbreviated d ds kind Hd Hds Hkind).
  - right. eexists. split; [done|].
    destruct (abbreviated_name_key d ds kind Hd Hds Hkind) as [Hstrip Hma].
    unfold assignment_key. rewrite Hstrip, Hma. by eexists.
Qed.

(** ** [normalize_assignment_name] *)

Section Subsequences.
Variable q : ascii -> bool.






End Subsequences.











(** ** [match_files_between_directories] *)

Lemma dict_set_NoDup {K A} `{EqDecision K} (d : list (K * A)) k v :
  NoDup d.*1 -> NoDup (dict_set d k v).*1.
Proof.
  intros Hnd. rewrite dict_set_keys. case_bool_decide as Hin; [done|].
  apply NoDup_app. split_and!; [done| |apply NoDup_singleton].
  intros x Hx ->%list_elem_of_singleton. done.
Qed.

Lemma elem_of_dict_set {K A} `{EqDecision K} (d : list (K * A)) k v k' v' :
  NoDup d.*1 ->
  (k', v') ∈ dict_set d k v <->
  (k' = k /\ v' = v) \/ (k' <> k /\ (k', v') ∈ d).
Proof.
  induction d as [|[k0 v0] d IH]; intros Hnd.
  - cbn [dict_set]. rewrite list_elem_of_singleton. split.
    + intros [= -> ->]. by left.
    + intros [[-> ->]|[_ H]]; [done|by apply elem_of_nil in H].
  - rewrite fmap_cons in Hnd. apply NoDup_cons in Hnd as [Hk0 Hnd].
    cbn [fst] in Hk0. cbn [dict_set].
    destruct (decide (k0 = k)) as [->|Hne].
    + rewrite !elem_of_cons. split.
      * intros [[= -> ->]|Hin]; [by left|]. right. split; [|by right].
        intros ->. apply Hk0. apply list_elem_of_fmap. by exists (k, v').
      * intros [[-> ->]|[Hk' [[= -> _]|Hin]]]; [by left|done|by right].
    + rewrite !elem_of_cons, (IH Hnd). split.
      * intros [[= -> ->]|[[-> ->]|[Hk' Hin]]].
        -- right. split; [done|by left].
        -- by left.
        -- right. split; [done|by right].
      * intros [[-> ->]|[Hk' [[= -> ->]|Hin]]].
        -- right. by left.
        -- by left.
        -- right. right. done.
Qed.

Lemma dict_lookup_elem_of {A} (d : list (string * A)) k v :
  NoDup d.*1 -> dict_lookup d k = Some v <-> (k, v) ∈ d.
Proof.
  induction d as [|[k0 v0] d IH]; intros Hnd.
  - cbn [dict_lookup]. split; [done|]. by intros H%elem_of_nil.
  - rewrite fmap_cons in Hnd. apply NoDup_cons in Hnd as [Hk0 Hnd].
    cbn [fst] in Hk0. cbn [dict_lookup]. rewrite elem_of_cons.
    destruct (String.eqb_spec k0 k) as [->|Hne].
    + split.
      * intros [= ->]. by left.
      * intros [[= ->]|Hin]; [done|]. destruct Hk0.
        apply list_elem_of_fmap. by exists (k, v).
    + rewrite (IH Hnd). split; [by right|].
      intros [[= -> _]|Hin]; [done|done].
Qed.

Lemma files_by_name_snoc stems x :
  files_by_name (stems ++ [x])
  = dict_set (files_by_name stems) (normalize_assignment_stem x) x.
Proof. unfold files_by_name. by rewrite fold_left_app. Qed.

Lemma files_by_name_spec stems :
  NoDup (files_by_name stems).*1
  /\ forall k f,
       (k, f) ∈ files_by_name stems <->
       normalize_assignment_stem f = k /\ last_with_name stems f.
Proof.
  induction stems as [|x stems [Hnd IH]] using rev_ind.
  - split; [constructor|]. intros k f. split; [by intros H%elem_of_nil|].
    intros (_ & pre & post & H & _). by destruct pre.
  - rewrite files_by_name_snoc. split; [by apply dict_set_NoDup|].
    intros k f. rewrite (elem_of_dict_set _ _ _ _ _ Hnd), IH.
    unfold last_with_name. split.
    + intros [[-> ->]|(Hk & <- & pre & post & -> & Hpost)].
      * split; [done|]. exists stems, []. split; [done|].
        intros y Hy. by apply elem_of_nil in Hy.
      * split; [done|]. exists pre, (post ++ [x]).
        split; [by rewrite <- app_assoc|].
        intros y [Hy | ->%list_elem_of_singleton]%elem_of_app; [by apply Hpost|].
        done.
    + intros (<- & pre & post & Heq & Hpost).
      destruct post as [|y post _] using rev_ind.
      * apply app_inj_tail in Heq as [_ ->]. by left.
      * rewrite app_comm_cons, app_assoc in Heq.
        apply app_inj_tail in Heq as [-> ->]. right. split_and!.
        -- intros Heq. apply (Hpost y); [|done]. apply elem_of_app. right. by left.
        -- done.
        -- exists pre, post. split; [done|]. intros z Hz.
           apply Hpost, elem_of_app. by left.
Qed.

Lemma omap_keys_sublist {A B} (g : string * A -> option B) (key : B -> string)
    (d : list (string * A)) :
  (forall nf b, nf ∈ d -> g nf = Some b -> key b = nf.1) ->
  sublist (key <$> omap g d) d.*1.
Proof.
  intros Hg. induction d as [|nf d IH]; [constructor|].
  cbn [omap list_omap]. rewrite fmap_cons.
  assert (sublist (key <$> omap g d) d.*1) as Hsub.
  { apply IH. intros nf' b Hin. apply Hg. by right. }
  destruct (g nf) as [b|] eqn:Hb.
  - rewrite fmap_cons, (Hg nf b) by (done || by left). by constructor.
  - by constructor.
Qed.

Lemma files_by_name_length stems :
  (length (files_by_name stems) <= length stems)%nat.
Proof.
  induction stems as [|x stems IH] using rev_ind; [done|].
  rewrite files_by_name_snoc, length_app. cbn [length].
  rewrite <- (length_fmap fst (dict_set _ _ _)), dict_set_keys.
  case_bool_decide; rewrite ?length_app, length_fmap; cbn [length]; lia.
Qed.

(** X29: the pairs [match_files_between_directories] returns.  A deadline
    file is paired with a lifted file exactly when the two have the same
    normalized name and each is the last file of its directory, in the
    order the files are found, with that name; the assignment name of the
    pair is the short name of the deadline file.  No two pairs share a
    normalized name, so there are no more pairs than files in either
    directory. *)
Theorem match_files_between_directories_spec
    (deadline_stems lifted_stems : list string) :
  (forall d l name,
     (d, l, name) ∈ match_files_between_directories deadline_stems lifted_stems
     <-> name = parse_assignment_stem_short d
         /\ normalize_assignment_stem d = normalize_assignment_stem l
         /\ last_with_name deadline_stems d
         /\ last_with_name lifted_stems l)
  /\ NoDup ((fun m : string * string * string => normalize_assignment_stem m.1.1)
              <$> match_files_between_directories deadline_stems lifted_stems)
  /\ (length (match_files_between_directories deadline_stems lifted_stems)
      <= length deadline_stems)%nat
     /\ (length (match_files_between_directories deadline_stems lifted_stems)
         <= length lifted_stems)%nat.
Proof.
  destruct (files_by_name_spec deadline_stems) as [Hnd Hd].
  destruct (files_by_name_spec lifted_stems) as [Hnl Hl].
  unfold match_files_between_directories.
  set (g := fun nf : string * string =>
              match dict_lookup (files_by_name lifted_stems) nf.1 with
              | Some lifted_file =>
                  Some (nf.2, lifted_file, parse_assignment_stem_short nf.2)
              | None => None
              end).
  split_and!.
  - intros d l name. rewrite list_elem_of_omap. split.
    + intros ([k f] & Hin & Hg). unfold g in Hg. cbn [fst snd] in Hg.
      destruct (dict_lookup _ k) as [lf|] eqn:Hlk; [|done].
      injection Hg as -> -> <-.
      apply Hd in Hin as [Hk Hlast].
      apply (dict_lookup_elem_of _ _ _ Hnl), Hl in Hlk as [Hk' Hlast'].
      split_and!; [done|congruence|done|done].
    + intros (-> & Heq & Hlast & Hlast').
      exists (normalize_assignment_stem d, d). split; [by apply Hd|].
      unfold g. cbn [fst snd].
      assert (dict_lookup (files_by_name lifted_stems)
                (normalize_assignment_stem d) = Some l) as ->; [|done].
      apply (dict_lookup_elem_of _ _ _ Hnl), Hl. done.
  - assert (Hsub : sublist
              ((fun m : string * string * string => normalize_assignment_stem m.1.1)
                 <$> omap g (files_by_name deadline_stems))
              (files_by_name deadline_stems).*1).
    { apply omap_keys_sublist. intros [k f] b Hin Hb.
      apply Hd in Hin as [Hk _].
      unfold g in Hb. cbn [fst snd] in *.
      destruct (dict_lookup _ k); [|done]. by injection Hb as <-. }
    eapply sublist_NoDup; [exact Hnd|exact Hsub].
  - etransitivity; [|apply files_by_name_length].
    clear. induction (files_by_name deadline_stems) as [|nf d IH]; [done|].
    cbn [omap list_omap]. destruct (g nf); cbn [length]; lia.
  - etransitivity; [|apply (files_by_name_length lifted_stems)].
      rewrite <- (length_fmap
                    (fun m : string * string * string =>
                       normalize_assignment_stem m.1.1)),
        <- (length_fmap fst (files_by_name lifted_stems)).
      apply submseteq_length, NoDup_submseteq.
      * assert (Hsub : sublist
                  ((fun m : string * string * string =>
                      normalize_assignment_stem m.1.1)
                     <$> omap g (files_by_name deadline_stems))
                  (files_by_name deadline_stems).*1).
        { apply omap_keys_sublist. intros [k f] b Hin Hb.
          apply Hd in Hin as [Hk _].
          unfold g in Hb. cbn [fst snd] in *.
          destruct (dict_lookup _ k); [|done]. by injection Hb as <-. }
        eapply sublist_NoDup; [exact Hnd|exact Hsub].
      * intros k ([[d l] name] & -> & Hin)%list_elem_of_fmap.
        apply list_elem_of_omap in Hin as ([k f] & Hin & Hg).
        unfold g in Hg. cbn [fst snd] in Hg.
        destruct (dict_lookup _ k) as [lf|] eqn:Hlk; [|done].
        injection Hg as -> -> <-. cbn [fst].
        apply Hd in Hin as [Hk _]. rewrite Hk.
        apply (dict_lookup_elem_of _ _ _ Hnl) in Hlk.
        apply list_elem_of_fmap. by exists (k, l).
Qed.

Lemma match_files_between_directories_spec_witness :
  ("Week_1_Participation_Activities_report_1", "week_1_participation_activities_lifted",
   "W1 PA")
  ∈ match_files_between_directories
      ["Week_1_Participation_Activities_report_1"]
      ["week_1_participation_activities_lifted"].
Proof.
  apply (proj1 (match_files_between_directories_spec
                  ["Week_1_Participation_Activities_report_1"]
                  ["week_1_participation_activities_lifted"])).
  split_and!.
  - vm_compute; reflexivity.
  - vm_compute; reflexivity.
  - exists [], []. split; [reflexivity|]. intros y Hy. by apply elem_of_nil in Hy.
  - exists [], []. split; [reflexivity|]. intros y Hy. by apply elem_of_nil in Hy.
Defined.

(** * The bookkeeping of a whole run *)

(** ** Merge engine: matched and orphaned keys after the run *)




(** ** Merge engine: id mismatches over a whole run *)

Lemma list_to_map_dict_set {A} (d : list (nat * A)) k v :
  list_to_map (dict_set d k v) =@{gmap nat A} <[k := v]> (list_to_map d).
Proof.
  induction d as [|[k' v'] d IH]; [done|]. cbn [dict_set].
  destruct (decide (k' = k)) as [->|Hne].
  - by rewrite !list_to_map_cons, insert_insert_eq.
  - by rewrite !list_to_map_cons, IH, insert_insert_ne.
Qed.

Lemma fmap_fst_imap_pair {A} (rs : list A) k :
  (imap (fun i r => ((k + i)%nat, r)) rs).*1 = seq k (length rs).
Proof.
  revert k. induction rs as [|r rs IH]; intros k; [done|].
  cbn [imap length seq fmap list_fmap fst]. rewrite Nat.add_0_r. f_equal.
  rewrite <- (IH (S k)). f_equal. apply imap_ext. intros i x _. cbn. f_equal. lia.
Qed.

Lemma iterrows_indices df : (iterrows df).*1 = seq 0 (length (rows df)).
Proof. apply (fmap_fst_imap_pair (rows df) 0). Qed.

Lemma NoDup_iterrows df : NoDup (iterrows df).*1.
Proof. rewrite iterrows_indices. apply NoDup_seq. Qed.

Section MasterDetails.
Variables (master_df lecture_df : DataFrame).

Let mid := found (find_student_id_column master_df).
Let memail := found (find_email_column master_df).
Let lid := found (find_student_id_column lecture_df).
Let step :=
  merge_master_row master_df mid memail lid
    (master_lecture_maps lecture_df).1 (master_lecture_maps lecture_df).2.
Let kept (frame : DataFrame) :=
  master_frame_kept master_df (fun _ => True) (fun _ => False) frame lecture_df.
Let like := record_like (id_column_free master_df lecture_df).
Let details (st : MasterState) : gmap nat IdMismatch :=
  list_to_map (ms_failed_id_match_details st).

(** the record stored at one step *)
Lemma merge_master_row_details st ir :
  ms_failed_id_match_details (step st ir)
  = match fallback_record_at master_df lecture_df (ms_lecture_df st) ir.2 with
    | Some record => dict_set (ms_failed_id_match_details st) ir.1 record
    | None => ms_failed_id_match_details st
    end.
Proof.
  destruct ir as [i row].
  unfold step, merge_master_row, fallback_record_at, master_row_ids.
  fold mid memail lid. cbn [fst snd].
  destruct (find_lecture_row _ _ _) as [[j m]|]; [|done].
  match goal with
  | |- context [fold_left ?f ?cols ?s] =>
      destruct (fold_transfer_grade_frame
                  (find_student_id_column master_df)
                  (find_email_column master_df) row j cols s)
        as (_ & _ & _ & _ & -> & _)
  end.
  cbn [ms_failed_id_match_details ms_lecture_df].
  destruct m; [done|].
  destruct (master_ids mid memail row).1 as [sid|]; [|done].
  by destruct (PyStr.truthy sid).
Qed.

(** the record does not depend on the state of the frame, up to the id of
    the lecture row *)
Lemma fallback_record_at_like frame row :
  kept frame ->
  match fallback_record_at master_df lecture_df frame row,
        fallback_record master_df lecture_df row with
  | Some record, Some record0 => like record0 record
  | None, None => True
  | _, _ => False
  end.
Proof.
  intros (_ & _ & _ & _ & K5 & _).
  unfold fallback_record, fallback_record_at.
  destruct (find_lecture_row _ _ _) as [[j []]|]; [done| |done].
  destruct (master_row_ids master_df row).1 as [sid|]; [|done].
  destruct (PyStr.truthy sid); [|done].
  unfold like, record_like. cbn [mm_student_name mm_email mm_apparent_id].
  split_and!; [done|done|done|]. intros Hfree. f_equal.
  unfold matched_lecture_id. fold lid.
  destruct lid as [c|] eqn:Hc; [|done].
  rewrite (K5 j c); [done| |by apply Hfree].
  by apply (found_in_columns id_col_matches).
Qed.

Lemma merge_master_row_frame_kept st ir :
  kept (ms_lecture_df st) -> kept (ms_lecture_df (step st ir)).
Proof.
  intros Hk. eapply master_frame_kept_trans; [exact Hk|].
  apply merge_master_row_kept. done.
Qed.

Lemma fold_master_rows_details irs st :
  NoDup irs.*1 -> kept (ms_lecture_df st) ->
  forall i,
    match details (fold_left step irs st) !! i with
    | Some record =>
        (exists row record0,
           (i, row) ∈ irs
           /\ fallback_record master_df lecture_df row = Some record0
           /\ like record0 record)
        \/ (details st !! i = Some record
            /\ forall row, (i, row) ∈ irs ->
                 fallback_record master_df lecture_df row = None)
    | None =>
        details st !! i = None
        /\ forall row, (i, row) ∈ irs ->
             fallback_record master_df lecture_df row = None
    end.
Proof.
  revert st. induction irs as [|[i0 row0] irs IH]; intros st Hnd Hk i.
  - cbn [fold_left]. destruct (details st !! i) as [record|] eqn:Hd.
    + right. split; [done|]. intros row Hin. by apply elem_of_nil in Hin.
    + split; [done|]. intros row Hin. by apply elem_of_nil in Hin.
  - rewrite fmap_cons in Hnd. apply NoDup_cons in Hnd as [Hi0 Hnd].
    cbn [fst] in Hi0. cbn [fold_left].
    specialize (IH (step st (i0, row0)) Hnd
                  (merge_master_row_frame_kept st (i0, row0) Hk) i).
    assert (Hfresh : forall row, (i0, row) ∉ irs).
    { intros row Hin. apply Hi0. apply list_elem_of_fmap. by exists (i0, row). }
    assert (Hstep : details (step st (i0, row0))
                    = match fallback_record_at master_df lecture_df
                              (ms_lecture_df st) row0 with
                      | Some record => <[i0 := record]> (details st)
                      | None => details st
                      end).
    { unfold details. rewrite merge_master_row_details. cbn [fst snd].
      destruct (fallback_record_at _ _ _ _); [|done].
      apply list_to_map_dict_set. }
    pose proof (fallback_record_at_like (ms_lecture_df st) row0 Hk) as Hlike.
    destruct (details (fold_left step irs (step st (i0, row0))) !! i)
      as [record|] eqn:Hd.
    + destruct IH as [(row & record0 & Hin & Hf & Hl)|[Hprev Hnone]].
      * left. exists row, record0. split; [by right|done].
      * rewrite Hstep in Hprev.
        destruct (fallback_record_at _ _ _ row0) as [r0|] eqn:Hr0.
        -- destruct (fallback_record master_df lecture_df row0) as [r00|] eqn:Hr00;
             [|done].
           destruct (decide (i = i0)) as [->|Hne].
           ++ rewrite lookup_insert_eq in Hprev. injection Hprev as <-.
              left. exists row0, r00. split; [by left|done].
           ++ rewrite lookup_insert_ne in Hprev by done.
              right. split; [done|]. intros row [[= ? ?]|Hin]%elem_of_cons;
                [done|by apply Hnone].
        -- destruct (fallback_record master_df lecture_df row0) as [r00|] eqn:Hr00;
             [done|].
           right. split; [done|].
           intros row [[= -> ->]|Hin]%elem_of_cons; [done|by apply Hnone].
    + destruct IH as [Hprev Hnone]. rewrite Hstep in Hprev.
      destruct (fallback_record_at _ _ _ row0) as [r0|] eqn:Hr0.
      * destruct (decide (i = i0)) as [->|Hne].
        -- by rewrite lookup_insert_eq in Hprev.
        -- rewrite lookup_insert_ne in Hprev by done. split; [done|].
           intros row [[= ? ?]|Hin]%elem_of_cons; [done|by apply Hnone].
      * destruct (fallback_record master_df lecture_df row0) as [r00|] eqn:Hr00;
          [done|].
        split; [done|].
        intros row [[= -> ->]|Hin]%elem_of_cons; [done|by apply Hnone].
Qed.

Lemma fold_master_rows_details_NoDup irs st :
  NoDup (ms_failed_id_match_details st).*1 ->
  NoDup (ms_failed_id_match_details (fold_left step irs st)).*1.
Proof.
  revert st. induction irs as [|ir irs IH]; intros st Hnd; [done|].
  cbn [fold_left]. apply IH. rewrite merge_master_row_details.
  destruct (fallback_record_at _ _ _ _); [|done]. by apply dict_set_NoDup.
Qed.
End MasterDetails.

Lemma merge_master_rows_details master_df lecture_df st i :
  match (list_to_map (ms_failed_id_match_details
                        (merge_master_rows master_df lecture_df st))
         : gmap nat IdMismatch) !! i with
  | Some record =>
      (exists row record0,
         rows master_df !! i = Some row
         /\ fallback_record master_df lecture_df row = Some record0
         /\ record_like (id_column_free master_df lecture_df) record0 record)
      \/ ((list_to_map (ms_failed_id_match_details st) : gmap nat IdMismatch) !! i
          = Some record
          /\ forall row, rows master_df !! i = Some row ->
               fallback_record master_df lecture_df row = None)
  | None =>
      (list_to_map (ms_failed_id_match_details st) : gmap nat IdMismatch) !! i = None
      /\ forall row, rows master_df !! i = Some row ->
           fallback_record master_df lecture_df row = None
  end.
Proof.
  unfold merge_master_rows.
  match goal with
  | |- context [fold_left ?f ?irs ?s] =>
      pose proof (fold_master_rows_details master_df lecture_df irs s
                    (NoDup_iterrows master_df)) as H
  end.
  cbn [ms_lecture_df ms_failed_id_match_details] in H.
  specialize (H (master_frame_kept_refl _ _ _ _) i).
  assert (Hin : forall row, (i, row) ∈ iterrows master_df
                            <-> rows master_df !! i = Some row).
  { intros row. apply (elem_of_iterrows master_df (i, row)). }
  match type of H with
  | match ?x with _ => _ end =>
      match goal with |- match ?y with _ => _ end => change y with x end;
      destruct x as [record|]
  end.
  - destruct H as [(row & record0 & Hr & Hf & Hl)|[Hp Hn]].
    + left. exists row, record0. split; [by apply Hin|done].
    + right. split; [done|]. intros row Hr. apply Hn. by apply Hin.
  - destruct H as [Hp Hn]. split; [done|]. intros row Hr. apply Hn. by apply Hin.
Qed.

Lemma merge_master_rows_details_NoDup master_df lecture_df st :
  NoDup (ms_failed_id_match_details st).*1 ->
  NoDup (ms_failed_id_match_details (merge_master_rows master_df lecture_df st)).*1.
Proof.
  intros Hnd. unfold merge_master_rows.
  by apply fold_master_rows_details_NoDup.
Qed.

Lemma last_fallback_record_app master_df ls l row :
  last_fallback_record master_df (ls ++ [l]) row
  = if master_lecture_unusable l.2 then last_fallback_record master_df ls row
    else match fallback_record master_df l.2 row with
         | Some record => Some record
         | None => last_fallback_record master_df ls row
         end.
Proof. unfold last_fallback_record. by rewrite fold_left_app. Qed.

(** the records after the loop over the lecture frames *)
Lemma fold_master_lectures_details master_df (free : Prop) ls :
  (forall l, l ∈ ls -> master_lecture_unusable l.2 = false -> free ->
     id_column_free master_df l.2) ->
  let st :=
    ma_state (fold_left (merge_master_lecture master_df) ls
                (mkMAcc [] [] initial_master_state)) in
  NoDup (ms_failed_id_match_details st).*1
  /\ forall i,
       match (list_to_map (ms_failed_id_match_details st) : gmap nat IdMismatch) !! i,
             rows master_df !! i ≫= last_fallback_record master_df ls with
       | Some record, Some record0 => record_like free record0 record
       | None, None => True
       | _, _ => False
       end.
Proof.
  induction ls as [|[n ldf] ls IH] using rev_ind; intros Hfree st.
  - subst st. cbn. split; [constructor|]. intros i.
    rewrite lookup_empty. by destruct (rows master_df !! i).
  - destruct IH as [IHnd IH].
    { intros l Hl. apply Hfree. apply elem_of_app. by left. }
    subst st. rewrite fold_left_app. cbn [fold_left].
    set (acc := fold_left (merge_master_lecture master_df) ls
                  (mkMAcc [] [] initial_master_state)) in *.
    unfold merge_master_lecture.
    destruct (master_lecture_unusable ldf) eqn:Hu.
    + split; [done|]. intros i. specialize (IH i).
      destruct (rows master_df !! i) as [row|]; cbn [mbind option_bind] in *;
        [|exact IH].
      rewrite last_fallback_record_app. cbn [snd]. by rewrite Hu.
    + cbn [ma_state]. split; [by apply merge_master_rows_details_NoDup|].
      intros i. specialize (IH i).
      pose proof (merge_master_rows_details master_df ldf (ma_state acc) i) as Hrows.
      assert (Hlike : forall record0 record,
                record_like (id_column_free master_df ldf) record0 record ->
                record_like free record0 record).
      { intros record0 record (L1 & L2 & L3 & L4). split_and!; [done|done|done|].
        intros Hf. apply L4. apply (Hfree (n, ldf)); [|done|done].
        apply elem_of_app. right. by apply list_elem_of_singleton. }
      destruct ((list_to_map
                   (ms_failed_id_match_details
                      (merge_master_rows master_df ldf (ma_state acc)))
                 : gmap nat IdMismatch) !! i) as [record|] eqn:Hd.
      * destruct Hrows as [(row & record0 & Hr & Hf & Hl)|[Hp Hn]].
        -- rewrite Hr. cbn [mbind option_bind].
           rewrite last_fallback_record_app. cbn [snd]. rewrite Hu, Hf. by apply Hlike.
        -- rewrite Hp in IH.
           destruct (rows master_df !! i) as [row|] eqn:Hr;
             cbn [mbind option_bind] in *; [|done].
           rewrite last_fallback_record_app. cbn [snd].
           by rewrite Hu, (Hn row eq_refl).
      * destruct Hrows as [Hp Hn]. rewrite Hp in IH.
        destruct (rows master_df !! i) as [row|] eqn:Hr;
          cbn [mbind option_bind] in *; [|done].
        rewrite last_fallback_record_app. cbn [snd].
        by rewrite Hu, (Hn row eq_refl).
Qed.

Lemma omap_iterrows_keys {A} (f : gmap string Cell -> option A) rs k :
  (omap (fun ir => (fun x => (ir.1, x)) <$> f ir.2)
     (imap (fun i r => ((k + i)%nat, r)) rs)).*1
  = (List.filter (fun ir : nat * gmap string Cell => bool_decide (is_Some (f ir.2)))
       (imap (fun i r => ((k + i)%nat, r)) rs)).*1
  /\ (omap (fun ir => (fun x => (ir.1, x)) <$> f ir.2)
        (imap (fun i r => ((k + i)%nat, r)) rs)).*2
     = omap f rs
  /\ length (List.filter
               (fun ir : nat * gmap string Cell => bool_decide (is_Some (f ir.2)))
               (imap (fun i r => ((k + i)%nat, r)) rs))
     = count_if (fun r => bool_decide (is_Some (f r))) rs.
Proof.
  revert k. induction rs as [|r rs IH]; intros k; [done|].
  cbn [imap omap list_omap List.filter fst snd].
  assert (Hext : imap ((fun i r0 => ((k + i)%nat, r0)) ∘ S) rs
                 = imap (fun i r0 => ((S k + i)%nat, r0)) rs).
  { apply imap_ext. intros i x _. cbn. f_equal. lia. }
  rewrite Hext. destruct (IH (S k)) as (I1 & I2 & I3).
  rewrite count_if_cons.
  cbn [Nat.add] in I1, I2, I3.
  destruct (f r) as [x|] eqn:Hf; csimpl.
  - rewrite ?bool_decide_eq_true_2 by eauto. csimpl.
    rewrite I1, I2, I3. done.
  - rewrite ?bool_decide_eq_false_2 by (by intros [? ?]). by rewrite I3.
Qed.

Lemma elem_of_omap_iterrows {A} (f : gmap string Cell -> option A) df i x :
  (i, x) ∈ omap (fun ir => (fun x => (ir.1, x)) <$> f ir.2) (iterrows df)
  <-> rows df !! i ≫= f = Some x.
Proof.
  rewrite list_elem_of_omap. split.
  - intros ([i' row] & Hin & Hg). apply elem_of_iterrows in Hin.
    cbn [fst snd] in *. destruct (f row) as [y|] eqn:Hf; [|done].
    cbn in Hg. injection Hg as -> ->. by rewrite Hin.
  - destruct (rows df !! i) as [row|] eqn:Hr; [|done]. cbn [mbind option_bind].
    intros Hf. exists (i, row). split; [by apply elem_of_iterrows|].
    cbn [fst snd]. by rewrite Hf.
Qed.

(** the report of id mismatches of [merge_grades_from_master] *)
Lemma master_failed_id_match_rows lecture_data master_df res :
  merge_grades_from_master lecture_data master_df = Some res ->
  length (mr_failed_id_match_rows res)
  = count_if
      (fun row => bool_decide
                    (is_Some (last_fallback_record master_df lecture_data row)))
      (rows master_df)
  /\ ((forall l, l ∈ lecture_data -> master_lecture_unusable l.2 = false ->
         id_column_free master_df l.2) ->
      mr_failed_id_match_rows res
      ≡ₚ omap (last_fallback_record master_df lecture_data) (rows master_df)).
Proof.
  unfold merge_grades_from_master. destruct (_ && _); [done|]. intros [= <-].
  cbn [mr_failed_id_match_rows].
  set (st := ma_state (fold_left (merge_master_lecture master_df) lecture_data
                         (mkMAcc [] [] initial_master_state))).
  set (lfr := last_fallback_record master_df lecture_data).
  set (D := ms_failed_id_match_details st).
  set (g := fun ir : nat * gmap string Cell => (fun x => (ir.1, x)) <$> lfr ir.2).
  destruct (omap_iterrows_keys lfr (rows master_df) 0) as (K1 & K2 & K3).
  change (imap (fun i r => ((0 + i)%nat, r)) (rows master_df))
    with (iterrows master_df) in K1, K2, K3.
  fold g in K1, K2.
  assert (HndK : NoDup (omap g (iterrows master_df)).*1).
  { rewrite K1. eapply sublist_NoDup; [apply NoDup_iterrows|].
    apply fmap_sublist, sublist_List_filter. }
  split.
  - destruct (fold_master_lectures_details master_df False lecture_data)
      as [Hnd Hspec]; [done|]. fold st D in Hnd, Hspec.
    rewrite length_fmap, <- (length_fmap fst D), <- K3.
    rewrite <- (length_fmap fst (List.filter _ _)), <- K1.
    apply Permutation_length, NoDup_Permutation; [done|done|].
    intros i. specialize (Hspec i). fold lfr in Hspec. split.
    + intros Hin. destruct (list_to_map D !! i) as [record|] eqn:Hd.
      * destruct (rows master_df !! i ≫= lfr) as [record0|] eqn:Hl; [|done].
        apply list_elem_of_fmap. exists (i, record0). split; [done|].
        by apply elem_of_omap_iterrows.
      * apply not_elem_of_list_to_map in Hd. done.
    + intros ([i' x] & Heq & Hin)%list_elem_of_fmap. cbn [fst] in Heq. subst i'.
      apply elem_of_omap_iterrows in Hin. rewrite Hin in Hspec.
      destruct (list_to_map D !! i) as [record|] eqn:Hd; [|done].
      apply elem_of_list_to_map_2 in Hd. apply list_elem_of_fmap.
      by exists (i, record).
  - intros Hfree.
    destruct (fold_master_lectures_details master_df True lecture_data)
      as [Hnd Hspec]. { intros l Hl Hu _. by apply Hfree. }
    fold st D in Hnd, Hspec.
    rewrite <- K2. apply fmap_Permutation.
    apply NoDup_Permutation.
    + by apply (NoDup_fmap_1 fst).
    + by apply (NoDup_fmap_1 fst).
    + intros [i record]. unfold g. rewrite elem_of_omap_iterrows.
      rewrite (elem_of_list_to_map D i record Hnd).
      specialize (Hspec i). fold lfr in Hspec. split.
      * intros Hd. rewrite Hd in Hspec.
        destruct (rows master_df !! i ≫= lfr) as [record0|]; [|done].
        destruct Hspec as (_ & _ & _ & ->); done.
      * intros Hl. rewrite Hl in Hspec.
        destruct (list_to_map D !! i) as [record1|]; [|done].
        destruct Hspec as (_ & _ & _ & ->); done.
Qed.

Section AssignMismatch.
Variables (abbrev_name assign_id_col grade_col : string).
Variables (assign_email_col lec_id_col : option string).
Variables (student_map username_map : gmap string nat).
Variable (lecture_df : DataFrame).

Let step :=
  merge_assign_row abbrev_name assign_id_col grade_col assign_email_col
    lec_id_col student_map username_map.
Let rows_of (r : gmap string Cell) : list (gmap string Cell) :=
  match find_lecture_row student_map username_map
          (assign_ids assign_id_col assign_email_col r) with
  | Some (j, ByEmail) =>
      id_mismatch_row lecture_df lec_id_col j
        (assign_ids assign_id_col assign_email_col r).1 r
  | _ => []
  end.

Lemma id_mismatch_row_frame frame j sid row :
  (forall c, lec_id_col = Some c -> df_at frame j c = df_at lecture_df j c) ->
  id_mismatch_row frame lec_id_col j sid row
  = id_mismatch_row lecture_df lec_id_col j sid row.
Proof.
  intros Hc. unfold id_mismatch_row. destruct lec_id_col as [c|]; [|done].
  by rewrite (Hc c eq_refl).
Qed.

Lemma merge_assign_row_failed st r :
  (forall j c, lec_id_col = Some c ->
     df_at (ls_lecture_df st) j c = df_at lecture_df j c) ->
  ls_failed_id_matches (step st r) = ls_failed_id_matches st ++ rows_of r
  /\ res_failed_id_match_rows (ls_results (step st r))
     = res_failed_id_match_rows (ls_results st).
Proof.
  intros Hc. unfold step, merge_assign_row, rows_of.
  destruct (find_lecture_row _ _ _) as [[j m]|]; [|by rewrite app_nil_r].
  rewrite (id_mismatch_row_frame (ls_lecture_df st) j) by (intros c; apply Hc).
  destruct (_ || _); destruct m;
    cbn [ls_failed_id_matches ls_results record_match res_failed_id_match_rows];
    by rewrite ?app_nil_r.
Qed.

Lemma fold_assign_rows_failed rs st :
  lec_id_col <> Some abbrev_name ->
  (forall j c, c <> abbrev_name ->
     df_at (ls_lecture_df st) j c = df_at lecture_df j c) ->
  ls_failed_id_matches (fold_left step rs st)
  = ls_failed_id_matches st ++ flat_map rows_of rs
  /\ res_failed_id_match_rows (ls_results (fold_left step rs st))
     = res_failed_id_match_rows (ls_results st).
Proof.
  intros Hid. revert st. induction rs as [|r rs IH]; intros st Hframe.
  - cbn [fold_left flat_map]. by rewrite app_nil_r.
  - cbn [fold_left flat_map].
    destruct (merge_assign_row_failed st r) as [H1 H2].
    { intros j c Hc. apply Hframe. intros ->. by apply Hid. }
    destruct (IH (step st r)) as [I1 I2].
    { intros j c Hc. rewrite <- (Hframe j c Hc).
      pose proof (fold_assign_rows_shape abbrev_name assign_id_col grade_col
                    assign_email_col lec_id_col student_map username_map [r] st)
        as (_ & _ & Ha).
      by apply Ha. }
    by rewrite I1, I2, H1, H2, app_assoc.
Qed.
End AssignMismatch.

(** the rows one lecture frame adds to the report of
    [merge_grades_from_assignments] *)
Lemma merge_into_lecture_failed abbrev_name assign_id_col grade_col
    assign_email_col assignment_df acc lecture_name lecture_df :
  lecture_unusable lecture_df = false ->
  found (find_student_id_column lecture_df) <> Some abbrev_name ->
  res_failed_id_match_rows
    (as_results
       (merge_into_lecture abbrev_name assign_id_col grade_col assign_email_col
          assignment_df acc (lecture_name, lecture_df)))
  = res_failed_id_match_rows (as_results acc)
    ++ id_mismatch_rows assign_id_col assign_email_col assignment_df lecture_df.
Proof.
  intros Hu Hid. unfold merge_into_lecture. rewrite Hu.
  cbn [as_results finish_lecture res_failed_id_match_rows].
  rewrite merge_rows_unfold.
  destruct (ensure_column_frame abbrev_name lecture_df (as_results acc))
    as (_ & _ & Ea & _).
  match goal with
  | |- context [fold_left ?f ?rs ?st] =>
      destruct (fold_assign_rows_failed abbrev_name assign_id_col grade_col
                  assign_email_col (found (find_student_id_column lecture_df))
                  (lecture_maps lecture_df).1 (lecture_maps lecture_df).2
                  lecture_df rs st Hid) as [H1 H2]
  end.
  { cbn [ls_lecture_df]. exact Ea. }
  cbn [ls_failed_id_matches ls_results app] in H1, H2.
  rewrite H1, H2. f_equal.
  unfold ensure_column. by destruct (bool_decide _).
Qed.

(** which rows they are *)
Lemma elem_of_id_mismatch_rows assign_id_col assign_email_col assignment_df
    lecture_df row :
  row ∈ id_mismatch_rows assign_id_col assign_email_col assignment_df lecture_df
  <-> row ∈ rows assignment_df
      /\ exists j c sid d,
           lecture_hit assign_id_col assign_email_col lecture_df row
           = Some (j, ByEmail)
           /\ found (find_student_id_column lecture_df) = Some c
           /\ normalize_student_id (row_get row assign_id_col) = Some sid
           /\ PyStr.truthy sid = true
           /\ normalize_student_id (df_at lecture_df j c) = Some d
           /\ PyStr.truthy d = true
           /\ sid <> d.
Proof.
  unfold id_mismatch_rows. rewrite list_elem_of_In, in_flat_map.
  assert (Hrow : forall row' : gmap string Cell,
            In row
              match lecture_hit assign_id_col assign_email_col lecture_df row' with
              | Some (j, ByEmail) =>
                  id_mismatch_row lecture_df
                    (found (find_student_id_column lecture_df)) j
                    (assign_ids assign_id_col assign_email_col row').1 row'
              | _ => []
              end
            <-> row' = row
                /\ exists j c sid d,
                     lecture_hit assign_id_col assign_email_col lecture_df row
                     = Some (j, ByEmail)
                     /\ found (find_student_id_column lecture_df) = Some c
                     /\ normalize_student_id (row_get row assign_id_col) = Some sid
                     /\ PyStr.truthy sid = true
                     /\ normalize_student_id (df_at lecture_df j c) = Some d
                     /\ PyStr.truthy d = true
                     /\ sid <> d).
  { intros row'. split.
    - destruct (lecture_hit _ _ _ row') as [[j []]|] eqn:Hh; [done| |done].
      unfold id_mismatch_row, assign_ids. cbn [fst].
      destruct (found (find_student_id_column lecture_df)) as [c|] eqn:Hc; [|done].
      destruct (normalize_student_id (row_get row' assign_id_col)) as [sid|] eqn:Hs;
        [|done].
      cbn [truthy_opt]. destruct (PyStr.truthy sid) eqn:Ht; [|done].
      destruct (normalize_student_id (df_at lecture_df j c)) as [d|] eqn:Hd;
        [|done].
      cbn [truthy_opt]. destruct (PyStr.truthy d) eqn:Htd; [|done].
      cbn [andb]. case_bool_decide as Hne; [done|]. cbn [negb].
      intros [<-|[]]. split; [done|]. exists j, c, sid, d.
      split_and!; try done. congruence.
    - intros (-> & j & c & sid & d & Hh & Hc & Hs & Ht & Hd & Htd & Hne).
      rewrite Hh. unfold id_mismatch_row, assign_ids. cbn [fst].
      rewrite Hc, Hs, Hd. cbn [truthy_opt]. rewrite Ht, Htd. cbn [andb].
      rewrite bool_decide_eq_false_2 by congruence. by left. }
  split.
  - intros (row' & Hin & Hr). apply Hrow in Hr as [-> Hr].
    split; [by apply list_elem_of_In|done].
  - intros [Hin Hr]. exists row. split; [by apply list_elem_of_In|].
    apply Hrow. done.
Qed.

Lemma username_match_has_key assign_id_col assign_email_col student_map
    username_map row j :
  find_lecture_row student_map username_map
    (assign_ids assign_id_col assign_email_col row) = Some (j, ByEmail) ->
  exists k,
    student_key_of (assign_ids assign_id_col assign_email_col row) = Some k
    /\ PyStr.truthy k = true.
Proof.
  unfold find_lecture_row, student_key_of, py_or.
  set (ids := assign_ids assign_id_col assign_email_col row).
  destruct (dict_find student_map ids.1); [done|].
  destruct (dict_find username_map ids.2) as [i|] eqn:Hu; [|done]. intros _.
  destruct ids.2 as [u|]; [|done]. cbn [dict_find] in Hu.
  destruct (PyStr.truthy u) eqn:Htu; [|done].
  destruct ids.1 as [sid|]; cbn [truthy_opt].
  - destruct (PyStr.truthy sid) eqn:Hts; [by exists sid|by exists u].
  - by exists u.
Qed.

Lemma fallback_record_Some master_df lecture_df row record :
  fallback_record master_df lecture_df row = Some record <->
  exists j sid,
    find_lecture_row (master_lecture_maps lecture_df).1
      (master_lecture_maps lecture_df).2 (master_row_ids master_df row)
    = Some (j, ByEmail)
    /\ (master_row_ids master_df row).1 = Some sid
    /\ PyStr.truthy sid = true
    /\ record
       = mkMismatch (master_name (columns master_df) row)
           (match found (find_email_column master_df) with
            | Some c => row_get row c
            | None => CNone
            end)
           sid
           (matched_lecture_id lecture_df
              (found (find_student_id_column lecture_df)) j).
Proof.
  unfold fallback_record, fallback_record_at. split.
  - destruct (find_lecture_row _ _ _) as [[j []]|]; [done| |done].
    destruct (master_row_ids master_df row).1 as [sid|]; [|done].
    destruct (PyStr.truthy sid) eqn:Ht; [|done]. intros [= <-].
    by exists j, sid.
  - intros (j & sid & -> & -> & -> & ->). done.
Qed.

(** C4 (amended): a source row whose id is not in the destination index but
    whose username is, is matched by username: its key is in the matched
    set and its row is not reported as orphaned.

    In [merge_grades_from_master], when such a row carries an id, a record
    is stored for the row, with the student name, the email, the source id
    and the id of the destination row.  The records are kept by source row:
    the report has one record for each source row that was so matched in
    some usable destination table, and it is the record of the last such
    table; for destination tables whose id column receives no grade, the
    report is, up to order, exactly these records, each with the id the
    destination table holds.

    In [merge_grades_from_assignments] each destination table with an id
    column adds to the report the source rows matched by username whose
    non-empty id differs from the non-empty id of the destination row, once
    each and in the order of the source table; the record is the source row
    itself. *)
Theorem id_mismatch_recorded_on_username_fallback :
  (forall abbrev_name assign_id_col grade_col assign_email_col assignment_df,
     let key row :=
       student_key_of (assign_ids assign_id_col assign_email_col row) in
     (forall acc lecture_name lecture_df,
        lecture_unusable lecture_df = false ->
        found (find_student_id_column lecture_df) <> Some abbrev_name ->
        res_failed_id_match_rows
          (as_results
             (merge_into_lecture abbrev_name assign_id_col grade_col
                assign_email_col assignment_df acc (lecture_name, lecture_df)))
        = res_failed_id_match_rows (as_results acc)
          ++ id_mismatch_rows assign_id_col assign_email_col assignment_df
               lecture_df)
     /\ (forall lecture_df row,
           row ∈ id_mismatch_rows assign_id_col assign_email_col assignment_df
                   lecture_df
           <-> row ∈ rows assignment_df
               /\ exists j c sid d,
                    lecture_hit assign_id_col assign_email_col lecture_df row
                    = Some (j, ByEmail)
                    /\ found (find_student_id_column lecture_df) = Some c
                    /\ normalize_student_id (row_get row assign_id_col) = Some sid
                    /\ PyStr.truthy sid = true
                    /\ normalize_student_id (df_at lecture_df j c) = Some d
                    /\ PyStr.truthy d = true
                    /\ sid <> d)
     /\ (forall lecture_dfs r l row j,
           l ∈ lecture_dfs -> lecture_unusable l.2 = false ->
           row ∈ rows assignment_df ->
           lecture_hit assign_id_col assign_email_col l.2 row = Some (j, ByEmail) ->
           let final :=
             after_lectures abbrev_name assign_id_col grade_col assign_email_col
               assignment_df lecture_dfs r in
           exists k,
             key row = Some k
             /\ k ∈ as_students_matched_this_assignment final
             /\ (k ∉ orphaned_students final)
             /\ (row ∉ orphaned_rows_of assign_id_col assign_email_col
                         assignment_df (orphaned_students final))))
  /\ (forall lecture_data master_df res,
        merge_grades_from_master lecture_data master_df = Some res ->
        length (mr_failed_id_match_rows res)
        = count_if
            (fun row =>
               bool_decide
                 (is_Some (last_fallback_record master_df lecture_data row)))
            (rows master_df)
        /\ ((forall l, l ∈ lecture_data -> master_lecture_unusable l.2 = false ->
               id_column_free master_df l.2) ->
            mr_failed_id_match_rows res
            ≡ₚ omap (last_fallback_record master_df lecture_data) (rows master_df))
        /\ (forall lecture_df row record,
              fallback_record master_df lecture_df row = Some record <->
              exists j sid,
                find_lecture_row (master_lecture_maps lecture_df).1
                  (master_lecture_maps lecture_df).2 (master_row_ids master_df row)
                = Some (j, ByEmail)
                /\ (master_row_ids master_df row).1 = Some sid
                /\ PyStr.truthy sid = true
                /\ record
                   = mkMismatch (master_name (columns master_df) row)
                       (match found (find_email_column master_df) with
                        | Some c => row_get row c
                        | None => CNone
                        end)
                       sid
                       (matched_lecture_id lecture_df
                          (found (find_student_id_column lecture_df)) j))
        /\ (forall lecture_df c j,
              found (find_student_id_column lecture_df) = Some c ->
              Cell.truthy (df_at lecture_df j c) = true ->
              matched_lecture_id lecture_df
                (found (find_student_id_column lecture_df)) j
              = normalize_student_id (df_at lecture_df j c))
        /\ (forall l row j,
              l ∈ lecture_data -> master_lecture_unusable l.2 = false ->
              row ∈ rows master_df ->
              find_lecture_row (master_lecture_maps l.2).1
                (master_lecture_maps l.2).2 (master_row_ids master_df row)
              = Some (j, ByEmail) ->
              identifier_of (master_row_ids master_df row)
              ∈ mr_matched_students res
              /\ (row ∉ mr_orphaned_rows res)))
  /\ ((fun res => (mr_failed_id_match_rows res, mr_by_email res, mr_by_id res,
                   mr_students_not_found res, length (mr_orphaned_rows res)))
        <$> merge_grades_from_master [("lecture.csv", lecture_ab)] master_999
      = Some ([mkMismatch "Liddell, Alice" (CStr "alice@x.edu") "999" (Some "111")],
              1%nat, 0%nat, [], 0%nat))
  /\ ((fun res => (mr_failed_id_match_rows res, mr_by_email res, mr_by_id res))
        <$> merge_grades_from_master
              [("a.csv", lecture_ab); ("c.csv", lecture_c)] master_999
      = Some ([mkMismatch "Liddell, Alice" (CStr "alice@x.edu") "999" (Some "333")],
              2%nat, 0%nat))
  /\ (let res :=
        merge_grades_from_assignments [("lecture.csv", lecture_ab)]
          [("W1 PA", assignment_999)] in
      length (res_failed_id_match_rows res) = 1%nat
      /\ res_by_email res = 1%nat /\ res_by_id res = 0%nat
      /\ length (res_orphaned_rows res) = 0%nat)
  /\ length (res_failed_id_match_rows
               (merge_grades_from_assignments
                  [("a.csv", lecture_ab); ("c.csv", lecture_c)]
                  [("W1 PA", assignment_999)])) = 2%nat.
Proof.
  split_and!.
  - intros abbrev_name assign_id_col grade_col assign_email_col assignment_df key.
    split_and!.
    + intros acc lecture_name lecture_df. apply merge_into_lecture_failed.
    + intros lecture_df row. apply elem_of_id_mismatch_rows.
    + intros lecture_dfs r l row j Hl Hu Hrow Hhit final.
      destruct (username_match_has_key _ _ _ _ _ _ Hhit) as (k & Hk & Ht).
      assert (Hm : k ∈ as_students_matched_this_assignment final).
      { unfold final, after_lectures. apply fold_lectures_matched. right.
        exists l, row. unfold lecture_hit in Hhit. rewrite Hhit.
        split_and!; first [done|by eexists]. }
      assert (Ho : k ∉ orphaned_students final).
      { unfold orphaned_students. intros [_ Hn]%elem_of_difference. done. }
      exists k. split_and!; [done|done|done|].
      unfold orphaned_rows_of. intros Hin%list_elem_of_In.
      apply filter_In in Hin as [_ Hin]. fold (key row) in Hin. unfold key in Hin.
      rewrite Hk in Hin. apply andb_prop in Hin as [_ Hin].
      by apply bool_decide_eq_true in Hin.
  - intros lecture_data master_df res Hres.
    destruct (master_failed_id_match_rows _ _ _ Hres) as [H1 H2].
    split_and!; [exact H1|exact H2| | |].
    + intros lecture_df row record. apply fallback_record_Some.
    + intros lecture_df c j -> Htr. by apply matched_lecture_id_actual.
    + intros l row j Hl Hu Hrow Hhit.
      pose proof (master_orphaned_rows_eq _ _ _ Hres) as Ho.
      split.
      * revert Hres. unfold merge_grades_from_master. destruct (_ && _); [done|].
        intros [= <-]. cbn [mr_matched_students].
        apply fold_master_lectures_matched. right. exists l, row.
        rewrite Hhit. split_and!; first [done|by eexists].
      * rewrite Ho. intros Hin%list_elem_of_In. apply filter_In in Hin as [_ Hin].
        apply negb_true_iff in Hin.
        assert (matched_somewhere lecture_data master_df row = true) as Hms.
        { apply matched_somewhere_iff. exists l. rewrite Hhit.
          split_and!; first [done|by eexists]. }
        congruence.
  - vm_compute; reflexivity.
  - vm_compute; reflexivity.
  - cbv zeta. split_and!; vm_compute; reflexivity.
  - vm_compute; reflexivity.
Qed.

(** [master_999] into [lecture_ab] and then [lecture_c]: the one master row
    falls back to the username "alice" in both, and the report ends with
    one record, that of the second table.  [assignment_mixed] into
    [lecture_ab]: its first row is the one row reported. *)
Lemma id_mismatch_recorded_witness :
  let lectures := [("a.csv", lecture_ab); ("c.csv", lecture_c)] in
  (exists res,
     merge_grades_from_master lectures master_999 = Some res
     /\ mr_failed_id_match_rows res
        = [mkMismatch "Liddell, Alice" (CStr "alice@x.edu") "999" (Some "333")])
  /\ (forall acc,
        res_failed_id_match_rows
          (as_results
             (merge_into_lecture "W1 PA" "Student ID" "Percent score"
                (Some "School email") assignment_mixed acc
                ("lecture.csv", lecture_ab)))
        = res_failed_id_match_rows (as_results acc)
          ++ id_mismatch_rows "Student ID" (Some "School email") assignment_mixed
               lecture_ab)
  /\ row_999 ∈ id_mismatch_rows "Student ID" (Some "School email")
                 assignment_mixed lecture_ab
  /\ (row_555 ∉ id_mismatch_rows "Student ID" (Some "School email")
                  assignment_mixed lecture_ab).
Proof.
  intros lectures.
  destruct id_mismatch_recorded_on_username_fallback as (HA & HB & _).
  destruct (HA "W1 PA" "Student ID" "Percent score" (Some "School email")
              assignment_mixed) as (A1 & A2 & _).
  split_and!.
  - destruct (merge_grades_from_master lectures master_999) as [res|] eqn:H.
    + exists res. split; [reflexivity|].
      destruct (HB lectures master_999 res H) as (_ & B2 & _).
      apply Permutation_singleton_r.
      assert (Hrec : omap (last_fallback_record master_999 lectures)
                       (rows master_999)
                     = [mkMismatch "Liddell, Alice" (CStr "alice@x.edu") "999"
                          (Some "333")]) by (vm_compute; reflexivity).
      rewrite <- Hrec. apply B2.
      intros l Hl _ c Hc mc Hmc Hg.
      assert (c = "Student ID") as ->.
      { apply elem_of_cons in Hl as [->|Hl].
        - vm_compute in Hc. by injection Hc as <-.
        - apply list_elem_of_singleton in Hl. rewrite Hl in Hc.
          vm_compute in Hc. by injection Hc as <-. }
      exact (master_999_free "Student ID" (or_introl eq_refl) mc Hmc Hg).
    + exfalso. unfold merge_grades_from_master in H.
      assert (Hc : negb (truthy_opt (find_student_id_column master_999))
                   && negb (truthy_opt (find_email_column master_999)) = false)
        by (vm_compute; reflexivity).
      rewrite Hc in H. discriminate H.
  - intros acc. apply A1; [vm_compute; reflexivity|vm_compute; discriminate].
  - apply A2. split; [left|].
    exists 0%nat, "Student ID", "999", "111".
    split_and!; try (vm_compute; reflexivity). discriminate.
  - intros Hin. apply A2 in Hin as (_ & j & c & sid & d & Hh & _).
    vm_compute in Hh. discriminate Hh.
Defined.
